(** * The interactive pause action (plugins/action/pause.py)

    A shallow embedding of [ActionModule.run] and [ActionModule._c_or_a]:
    the Python locals and the process state (terminal attributes, alarm,
    clock, position in the input stream, output written so far) are one
    explicit state, threaded by a small state-and-exception monad.

    The file has three parts: the module as the source has it, phase by
    phase; the vocabulary of the statements; the lemmas and theorems.

    Conventions of the model.
    - The Python 3 branch is the one modelled.  Python [str] and [bytes] are
      both [list byte]; [str.encode] and
      [to_text(..., errors='surrogate_or_strict')] are the identity (under
      Python 3 the decoder is total and injective).
    - The process counts time in whole alarm ticks (seconds).  A [read(1)]
      blocks for the wait the input stream announces; everything else takes
      no time.  SIGALRM is delivered only while a read is blocked, and when
      data and alarm come at the same tick the alarm wins.
    - [time.time()] and [datetime.now()] read the wall clock, which the
      environment gives in microseconds for every tick of the process; it
      need not go forward.
    - What a descriptor is does not change during a run: a terminal that
      hangs up, after which [os.isatty] turns false, is outside the model.
    - [sys.stdout.fileno()] succeeds.  On a terminal [tcgetattr], [setraw],
      [tcsetattr] and [tcflush] succeed, but for the two look-ups the source
      guards with [except Exception], which may fail.
    - [convert_bool.boolean], the builtin [int] and [tty.setraw] belong to
      libraries: the environment supplies them.
    - [while True] loops carry a fuel argument; [OutOfFuel] means that the
      loop was still running when the fuel was used up, [Blocked] that a
      read never returned. *)

From Stdlib Require Import List ZArith Lia Bool String.
From Stdlib Require Import Strings.Byte Numbers.DecimalString.
Import ListNotations.
Local Open Scope Z_scope.
Local Open Scope list_scope.

(** ** Byte strings *)

Definition bytes := list byte.

Definition bytes_of (s : string) : bytes := list_byte_of_string s.

Definition CR : byte := x0d.
Definition LF : byte := x0a.
Definition ESC : byte := x1b.

Fixpoint bytes_eqb (x y : bytes) : bool :=
  match x, y with
  | [], [] => true
  | a :: x', c :: y' => Byte.eqb a c && bytes_eqb x' y'
  | _, _ => false
  end.

(** [x in s] for two byte strings: [x] is a contiguous run of [s]. *)
Fixpoint bytes_prefixb (x s : bytes) : bool :=
  match x, s with
  | [], _ => true
  | a :: x', c :: s' => Byte.eqb a c && bytes_prefixb x' s'
  | _ :: _, [] => false
  end.

Fixpoint bytes_infixb (x s : bytes) : bool :=
  bytes_prefixb x s ||
  match s with
  | [] => false
  | _ :: s' => bytes_infixb x s'
  end.

(** [x in l] for a list or tuple of byte strings. *)
Definition bytes_mem (x : bytes) (l : list bytes) : bool :=
  existsb (bytes_eqb x) l.

(** [bytes.lower()]: the ASCII capitals are mapped to small letters. *)
Definition lower_byte (c : byte) : byte :=
  let n := Byte.to_N c in
  if ((65 <=? n) && (n <=? 90))%N
  then match Byte.of_N (n + 32) with Some c' => c' | None => c end
  else c.

Definition lower (x : bytes) : bytes := map lower_byte x.

(** [str(n)] and ["%d" % n] for an integer. *)
Definition str_of_int (n : Z) : bytes :=
  bytes_of (NilZero.string_of_int (Z.to_int n)).

(** ** Terminal attributes (the list [termios.tcgetattr] returns) *)

Module Termios.

Record attrs := mk_attrs {
  iflag : Z;
  oflag : Z;
  cflag : Z;
  lflag : Z;
  ispeed : Z;
  ospeed : Z;
  cc : list byte
}.

(** The constants of the [termios] module, with their Linux values. *)
Definition ECHO : Z := 8.
Definition VINTR : nat := 0%nat.
Definition VERASE : nat := 2%nat.

Inductive when := TCSANOW | TCSADRAIN.

(** [new_settings[3] = new_settings[3] | termios.ECHO] *)
Definition with_echo (a : attrs) : attrs :=
  mk_attrs (iflag a) (oflag a) (cflag a) (Z.lor (lflag a) ECHO)
           (ispeed a) (ospeed a) (cc a).

End Termios.

(** ** Task arguments and the execution environment *)

(** A task argument as the playbook loader hands it over. *)
Inductive pyval :=
| PyNone
| PyBool (v : bool)
| PyInt (n : Z)
| PyStr (s : bytes).

(** [self._task.args], restricted to [_VALID_ARGS].  [prompt] is held as
    the text [%s] makes of it. *)
Record task_args := mk_args {
  arg_echo : option pyval;
  arg_prompt : option bytes;
  arg_seconds : option pyval;
  arg_timeout_answer : option pyval
}.

(** What a conversion does with a value: a result, or the exception it
    raises, with its message. *)
Inductive parsed (A : Type) :=
| Parsed (a : A)
| ValueError (m : bytes)
| TypeError (m : bytes).
Arguments Parsed {A} a.
Arguments ValueError {A} m.
Arguments TypeError {A} m.

(** What [self._connection._new_stdin] is. *)
Inductive stdin_kind :=
| StdinNull      (* no [buffer] attribute: AttributeError *)
| StdinClosed    (* a closed file: [fileno()] raises ValueError *)
| StdinPipe      (* an open descriptor that is not a terminal *)
| StdinTty.      (* an open descriptor on a terminal *)

(** What [sys.stdout] is; its [fileno()] is taken to succeed. *)
Inductive stdout_kind :=
| StdoutFile       (* redirected: not a terminal *)
| StdoutSameTty    (* the terminal stdin is on *)
| StdoutOtherTty.  (* another terminal *)

(** One [stdin.read(1)]: the data (at most one byte is taken, none at end of
    file) comes after [wait] ticks, or the read blocks for ever. *)
Inductive read_event :=
| Arrives (wait : nat) (data : bytes)
| Never.

Record env := mk_env {
  (* library functions the module calls *)
  boolean : pyval -> bytes + bool;       (* convert_bool.boolean: TypeError or a bool *)
  py_int : pyval -> parsed Z;            (* the builtin int() *)
  setraw : Termios.attrs -> Termios.attrs; (* the attributes tty.setraw installs *)
  (* module constants, set at import time: [curses.tigetstr] gives None for
     a capability the terminal has not; without curses they are b'\r' and
     b'\x1b[K' *)
  MOVE_TO_BOL : option bytes;
  CLEAR_TO_EOL : option bytes;
  (* the task and its streams *)
  task_name : bytes;                     (* self._task.get_name().strip() *)
  stdin : stdin_kind;
  stdout : stdout_kind;
  stdin_events : nat -> read_event;
  time_time : Z -> Z;                    (* the wall clock, in microseconds, at a tick *)
  (* whether the two guarded tcgetattr look-ups go through *)
  vintr_query_ok : bool;
  verase_query_ok : bool
}.

Inductive fd := FdStdin | FdStdout.

Definition isatty (E : env) (f : fd) : bool :=
  match f with
  | FdStdin => match stdin E with StdinTty => true | _ => false end
  | FdStdout => match stdout E with StdoutFile => false | _ => true end
  end.

(** ** What the module does to the outside, in the order it does it
    (the newest event is the head of the log) *)

Inductive event :=
| EvSignal                                  (* signal.signal(SIGALRM, timeout_handler) *)
| EvAlarm (n : Z)                           (* signal.alarm(n) *)
| EvDisplay (m : bytes)                     (* display.display(m) *)
| EvWarning (m : bytes)                     (* display.warning(m) *)
| EvSetraw (f : fd)                         (* tty.setraw(f) *)
| EvTcsetattr (f : fd) (w : Termios.when) (a : Termios.attrs)
| EvTcflush                                 (* termios.tcflush(stdin, TCIFLUSH) *)
| EvWrite (data : bytes)                    (* stdout.write(data) *)
| EvFlush.                                  (* stdout.flush() *)

(** An event that changes, or tries to change, terminal attributes. *)
Definition terminal_mutation (e : event) : bool :=
  match e with
  | EvSetraw _ | EvTcsetattr _ _ _ => true
  | _ => false
  end.

(** ** The result dictionary *)

Record result := mk_result {
  r_changed : bool;
  r_rc : Z;
  r_stderr : bytes;
  r_stdout : option (Z * bytes);   (* "Paused for %s %s": the duration, in
                                      microseconds, which the text shows
                                      rounded to hundredths of a second, and
                                      the unit *)
  r_start : option Z;
  r_stop : option Z;
  r_delta : option Z;
  r_echo : option bool;            (* None is Python's None *)
  r_failed : bool;                 (* an absent key reads as false *)
  r_msg : option bytes;
  r_user_input : option bytes      (* None: the key is absent *)
}.

(** The erase characters: the [bytes] object of the terminal driver, or the
    fallback list. *)
Inductive erase :=
| EraseBytes (s : bytes)
| EraseList (l : list bytes).

Definition in_erase (k : bytes) (e : erase) : bool :=
  match e with
  | EraseBytes s => bytes_infixb k s
  | EraseList l => bytes_mem k l
  end.

(** ** The state: the process, then the locals of [run] that change after
    the options are read.  An unbound local is [None]. *)

Record state := mk_state {
  w_pos : nat;                           (* reads done on stdin *)
  w_clock : Z;
  w_alarm : option Z;                    (* the tick at which SIGALRM is due *)
  w_tin : Termios.attrs;                 (* the terminal of stdin *)
  w_tout : Termios.attrs;                (* the terminal of stdout, when it is another one *)
  w_log : list event;
  l_stdin_fd : option fd;
  l_stdout : bool;                       (* [stdout] is bound *)
  l_old_settings : option Termios.attrs;
  l_intr : option bytes;
  l_backspace : option erase;
  l_key_pressed : option bytes;
  l_start : Z;
  l_result : result
}.

Definition set_pos v st := mk_state v (w_clock st) (w_alarm st) (w_tin st) (w_tout st) (w_log st) (l_stdin_fd st) (l_stdout st) (l_old_settings st) (l_intr st) (l_backspace st) (l_key_pressed st) (l_start st) (l_result st).
Definition set_clock v st := mk_state (w_pos st) v (w_alarm st) (w_tin st) (w_tout st) (w_log st) (l_stdin_fd st) (l_stdout st) (l_old_settings st) (l_intr st) (l_backspace st) (l_key_pressed st) (l_start st) (l_result st).
Definition set_alarm v st := mk_state (w_pos st) (w_clock st) v (w_tin st) (w_tout st) (w_log st) (l_stdin_fd st) (l_stdout st) (l_old_settings st) (l_intr st) (l_backspace st) (l_key_pressed st) (l_start st) (l_result st).
Definition set_tin v st := mk_state (w_pos st) (w_clock st) (w_alarm st) v (w_tout st) (w_log st) (l_stdin_fd st) (l_stdout st) (l_old_settings st) (l_intr st) (l_backspace st) (l_key_pressed st) (l_start st) (l_result st).
Definition set_tout v st := mk_state (w_pos st) (w_clock st) (w_alarm st) (w_tin st) v (w_log st) (l_stdin_fd st) (l_stdout st) (l_old_settings st) (l_intr st) (l_backspace st) (l_key_pressed st) (l_start st) (l_result st).
Definition set_log v st := mk_state (w_pos st) (w_clock st) (w_alarm st) (w_tin st) (w_tout st) v (l_stdin_fd st) (l_stdout st) (l_old_settings st) (l_intr st) (l_backspace st) (l_key_pressed st) (l_start st) (l_result st).
Definition set_stdin_fd v st := mk_state (w_pos st) (w_clock st) (w_alarm st) (w_tin st) (w_tout st) (w_log st) v (l_stdout st) (l_old_settings st) (l_intr st) (l_backspace st) (l_key_pressed st) (l_start st) (l_result st).
Definition set_stdout v st := mk_state (w_pos st) (w_clock st) (w_alarm st) (w_tin st) (w_tout st) (w_log st) (l_stdin_fd st) v (l_old_settings st) (l_intr st) (l_backspace st) (l_key_pressed st) (l_start st) (l_result st).
Definition set_old_settings v st := mk_state (w_pos st) (w_clock st) (w_alarm st) (w_tin st) (w_tout st) (w_log st) (l_stdin_fd st) (l_stdout st) v (l_intr st) (l_backspace st) (l_key_pressed st) (l_start st) (l_result st).
Definition set_intr v st := mk_state (w_pos st) (w_clock st) (w_alarm st) (w_tin st) (w_tout st) (w_log st) (l_stdin_fd st) (l_stdout st) (l_old_settings st) v (l_backspace st) (l_key_pressed st) (l_start st) (l_result st).
Definition set_backspace v st := mk_state (w_pos st) (w_clock st) (w_alarm st) (w_tin st) (w_tout st) (w_log st) (l_stdin_fd st) (l_stdout st) (l_old_settings st) (l_intr st) v (l_key_pressed st) (l_start st) (l_result st).
Definition set_key_pressed v st := mk_state (w_pos st) (w_clock st) (w_alarm st) (w_tin st) (w_tout st) (w_log st) (l_stdin_fd st) (l_stdout st) (l_old_settings st) (l_intr st) (l_backspace st) v (l_start st) (l_result st).
Definition set_start v st := mk_state (w_pos st) (w_clock st) (w_alarm st) (w_tin st) (w_tout st) (w_log st) (l_stdin_fd st) (l_stdout st) (l_old_settings st) (l_intr st) (l_backspace st) (l_key_pressed st) v (l_result st).
Definition set_result v st := mk_state (w_pos st) (w_clock st) (w_alarm st) (w_tin st) (w_tout st) (w_log st) (l_stdin_fd st) (l_stdout st) (l_old_settings st) (l_intr st) (l_backspace st) (l_key_pressed st) (l_start st) v.

Definition with_user_input (u : bytes) (r : result) : result :=
  mk_result (r_changed r) (r_rc r) (r_stderr r) (r_stdout r) (r_start r) (r_stop r)
            (r_delta r) (r_echo r) (r_failed r) (r_msg r) (Some u).

Definition with_start (t : Z) (r : result) : result :=
  mk_result (r_changed r) (r_rc r) (r_stderr r) (r_stdout r) (Some t) (r_stop r)
            (r_delta r) (r_echo r) (r_failed r) (r_msg r) (r_user_input r).

Definition with_failure (m : bytes) (r : result) : result :=
  mk_result (r_changed r) (r_rc r) (r_stderr r) (r_stdout r) (r_start r) (r_stop r)
            (r_delta r) (r_echo r) true (Some m) (r_user_input r).

(** [result['stop']], [result['delta'] = int(duration)], which drops the
    fraction of a second, and [result['stdout']]. *)
Definition with_summary (stop duration : Z) (unit_name : bytes) (r : result) : result :=
  mk_result (r_changed r) (r_rc r) (r_stderr r) (Some (duration, unit_name)) (r_start r)
            (Some stop) (Some (Z.quot duration 1000000)) (r_echo r) (r_failed r) (r_msg r)
            (r_user_input r).

(** ** The monad: state, Python exceptions, and calls that do not come back *)

Inductive exn :=
| AnsibleTimeoutExceeded
| KeyboardInterrupt
| AnsibleError (m : bytes)
| UnboundLocalError (name : bytes)
| PyTypeError (m : bytes)
| PyKeyError (key : bytes)
| PyIndexError
| TermiosError
| PyOverflowError (m : bytes).

Inductive outcome (A : Type) :=
| Ret (a : A)          (* the code went on with this value *)
| Raise (e : exn)      (* an exception is propagating *)
| Blocked              (* a read that never returns *)
| OutOfFuel.           (* a loop that was still running *)
Arguments Ret {A} a.
Arguments Raise {A} e.
Arguments Blocked {A}.
Arguments OutOfFuel {A}.

Definition M (A : Type) : Type := state -> outcome A * state.

Definition ret {A} (a : A) : M A := fun st => (Ret a, st).

Definition bind {A B} (m : M A) (k : A -> M B) : M B :=
  fun st =>
    match m st with
    | (Ret a, st') => k a st'
    | (Raise e, st') => (Raise e, st')
    | (Blocked, st') => (Blocked, st')
    | (OutOfFuel, st') => (OutOfFuel, st')
    end.

Definition raise {A} (e : exn) : M A := fun st => (Raise e, st).

Definition gets {A} (f : state -> A) : M A := fun st => (Ret (f st), st).

Definition modify (f : state -> state) : M unit := fun st => (Ret tt, f st).

(** [try: m  except <the exceptions h accepts>: h e] *)
Definition try_except {A} (m : M A) (h : exn -> option (M A)) : M A :=
  fun st =>
    match m st with
    | (Raise e, st') =>
        match h e with
        | Some k => k st'
        | None => (Raise e, st')
        end
    | r => r
    end.

(** [try: m  finally: f]: [f] runs when [m] returned or raised; what [m]
    returned or raised stands unless [f] itself does not complete. *)
Definition try_finally {A} (m : M A) (f : M unit) : M A :=
  fun st =>
    match m st with
    | (Ret a, st') =>
        match f st' with
        | (Ret _, st'') => (Ret a, st'')
        | (Raise e, st'') => (Raise e, st'')
        | (Blocked, st'') => (Blocked, st'')
        | (OutOfFuel, st'') => (OutOfFuel, st'')
        end
    | (Raise e, st') =>
        match f st' with
        | (Ret _, st'') => (Raise e, st'')
        | (Raise e', st'') => (Raise e', st'')
        | (Blocked, st'') => (Blocked, st'')
        | (OutOfFuel, st'') => (OutOfFuel, st'')
        end
    | r => r
    end.

Declare Scope pause_scope.
Delimit Scope pause_scope with pause.
Notation "x <- m ;; k" := (bind m (fun x => k))
  (at level 100, m at next level, right associativity) : pause_scope.
Notation "m ;; k" := (bind m (fun _ => k))
  (at level 100, right associativity) : pause_scope.
Local Open Scope pause_scope.

(** Reading a local that may be unbound. *)
Definition local {A} (name : string) (f : state -> option A) : M A :=
  fun st =>
    match f st with
    | Some a => (Ret a, st)
    | None => (Raise (UnboundLocalError (bytes_of name)), st)
    end.

Definition log (e : event) : M unit :=
  modify (fun st => set_log (e :: w_log st) st).

(** ** The module *)

Section Pause.

Variable E : env.

(** *** The calls into the operating system and the display *)

Definition display (m : bytes) : M unit := log (EvDisplay m).

Definition warning (m : bytes) : M unit := log (EvWarning m).

(** [signal.signal(signal.SIGALRM, timeout_handler)] *)
Definition signal_handler : M unit := log EvSignal.

(** [signal.alarm(n)] takes a C [int]: a larger [n] is refused.  [n = 0]
    cancels the alarm, any other [n] sets it [n] ticks ahead. *)
Definition INT_MAX : Z := 2147483647.

Definition signal_alarm (n : Z) : M unit :=
  if INT_MAX <? n
  then raise (PyOverflowError (bytes_of "signed integer is greater than maximum"))
  else if n <? - INT_MAX - 1
  then raise (PyOverflowError (bytes_of "signed integer is less than minimum"))
  else
    modify (fun st =>
      set_log (EvAlarm n :: w_log st)
        (set_alarm (if n =? 0 then None else Some (w_clock st + n)) st)).

(** [stdin.read(1)].  With the alarm set, [timeout_handler] raises as soon
    as the alarm is due, also when data arrives at that very tick. *)
Definition stdin_read1 : M bytes :=
  fun st =>
    match stdin_events E (w_pos st) with
    | Never =>
        match w_alarm st with
        | Some due => (Raise AnsibleTimeoutExceeded, set_alarm None (set_clock due st))
        | None => (Blocked, st)
        end
    | Arrives wait data =>
        let t := w_clock st + Z.of_nat wait in
        match w_alarm st with
        | Some due =>
            if due <=? t
            then (Raise AnsibleTimeoutExceeded, set_alarm None (set_clock due st))
            else (Ret (firstn 1 data), set_pos (S (w_pos st)) (set_clock t st))
        | None => (Ret (firstn 1 data), set_pos (S (w_pos st)) (set_clock t st))
        end
    end.

(** The terminal a descriptor is on. *)
Definition device_attrs (f : fd) (st : state) : Termios.attrs :=
  match f with
  | FdStdin => w_tin st
  | FdStdout => match stdout E with StdoutSameTty => w_tin st | _ => w_tout st end
  end.

Definition set_device_attrs (f : fd) (a : Termios.attrs) (st : state) : state :=
  match f with
  | FdStdin => set_tin a st
  | FdStdout => match stdout E with StdoutSameTty => set_tin a st | _ => set_tout a st end
  end.

(** [termios.tcgetattr(f)] *)
Definition tcgetattr (f : fd) : M Termios.attrs :=
  fun st => if isatty E f then (Ret (device_attrs f st), st) else (Raise TermiosError, st).

(** [termios.tcsetattr(f, w, a)] *)
Definition tcsetattr (f : fd) (w : Termios.when) (a : Termios.attrs) : M unit :=
  fun st =>
    if isatty E f
    then (Ret tt, set_log (EvTcsetattr f w a :: w_log st) (set_device_attrs f a st))
    else (Raise TermiosError, st).

(** [tty.setraw(f)] *)
Definition tty_setraw (f : fd) : M unit :=
  fun st =>
    if isatty E f
    then (Ret tt, set_log (EvSetraw f :: w_log st)
                    (set_device_attrs f (setraw E (device_attrs f st)) st))
    else (Raise TermiosError, st).

(** [termios.tcgetattr(f)[6][idx]] where the look-up is guarded by
    [except Exception]. *)
Definition tcgetattr_cc (ok : bool) (f : fd) (idx : nat) : M bytes :=
  if ok
  then a <- tcgetattr f ;;
       match nth_error (Termios.cc a) idx with
       | Some c => ret [c]
       | None => raise PyIndexError
       end
  else raise TermiosError.

(** [except Exception]: everything but KeyboardInterrupt. *)
Definition except_Exception {A} (k : M A) (e : exn) : option (M A) :=
  match e with
  | KeyboardInterrupt => None
  | _ => Some k
  end.

Definition stdout_write (data : bytes) : M unit :=
  _ <- local "stdout" (fun st => if l_stdout st then Some tt else None) ;;
  log (EvWrite data).

Definition stdout_flush : M unit :=
  _ <- local "stdout" (fun st => if l_stdout st then Some tt else None) ;;
  log EvFlush.

(** [b'\x1b[%s' % cap]: [%s] takes a bytes-like object, and None is not
    one. *)
Definition escape_sequence (cap : option bytes) : M bytes :=
  match cap with
  | Some s => ret (ESC :: bytes_of "[" ++ s)
  | None =>
      raise (PyTypeError (bytes_of "%b requires a bytes-like object, or an object that implements __bytes__, not 'NoneType'"))
  end.

(** [clear_line(stdout)]: the local is read at the call, each sequence is
    formatted and then written. *)
Definition clear_line : M unit :=
  _ <- local "stdout" (fun st => if l_stdout st then Some tt else None) ;;
  bol <- escape_sequence (MOVE_TO_BOL E) ;;
  log (EvWrite bol) ;;
  eol <- escape_sequence (CLEAR_TO_EOL E) ;;
  log (EvWrite eol).

(** [result['user_input']] *)
Definition user_input : M bytes :=
  fun st =>
    match r_user_input (l_result st) with
    | Some u => (Ret u, st)
    | None => (Raise (PyKeyError (bytes_of "user_input")), st)
    end.

Definition set_user_input (u : bytes) : M unit :=
  modify (fun st => set_result (with_user_input u (l_result st)) st).

(** *** Reading the options (lines 195-242) *)

Record config := mk_config {
  c_echo : option bool;            (* None until [echo] is given *)
  c_echo_prompt : bytes;
  c_prompt : bytes;
  c_timeout_answer : option bytes; (* None: the local is unbound *)
  c_seconds : option Z
}.

(** The dictionary after [result.update(...)]; [super().run] is taken to
    hand over an empty one. *)
Definition initial_result : result :=
  mk_result false 0 [] None None None None None false None None.

Definition has_prompt (args : task_args) : bool :=
  match arg_prompt args with Some _ => true | None => false end.

Definition has_timeout_answer (args : task_args) : bool :=
  match arg_timeout_answer args with Some _ => true | None => false end.

(** ["[%s]\n%s%s:" % (name, text, echo_prompt)] *)
Definition format_prompt (text echo_prompt : bytes) : bytes :=
  bytes_of "[" ++ task_name E ++ bytes_of "]" ++ [LF] ++ text ++ echo_prompt ++ bytes_of ":".

Definition default_prompt : bytes :=
  bytes_of "Press enter to continue, Ctrl+C to interrupt".

(** [str.encode(v)], the method taken from the class: it takes a [str] and
    nothing else ([inl]: the message of the TypeError). *)
Definition str_encode (v : pyval) : bytes + bytes :=
  let refused (name : string) :=
    inl (bytes_of "descriptor 'encode' for 'str' objects doesn't apply to a '"
         ++ bytes_of name ++ bytes_of "' object") in
  match v with
  | PyStr s => inr s
  | PyNone => refused "NoneType"%string
  | PyBool _ => refused "bool"%string
  | PyInt _ => refused "int"%string
  end.

(** Lines 225-228: [timeout_answer] is bound, and encoded, only when
    [prompt] is given too. *)
Definition read_timeout_answer (args : task_args) : bytes + option bytes :=
  match arg_prompt args, arg_timeout_answer args with
  | Some _, Some v =>
      match str_encode v with
      | inr s => inr (Some s)
      | inl m => inl m
      end
  | _, _ => inr None
  end.

(** [inl r]: [run] returns [r] at once; [inr c]: the options as resolved. *)
Definition read_options (args : task_args) : M (result + config) :=
  let result := initial_result in
  match
    match arg_echo args with
    | Some v =>
        match boolean E v with
        | inr e => inr (Some e, if e then [] else bytes_of " (output is hidden)")
        | inl m => inl m
        end
    | None => inr (None, [])
    end
  with
  | inl m => ret (inl (with_failure m result))
  | inr (echo, echo_prompt) =>
      let prompt :=
        match arg_prompt args with
        | Some p => format_prompt p echo_prompt
        | None => format_prompt default_prompt echo_prompt
        end in
      match read_timeout_answer args with
      | inl m => raise (PyTypeError m)
      | inr timeout_answer =>
          match arg_seconds args with
          | Some v =>
              match py_int E v with
              | Parsed n => ret (inr (mk_config echo echo_prompt prompt timeout_answer (Some n)))
              | ValueError m =>
                  ret (inl (with_failure
                              (bytes_of "non-integer value given for prompt duration:" ++ [LF] ++ m)
                              result))
              | TypeError m => raise (PyTypeError m)
              end
          | None => ret (inr (mk_config echo echo_prompt prompt timeout_answer None))
          end
      end
  end.

(** *** Arming the alarm and showing the prompt (lines 251-276) *)

Definition clamp_seconds (n : Z) : Z := if n <? 1 then 1 else n.

Definition arm (args : task_args) (c : config) : M unit :=
  match c_seconds c with
  | Some n =>
      if negb (has_prompt args)
      then
        let n := clamp_seconds n in
        signal_handler ;;
        signal_alarm n ;;
        display (bytes_of "Pausing for " ++ str_of_int n ++ bytes_of " seconds" ++ c_echo_prompt c) ;;
        display (bytes_of "(ctrl+C then 'C' = continue early, ctrl+C then 'A' = abort)" ++ [CR]) ;;
        if has_prompt args then display (c_prompt c) else ret tt
      else
        let n := clamp_seconds n in
        signal_handler ;;
        signal_alarm n ;;
        display (bytes_of "Pausing for " ++ str_of_int n ++ bytes_of " seconds!") ;;
        display (c_prompt c)
  | None => display (c_prompt c)
  end.

(** *** Finding stdin and stdout (lines 280-294) *)

Definition open_streams : M unit :=
  modify (set_stdin_fd None) ;;
  match stdin E with
  | StdinNull => ret tt
  | StdinClosed => modify (set_stdout true)
  | StdinPipe | StdinTty =>
      modify (set_stdout true) ;;
      modify (set_stdin_fd (Some FdStdin))
  end.

(** *** Switching the terminal to raw mode (lines 296-327) *)

Definition truthy (e : option bool) : bool :=
  match e with Some true => true | _ => false end.

Definition default_intr : bytes := [x03].
Definition default_backspace : erase := EraseList [[x7f]; [x08]].

Definition enter_raw (c : config) : M unit :=
  stdin_fd <- gets l_stdin_fd ;;
  match stdin_fd with
  | Some f =>
      if isatty E f then
        intr <- try_except (tcgetattr_cc (vintr_query_ok E) f Termios.VINTR)
                           (except_Exception (ret default_intr)) ;;
        modify (set_intr (Some intr)) ;;
        backspace <- try_except (s <- tcgetattr_cc (verase_query_ok E) f Termios.VERASE ;;
                                 ret (EraseBytes s))
                                (except_Exception (ret default_backspace)) ;;
        modify (set_backspace (Some backspace)) ;;
        old_settings <- tcgetattr f ;;
        modify (set_old_settings (Some old_settings)) ;;
        tty_setraw f ;;
        (if isatty E FdStdout then tty_setraw FdStdout else ret tt) ;;
        (if truthy (c_echo c)
         then new_settings <- tcgetattr f ;;
              tcsetattr f Termios.TCSANOW (Termios.with_echo new_settings)
         else ret tt) ;;
        log EvTcflush
      else ret tt
  | None => ret tt
  end.

(** What [enter_raw] comes to on a terminal: the interrupt and erase
    characters it resolves, and the state it leaves. *)
Definition intr_of (a : Termios.attrs) : bytes :=
  if vintr_query_ok E
  then match nth_error (Termios.cc a) Termios.VINTR with
       | Some k => [k]
       | None => default_intr
       end
  else default_intr.

Definition erase_of (a : Termios.attrs) : erase :=
  if verase_query_ok E
  then match nth_error (Termios.cc a) Termios.VERASE with
       | Some k => EraseBytes [k]
       | None => default_backspace
       end
  else default_backspace.

Definition raw_state (c : config) (st : state) : state :=
  let st1 := set_old_settings (Some (w_tin st))
               (set_backspace (Some (erase_of (w_tin st)))
                  (set_intr (Some (intr_of (w_tin st))) st)) in
  let st2 := set_log (EvSetraw FdStdin :: w_log st1)
               (set_device_attrs FdStdin (setraw E (device_attrs FdStdin st1)) st1) in
  let st3 := if isatty E FdStdout
             then set_log (EvSetraw FdStdout :: w_log st2)
                    (set_device_attrs FdStdout (setraw E (device_attrs FdStdout st2)) st2)
             else st2 in
  let st4 := if truthy (c_echo c)
             then set_log (EvTcsetattr FdStdin Termios.TCSANOW (Termios.with_echo (w_tin st3))
                             :: w_log st3)
                    (set_tin (Termios.with_echo (w_tin st3)) st3)
             else st3 in
  set_log (EvTcflush :: w_log st4) st4.

(** *** The interrupt sub-dialog (lines 394-400) *)

Fixpoint _c_or_a (fuel : nat) : M bool :=
  match fuel with
  | O => fun st => (OutOfFuel, st)
  | S fuel' =>
      key_pressed <- stdin_read1 ;;
      if bytes_eqb (lower key_pressed) (bytes_of "a") then ret false
      else if bytes_eqb (lower key_pressed) (bytes_of "c") then ret true
      else _c_or_a fuel'
  end.

(** *** The read loop (lines 329-368) *)

Inductive loop_ctl := Break | Continue.

Definition not_interactive (stdin_fd : option fd) : bool :=
  match stdin_fd with
  | None => true
  | Some f => negb (isatty E f)
  end.

(** The body of the [try] inside the loop. *)
Definition read_key (c : config) : M loop_ctl :=
  stdin_fd <- gets l_stdin_fd ;;
  match stdin_fd with
  | Some _ =>
      key_pressed <- stdin_read1 ;;
      modify (set_key_pressed (Some key_pressed)) ;;
      intr <- local "intr" l_intr ;;
      if bytes_eqb key_pressed intr
      then clear_line ;; raise KeyboardInterrupt
      else ret tt
  | None => ret tt
  end ;;
  if not_interactive stdin_fd
  then
    warning (bytes_of "Not waiting for response to prompt as stdin is not interactive") ;;
    ret Break
  else
    key_pressed <- local "key_pressed" l_key_pressed ;;
    if bytes_mem key_pressed [[CR]; [LF]]
    then clear_line ;; ret Break
    else
      backspace <- local "backspace" l_backspace ;;
      if in_erase key_pressed backspace
      then
        u <- user_input ;;
        set_user_input (removelast u) ;;
        clear_line ;;
        (if truthy (c_echo c) then stdout_write (removelast u) else ret tt) ;;
        stdout_flush ;;
        ret Continue
      else
        u <- user_input ;;
        set_user_input (u ++ key_pressed) ;;
        ret Continue.

(** The handler of [except KeyboardInterrupt]. *)
Definition on_interrupt (fuel : nat) : M loop_ctl :=
  signal_alarm 0 ;;
  display (bytes_of "Press 'C' to continue the play or 'A' to abort " ++ [CR]) ;;
  go_on <- _c_or_a fuel ;;
  if go_on
  then clear_line ;; ret Break
  else clear_line ;; raise (AnsibleError (bytes_of "user requested abort!")).

Definition loop_body (fuel : nat) (c : config) : M loop_ctl :=
  try_except (read_key c)
    (fun e => match e with
              | KeyboardInterrupt => Some (on_interrupt fuel)
              | _ => None
              end).

Fixpoint read_loop (fuel : nat) (c : config) : M unit :=
  match fuel with
  | O => fun st => (OutOfFuel, st)
  | S fuel' =>
      ctl <- loop_body fuel' c ;;
      match ctl with
      | Break => ret tt
      | Continue => read_loop fuel' c
      end
  end.

(** *** The handler of the timeout and the cleanup (lines 370-389) *)

Definition timeout_notice : bytes :=
  bytes_of "TimeoutExceeded. Timeout answer has been chosen: ".

Definition on_timeout (args : task_args) (c : config) : M unit :=
  if has_prompt args && has_timeout_answer args
  then
    timeout_answer <- local "timeout_answer" (fun _ => c_timeout_answer c) ;;
    set_user_input timeout_answer ;;
    clear_line ;;
    u <- user_input ;;
    stdout_write (timeout_notice ++ u)
  else ret tt.

Definition cleanup : M unit :=
  stdin_fd <- gets l_stdin_fd ;;
  old_settings <- gets l_old_settings ;;
  match stdin_fd, old_settings with
  | Some f, Some old =>
      if isatty E f then tcsetattr f Termios.TCSADRAIN old else ret tt
  | _, _ => ret tt
  end ;;
  now <- gets (fun st => time_time E (w_clock st)) ;;
  start <- gets l_start ;;
  modify (fun st =>
    set_result (with_summary now (now - start) (bytes_of "seconds") (l_result st)) st).

(** The [try] block of [run]. *)
Definition pause_body (fuel : nat) (args : task_args) (c : config) : M unit :=
  arm args c ;;
  open_streams ;;
  enter_raw c ;;
  read_loop fuel c.

(** *** [ActionModule.run] *)

Definition run (fuel : nat) (args : task_args) : M result :=
  o <- read_options args ;;
  match o with
  | inl failed => ret failed
  | inr c =>
      now <- gets (fun st => time_time E (w_clock st)) ;;
      modify (set_start now) ;;
      modify (fun st =>
        set_result (with_user_input [] (with_start now initial_result)) st) ;;
      modify (set_stdin_fd None) ;;
      modify (set_old_settings None) ;;
      try_finally
        (try_except (pause_body fuel args c)
           (fun e => match e with
                     | AnsibleTimeoutExceeded => Some (on_timeout args c)
                     | _ => None
                     end))
        cleanup ;;
      gets l_result
  end.

End Pause.

(** The state [run] is entered in: nothing read, no alarm pending, the
    locals unbound. *)
Definition entry (tin tout : Termios.attrs) (clock : Z) : state :=
  mk_state 0 clock None tin tout [] None false None None None None 0
           (mk_result false 0 [] None None None None None false None None).

(** The environment [E] under TERM=dumb, with curses at hand: the terminal
    description has [cr] and no [el]. *)
Definition dumb (E : env) : env :=
  mk_env (boolean E) (py_int E) (setraw E) (Some [CR]) None
         (task_name E) (stdin E) (stdout E) (stdin_events E) (time_time E)
         (vintr_query_ok E) (verase_query_ok E).

(** ** A sample environment: a Linux terminal in its usual cooked mode *)

Module Sample.

(** [tty.setraw] of the Python 3 library, with the Linux flag values. *)
Definition linux_setraw (a : Termios.attrs) : Termios.attrs :=
  let BRKINT := 2 in let ICRNL := 256 in let INPCK := 16 in
  let ISTRIP := 32 in let IXON := 1024 in
  let OPOST := 1 in
  let CSIZE := 48 in let PARENB := 256 in let CS8 := 48 in
  let ICANON := 2 in let IEXTEN := 32768 in let ISIG := 1 in
  Termios.mk_attrs
    (Z.ldiff (Termios.iflag a) (BRKINT + ICRNL + INPCK + ISTRIP + IXON))
    (Z.ldiff (Termios.oflag a) OPOST)
    (Z.lor (Z.ldiff (Termios.cflag a) (CSIZE + PARENB)) CS8)
    (Z.ldiff (Termios.lflag a) (Termios.ECHO + ICANON + IEXTEN + ISIG))
    (Termios.ispeed a) (Termios.ospeed a)
    (* cc[VMIN] = 1, cc[VTIME] = 0, at the indices 6 and 5 *)
    (firstn 5 (Termios.cc a) ++ [x00; x01] ++ skipn 7 (Termios.cc a)).

(** [stty -a] of a fresh terminal: intr = ^C, erase = ^?. *)
Definition cooked : Termios.attrs :=
  Termios.mk_attrs 17664 5 191 35387 15 15
    [x03; x1c; x7f; x15; x04; x00; x01; x00; x11; x13; x1a; x00; x12; x0f; x17; x16; x00].

(** [convert_bool.boolean] on the values the examples use. *)
Definition boolean (v : pyval) : bytes + bool :=
  let yes := map bytes_of ["y"; "yes"; "on"; "1"; "true"; "t"]%string in
  let no := map bytes_of ["n"; "no"; "off"; "0"; "false"; "f"]%string in
  let bad := inl (bytes_of "The value is not a valid boolean.") in
  match v with
  | PyBool e => inr e
  | PyInt 1 => inr true
  | PyInt 0 => inr false
  | PyStr s =>
      if bytes_mem (lower s) yes then inr true
      else if bytes_mem (lower s) no then inr false
      else bad
  | _ => bad
  end.

(** The builtin [int] on the values the examples use. *)
Definition py_int (v : pyval) : parsed Z :=
  match v with
  | PyInt n => Parsed n
  | PyBool e => Parsed (if e then 1 else 0)
  | PyStr s =>
      match NilZero.int_of_string (string_of_list_byte s) with
      | Some n => Parsed (Z.of_int n)
      | None => ValueError (bytes_of "invalid literal for int() with base 10: '" ++ s ++ bytes_of "'")
      end
  | PyNone => TypeError (bytes_of "int() argument must be a string, a bytes-like object or a number, not 'NoneType'")
  end.

(** A stream that delivers the bytes of [keys] one per read, each after
    [wait] ticks, and then behaves as [rest]. *)
Definition typed (wait : nat) (keys : bytes) (rest : read_event) (i : nat) : read_event :=
  match nth_error keys i with
  | Some k => Arrives wait [k]
  | None => rest
  end.

(** A wall clock that keeps step with the process. *)
Definition steady (t : Z) : Z := 1000000 * t.

Definition on (i : stdin_kind) (o : stdout_kind) (events : nat -> read_event) : env :=
  mk_env boolean py_int linux_setraw (Some [CR]) (Some (ESC :: bytes_of "[K"))
         (bytes_of "pause") i o events steady true true.

Definition start : state := entry cooked cooked 100.

End Sample.

(** * The vocabulary of the statements

    Predicates on states and streams, and the states the phases of [run]
    lead to, written as functions of the state they start from. *)

(** ** What the code leaves alone: the snapshot, the attributes of the
    input terminal, the descriptor, and the binding of [stdout] *)

Definition same_terminal (st st' : state) : Prop :=
  l_old_settings st' = l_old_settings st /\
  w_tin st' = w_tin st /\
  l_stdin_fd st' = l_stdin_fd st /\
  l_stdout st' = l_stdout st.

Definition frame {A} (m : M A) : Prop :=
  forall st, same_terminal st (snd (m st)).

(** What a turn of the loop leaves as it found it. *)
Definition same_session (st st' : state) : Prop :=
  l_stdin_fd st' = l_stdin_fd st /\
  l_stdout st' = l_stdout st /\
  l_old_settings st' = l_old_settings st /\
  l_intr st' = l_intr st /\
  l_backspace st' = l_backspace st /\
  l_start st' = l_start st /\
  w_alarm st' = w_alarm st /\
  w_tin st' = w_tin st /\
  w_tout st' = w_tout st.

(** The call came back: it returned or it raised. *)
Definition returned_or_raised {A} (o : outcome A) : Prop :=
  match o with
  | Ret _ | Raise _ => True
  | Blocked | OutOfFuel => False
  end.

(** ** Keystrokes

    A keystroke is a pair: the ticks the read waits for it, and the byte. *)

Definition total_wait (keys : list (nat * byte)) : Z :=
  fold_right (fun wk acc => Z.of_nat (fst wk) + acc) 0 keys.

(** Neither the interrupt character nor an end of line. *)
Definition plain (i : bytes) (k : byte) : Prop :=
  [k] <> i /\ k <> CR /\ k <> LF.

(** What an erase byte and an ordinary byte do to the captured input:
    the first drops the last captured byte, if there is one, the second is
    appended. *)
Definition edit_key (e : erase) (u : bytes) (k : byte) : bytes :=
  if in_erase [k] e then removelast u else u ++ [k].

Definition edit (e : erase) (keys : bytes) (u : bytes) : bytes :=
  fold_left (edit_key e) keys u.

(** The answers of the sub-dialog, and a byte it passes over. *)
Definition is_abort (k : byte) : Prop := k = "a"%byte \/ k = "A"%byte.
Definition is_continue (k : byte) : Prop := k = "c"%byte \/ k = "C"%byte.
Definition ignored (k : byte) : Prop := ~ is_abort k /\ ~ is_continue k.

(** The data of a read, cut to one byte and lower-cased, is [a] or [c]. *)
Definition answers (data : bytes) : bool :=
  bytes_eqb (lower (firstn 1 data)) (bytes_of "a") ||
  bytes_eqb (lower (firstn 1 data)) (bytes_of "c").

(** With [seconds] given, [t] ticks are less than the clamped duration. *)
Definition in_time (c : config) (t : Z) : Prop :=
  match c_seconds c with
  | Some n => t < clamp_seconds n
  | None => True
  end.

(** The alarm, if set, is due later than [t] ticks from now. *)
Definition alarm_after (st : state) (t : Z) : Prop :=
  match w_alarm st with
  | Some due => w_clock st + t < due
  | None => True
  end.

(** The loop is running on a terminal: the locals it reads are bound. *)
Definition ready (i : bytes) (e : erase) (u : bytes) (st : state) : Prop :=
  l_stdin_fd st = Some FdStdin /\
  l_stdout st = true /\
  l_intr st = Some i /\
  l_backspace st = Some e /\
  r_user_input (l_result st) = Some u.

(** ** Malformed options *)

(** [echo] is given and [boolean] raises TypeError with the message [m]. *)
Definition echo_failure (E : env) (args : task_args) (m : bytes) : Prop :=
  exists v, arg_echo args = Some v /\ boolean E v = inl m.

(** The test of [seconds] is reached with a value for which [int] raises
    ValueError with the message [m]. *)
Definition seconds_failure (E : env) (args : task_args) (m : bytes) : Prop :=
  (exists answer, read_timeout_answer args = inr answer) /\
  exists v, arg_seconds args = Some v /\ py_int E v = ValueError m.

Definition seconds_failure_msg (m : bytes) : bytes :=
  bytes_of "non-integer value given for prompt duration:" ++ [LF] ++ m.

Definition not_interactive_warning : bytes :=
  bytes_of "Not waiting for response to prompt as stdin is not interactive".

(** ** What the environment has to offer for the loop to run

    The terminal has both capabilities [clear_line] uses, and the duration
    is one [signal.alarm] takes. *)

Definition capable (E : env) : Prop :=
  exists bol eol, MOVE_TO_BOL E = Some bol /\ CLEAR_TO_EOL E = Some eol.

Definition alarm_fits (c : config) : Prop :=
  match c_seconds c with
  | Some n => clamp_seconds n <= INT_MAX
  | None => True
  end.

(** A capability as it is written, nothing when it is absent. *)
Definition capability (cap : option bytes) : bytes :=
  match cap with
  | Some s => s
  | None => []
  end.

(** ** The states the phases lead to *)

(** The state at the [try]. *)
Definition started (E : env) (st : state) : state :=
  set_old_settings None
    (set_stdin_fd None
       (set_result (with_user_input []
                      (with_start (time_time E (w_clock st)) initial_result))
          (set_start (time_time E (w_clock st)) st))).

(** The state after [arm]. *)
Definition armed (args : task_args) (c : config) (st : state) : state :=
  snd (arm args c st).

(** The state after a read that returned [k] and bound [key_pressed]. *)
Definition tick (wait : nat) (k : bytes) (st : state) : state :=
  set_key_pressed (Some k)
    (set_pos (S (w_pos st)) (set_clock (w_clock st + Z.of_nat wait) st)).

(** The state after reads that returned [keys] and bound nothing. *)
Definition skip (keys : list (nat * byte)) (st : state) : state :=
  set_pos (w_pos st + List.length keys)
    (set_clock (w_clock st + total_wait keys) st).

(** The state after the handler of the interrupt disarmed the alarm and
    asked. *)
Definition asked (st : state) : state :=
  set_log (EvDisplay (bytes_of "Press 'C' to continue the play or 'A' to abort " ++ [CR])
           :: EvAlarm 0 :: w_log st)
    (set_alarm None st).

(** The state after the cleanup, when there was a snapshot [old]. *)
Definition finished (E : env) (old : Termios.attrs) (st : state) : state :=
  let st1 := set_log (EvTcsetattr FdStdin Termios.TCSADRAIN old :: w_log st)
               (set_tin old st) in
  set_result (with_summary (time_time E (w_clock st))
                (time_time E (w_clock st) - l_start st)
                (bytes_of "seconds") (l_result st)) st1.

(** Before the snapshot the input terminal is as it was on entry, with the
    attributes [tin]. *)
Definition untouched (tin : Termios.attrs) (st : state) : Prop :=
  l_old_settings st = None /\ w_tin st = tin.

(** [open_streams] binds the descriptor of stdin or leaves it [None]. *)
Definition opened (tin : Termios.attrs) (st : state) : Prop :=
  untouched tin st /\ (l_stdin_fd st = None \/ l_stdin_fd st = Some FdStdin).

Section Vocabulary.

Variable E : env.

(** Once taken, the snapshot holds the attributes on entry, and it was
  taken from a terminal. *)
Definition snapshot_ok (tin : Termios.attrs) (st : state) : Prop :=
match l_old_settings st with
| None => w_tin st = tin
| Some old => old = tin /\ l_stdin_fd st = Some FdStdin /\ stdin E = StdinTty
end.

(** The stream hands out [keys], one per read, from position [pos] on. *)
Definition delivers (pos : nat) (keys : list (nat * byte)) : Prop :=
forall j wk, nth_error keys j = Some wk ->
             stdin_events E (pos + j) = Arrives (fst wk) [snd wk].

(** The alarm goes off during the read at the current position. *)
Definition alarm_fires (st : state) (due : Z) : Prop :=
w_alarm st = Some due /\
match stdin_events E (w_pos st) with
| Never => True
| Arrives wait _ => due <= w_clock st + Z.of_nat wait
end.

(** The [n]-th read from position [pos] is reached (no read before it
  blocks for ever) and returns an answer. *)
Definition answer_at (pos n : nat) : Prop :=
(forall j, (j < n)%nat -> stdin_events E (pos + j) <> Never) /\
exists wait data,
  stdin_events E (pos + n) = Arrives wait data /\ answers data = true.

(** Every read from position [pos] on returns the empty byte string. *)
Definition exhausted (pos : nat) : Prop :=
forall j, exists wait, stdin_events E (pos + j) = Arrives wait [].

(** The state after [clear_line(stdout)], on a terminal that has both
    capabilities. *)
Definition cleared (st : state) : state :=
set_log (EvWrite (ESC :: bytes_of "[" ++ capability (CLEAR_TO_EOL E))
         :: EvWrite (ESC :: bytes_of "[" ++ capability (MOVE_TO_BOL E)) :: w_log st) st.

(** The state after a turn that read an erase byte or an ordinary byte. *)
Definition key_step (c : config) (e : erase) (u : bytes) (wk : nat * byte) (st : state) : state :=
let st1 := tick (fst wk) [snd wk] st in
if in_erase [snd wk] e
then
  let st2 := cleared (set_result (with_user_input (removelast u) (l_result st1)) st1) in
  let st3 := if truthy (c_echo c)
             then set_log (EvWrite (removelast u) :: w_log st2) st2
             else st2 in
  set_log (EvFlush :: w_log st3) st3
else set_result (with_user_input (u ++ [snd wk]) (l_result st1)) st1.

(** The state after the loop took the keystrokes [keys], none of them the
  interrupt character or an end of line. *)
Fixpoint typed_state (c : config) (e : erase) (u : bytes)
       (keys : list (nat * byte)) (st : state) : state :=
match keys with
| [] => st
| wk :: keys' =>
    typed_state c e (edit_key e u (snd wk)) keys' (key_step c e u wk st)
end.

(** The [try] block with the handler of the timeout. *)
Definition guarded_body (fuel : nat) (args : task_args) (c : config) : M unit :=
try_except (pause_body E fuel args c)
  (fun e => match e with
            | AnsibleTimeoutExceeded => Some (on_timeout E args c)
            | _ => None
            end).

(** The state in which the loop is entered on a terminal. *)
Definition at_loop (args : task_args) (c : config) (st : state) : state :=
raw_state E c
  (set_stdin_fd (Some FdStdin)
     (set_stdout true (set_stdin_fd None (armed args c (started E st))))).

(** The state after the keystrokes [keys] were taken by the loop, in a run
  entered with the terminals at [tin] and [tout]. *)
Definition after_keys (args : task_args) (c : config) (tin tout : Termios.attrs)
         (clock : Z) (keys : list (nat * byte)) : state :=
typed_state c (erase_of E tin) [] keys (at_loop args c (entry tin tout clock)).

(** The state the handler of the timeout leaves. *)
Definition answered (answer : bytes) (st : state) : state :=
let st1 := cleared (set_result (with_user_input answer (l_result st)) st) in
set_log (EvWrite (timeout_notice ++ answer) :: w_log st1) st1.

End Vocabulary.

(** ** Sample runs *)

Module Runs.

Import Sample.

(** A terminal on which the user types [keys] and nothing more. *)
Definition terminal (keys : bytes) : env :=
  on StdinTty StdoutSameTty (typed 0 keys Never).

(** A terminal on which the user types [keys]; then the line hangs up and
    every read returns the empty byte string. *)
Definition hung_up (keys : bytes) : env :=
  on StdinTty StdoutSameTty (typed 0 keys (Arrives 0 [])).

(** stdin is /dev/null: an open descriptor, not a terminal, at its end. *)
Definition dev_null : env :=
  on StdinPipe StdoutFile (fun _ => Arrives 0 []).

(** stdin is a closed file, or there is none. *)
Definition closed : env := on StdinClosed StdoutFile (fun _ => Arrives 0 []).
Definition absent : env := on StdinNull StdoutFile (fun _ => Arrives 0 []).

Definition no_options : task_args := mk_args None None None None.

(** [prompt: X] *)
Definition ask : task_args :=
  mk_args None (Some (bytes_of "X")) None None.

(** [prompt: X, echo: yes] *)
Definition ask_echoing : task_args :=
  mk_args (Some (PyStr (bytes_of "yes"))) (Some (bytes_of "X")) None None.

(** [prompt: X, seconds: 60] *)
Definition ask_for_a_minute : task_args :=
  mk_args None (Some (bytes_of "X")) (Some (PyInt 60)) None.

(** [prompt: X, timeout_answer: Y, seconds: 1] *)
Definition ask_with_default : task_args :=
  mk_args None (Some (bytes_of "X")) (Some (PyInt 1)) (Some (PyStr (bytes_of "Y"))).

(** [seconds: not-a-number] *)
Definition bad_seconds : task_args :=
  mk_args None None (Some (PyStr (bytes_of "not-a-number"))) None.

(** The options of [args] as [read_options] resolves them. *)
Definition resolved (E : env) (args : task_args) : config :=
  match fst (read_options E args start) with
  | Ret (inr c) => c
  | _ => mk_config None [] [] None None
  end.

End Runs.

(** * The vocabulary of the further properties *)

(** ** Footprints: what a piece of code may do to the state

    A footprint is a relation between the state before and the state after;
    code respects it when every run of it, however it ends, stays within. *)

Definition respects (R : state -> state -> Prop) {A} (m : M A) : Prop :=
  forall st, R st (snd (m st)).

(** What a relation has to allow for the display, the alarm, the reads and
    the loop's own locals to respect it. *)
Record loop_footprint (E : env) (c : config) (R : state -> state -> Prop) : Prop := {
  lf_refl : forall st, R st st;
  lf_trans : forall st1 st2 st3, R st1 st2 -> R st2 st3 -> R st1 st3;
  lf_signal : forall st, R st (set_log (EvSignal :: w_log st) st);
  lf_display : forall m st, R st (set_log (EvDisplay m :: w_log st) st);
  lf_warning : forall m st, R st (set_log (EvWarning m :: w_log st) st);
  lf_flush : forall st, R st (set_log (EvFlush :: w_log st) st);
  lf_clear_bol : forall bol st, MOVE_TO_BOL E = Some bol ->
    R st (set_log (EvWrite (ESC :: bytes_of "[" ++ bol) :: w_log st) st);
  lf_clear_eol : forall eol st, CLEAR_TO_EOL E = Some eol ->
    R st (set_log (EvWrite (ESC :: bytes_of "[" ++ eol) :: w_log st) st);
  lf_redraw : truthy (c_echo c) = true ->
    forall u st, R st (set_log (EvWrite u :: w_log st) st);
  lf_alarm : forall n st, 0 <= n -> R st (snd (signal_alarm n st));
  lf_read : forall st, R st (snd (stdin_read1 E st));
  lf_stdin_fd : forall v st, R st (set_stdin_fd v st);
  lf_stdout : forall v st, R st (set_stdout v st);
  lf_key_pressed : forall v st, R st (set_key_pressed v st);
  lf_user_input : forall u st, R st (set_result (with_user_input u (l_result st)) st)
}.

(** What it has to allow besides for the terminal calls and the cleanup. *)
Record terminal_footprint (E : env) (R : state -> state -> Prop) : Prop := {
  tf_intr : forall v st, R st (set_intr v st);
  tf_backspace : forall v st, R st (set_backspace v st);
  tf_old_settings : forall v st, R st (set_old_settings v st);
  tf_setraw : forall f st, R st (snd (tty_setraw E f st));
  tf_tcsetattr : forall f w a st, R st (snd (tcsetattr E f w a st));
  tf_tcflush : forall st, R st (set_log (EvTcflush :: w_log st) st);
  tf_summary : forall stop d u st,
    R st (set_result (with_summary stop d u (l_result st)) st)
}.

(** The fields of the result that are set once, before the [try]. *)
Definition same_header (st st' : state) : Prop :=
  r_changed (l_result st') = r_changed (l_result st) /\
  r_rc (l_result st') = r_rc (l_result st) /\
  r_stderr (l_result st') = r_stderr (l_result st) /\
  r_echo (l_result st') = r_echo (l_result st) /\
  r_failed (l_result st') = r_failed (l_result st) /\
  r_msg (l_result st') = r_msg (l_result st) /\
  r_start (l_result st') = r_start (l_result st) /\
  l_start st' = l_start st.

(** Both terminals keep their attributes and no call that would change
    them is made. *)
Definition calm (st st' : state) : Prop :=
  w_tin st' = w_tin st /\
  w_tout st' = w_tout st /\
  (existsb terminal_mutation (w_log st) = false ->
   existsb terminal_mutation (w_log st') = false).

(** The terminal of stdout, when it is another one, keeps its attributes. *)
Definition same_tout (st st' : state) : Prop := w_tout st' = w_tout st.

(** Every new write to stdout is one of [allowed]. *)
Definition writes_within (allowed : bytes -> Prop) (st st' : state) : Prop :=
  forall d, In (EvWrite d) (w_log st') -> In (EvWrite d) (w_log st) \/ allowed d.

(** What is written to stdout when nothing typed is shown: the two parts of
    [clear_line], and the notice of the timeout with the configured
    answer. *)
Definition hidden_writes (E : env) (c : config) (d : bytes) : Prop :=
  (exists bol, MOVE_TO_BOL E = Some bol /\ d = ESC :: bytes_of "[" ++ bol) \/
  (exists eol, CLEAR_TO_EOL E = Some eol /\ d = ESC :: bytes_of "[" ++ eol) \/
  exists answer, c_timeout_answer c = Some answer /\ d = timeout_notice ++ answer.

(** Code that, when it raises, raises nothing of [X]. *)
Definition never_raises (X : exn -> Prop) {A} (m : M A) : Prop :=
  forall st, match fst (m st) with
             | Raise e => ~ X e
             | _ => True
             end.

(** The two exceptions the module uses for its own control flow. *)
Definition internal (e : exn) : Prop :=
  e = AnsibleTimeoutExceeded \/ e = KeyboardInterrupt.

(** The state in which the loop is entered, whatever stdin is. *)
Definition loop_entry (E : env) (args : task_args) (c : config) (st : state) : state :=
  match stdin E with
  | StdinNull => set_stdin_fd None (armed args c (started E st))
  | StdinClosed => set_stdout true (set_stdin_fd None (armed args c (started E st)))
  | StdinPipe =>
      set_stdin_fd (Some FdStdin)
        (set_stdout true (set_stdin_fd None (armed args c (started E st))))
  | StdinTty => at_loop E args c st
  end.

(** The attributes [enter_raw] leaves on the input terminal before it looks
    at [echo]: [tty.setraw] is applied for stdin, and once more when stdout
    is on the same terminal. *)
Definition raw_attrs (E : env) (a : Termios.attrs) : Termios.attrs :=
  match stdout E with
  | StdoutSameTty => setraw E (setraw E a)
  | _ => setraw E a
  end.

(** ** More sample runs *)

Module MoreRuns.

Import Sample.

(** [seconds: 0]: a pause for a duration, with no prompt. *)
Definition wait_zero : task_args := mk_args None None (Some (PyInt 0)) None.

(** [seconds: 3, timeout_answer: Y]: a timeout answer without a prompt. *)
Definition answer_without_prompt : task_args :=
  mk_args None None (Some (PyInt 3)) (Some (PyStr (bytes_of "Y"))).

(** [prompt: X, echo: no, seconds: 5, timeout_answer: Y] *)
Definition ask_secret : task_args :=
  mk_args (Some (PyStr (bytes_of "no"))) (Some (bytes_of "X")) (Some (PyInt 5))
          (Some (PyStr (bytes_of "Y"))).

(** A pipe that hands over [data], each byte after [wait] ticks. *)
Definition pipe (wait : nat) (data : bytes) : env :=
  on StdinPipe StdoutFile (typed wait data (Arrives 0 [])).

(** A terminal for stdin and another one for stdout. *)
Definition two_terminals (keys : bytes) : env :=
  on StdinTty StdoutOtherTty (typed 0 keys Never).

(** A terminal on which every key takes [wait] ticks to come. *)
Definition slow_terminal (wait : nat) (keys : bytes) : env :=
  on StdinTty StdoutSameTty (typed wait keys Never).

(** [seconds:] with nothing after it, which YAML reads as null. *)
Definition null_seconds : task_args := mk_args None None (Some PyNone) None.

(** [seconds: 2147483648], one more than a C [int] holds. *)
Definition too_long : task_args := mk_args None None (Some (PyInt 2147483648)) None.

(** [prompt: X, timeout_answer: 5, seconds: 1] *)
Definition ask_with_number : task_args :=
  mk_args None (Some (bytes_of "X")) (Some (PyInt 1)) (Some (PyInt 5)).

End MoreRuns.

(** * Properties *)

(** ** Byte strings *)

Lemma bytes_eqb_eq (x y : bytes) : bytes_eqb x y = true <-> x = y.
Proof.
  revert y; induction x as [|a x IH]; intros [|c y]; simpl; split; intros H;
    try reflexivity; try discriminate.
  - apply andb_true_iff in H as [Hac Hxy].
    apply Byte.byte_dec_bl in Hac. apply IH in Hxy. congruence.
  - injection H as -> ->. apply andb_true_iff; split.
    + now apply Byte.byte_dec_lb.
    + now apply IH.
Qed.

Lemma bytes_eqb_refl (x : bytes) : bytes_eqb x x = true.
Proof. now apply bytes_eqb_eq. Qed.

Lemma bytes_eqb_neq (x y : bytes) : x <> y -> bytes_eqb x y = false.
Proof.
  intros H. destruct (bytes_eqb x y) eqn:Heq; [|reflexivity].
  apply bytes_eqb_eq in Heq. contradiction.
Qed.

(** The answers of the sub-dialog: [key.lower() == b'a'] holds of the two
    bytes [a] and [A] only, and likewise for [c]. *)
Lemma lower_is_a (k : byte) :
  bytes_eqb (lower [k]) (bytes_of "a") = true <-> k = "a"%byte \/ k = "A"%byte.
Proof.
  split.
  - destruct k; vm_compute; intros H; try discriminate H; auto.
  - intros [-> | ->]; reflexivity.
Qed.

Lemma lower_is_c (k : byte) :
  bytes_eqb (lower [k]) (bytes_of "c") = true <-> k = "c"%byte \/ k = "C"%byte.
Proof.
  split.
  - destruct k; vm_compute; intros H; try discriminate H; auto.
  - intros [-> | ->]; reflexivity.
Qed.

(** ** What the code leaves alone: the snapshot, the attributes of the
    input terminal, the descriptor, and the binding of [stdout] *)

Lemma same_terminal_refl st : same_terminal st st.
Proof. repeat split. Qed.

Lemma same_terminal_trans st1 st2 st3 :
  same_terminal st1 st2 -> same_terminal st2 st3 -> same_terminal st1 st3.
Proof. unfold same_terminal. intuition congruence. Qed.

Create HintDb frame.

Lemma frame_ret {A} (a : A) : frame (ret a).
Proof. intros st. apply same_terminal_refl. Qed.

Lemma frame_raise {A} (e : exn) : frame (@raise A e).
Proof. intros st. apply same_terminal_refl. Qed.

Lemma frame_gets {A} (f : state -> A) : frame (gets f).
Proof. intros st. apply same_terminal_refl. Qed.

Lemma frame_local {A} (name : string) (f : state -> option A) : frame (local name f).
Proof. intros st. unfold local. destruct (f st); apply same_terminal_refl. Qed.

Lemma frame_bind {A B} (m : M A) (k : A -> M B) :
  frame m -> (forall a, frame (k a)) -> frame (bind m k).
Proof.
  intros Hm Hk st. unfold bind. specialize (Hm st).
  destruct (m st) as [[a | e | | ] st']; simpl in *; try assumption.
  eapply same_terminal_trans; [eassumption | apply Hk].
Qed.

Lemma frame_try_except {A} (m : M A) (h : exn -> option (M A)) :
  frame m -> (forall e k, h e = Some k -> frame k) -> frame (try_except m h).
Proof.
  intros Hm Hh st. unfold try_except. specialize (Hm st).
  destruct (m st) as [[a | e | | ] st']; simpl in *; try assumption.
  destruct (h e) as [k|] eqn:He; simpl; try assumption.
  eapply same_terminal_trans; [eassumption | eapply Hh; eassumption].
Qed.

Lemma frame_if {A} (c : bool) (m1 m2 : M A) :
  frame m1 -> frame m2 -> frame (if c then m1 else m2).
Proof. destruct c; auto. Qed.

Lemma frame_log (e : event) : frame (log e).
Proof. intros st. repeat split. Qed.

#[export] Hint Resolve frame_ret frame_raise frame_gets frame_local frame_bind
  frame_try_except frame_if frame_log : frame.

Section Frames.

Variable E : env.

Lemma frame_signal_alarm n : frame (signal_alarm n).
Proof.
  intros st. unfold signal_alarm.
  destruct (INT_MAX <? n); [|destruct (n <? - INT_MAX - 1)]; repeat split.
Qed.

Lemma frame_stdin_read1 : frame (stdin_read1 E).
Proof.
  intros st. unfold stdin_read1.
  destruct (stdin_events E (w_pos st)) as [wait data|];
    destruct (w_alarm st) as [due|]; try destruct (due <=? _);
    repeat split.
Qed.

Lemma frame_stdout_write data : frame (stdout_write data).
Proof. unfold stdout_write. auto with frame. Qed.

Lemma frame_stdout_flush : frame stdout_flush.
Proof. unfold stdout_flush. auto with frame. Qed.

Hint Resolve frame_signal_alarm frame_stdin_read1 frame_stdout_write
  frame_stdout_flush : frame.

Lemma frame_escape_sequence cap : frame (escape_sequence cap).
Proof. destruct cap; [apply frame_ret | apply frame_raise]. Qed.

Hint Resolve frame_escape_sequence : frame.

Lemma frame_clear_line : frame (clear_line E).
Proof. unfold clear_line. auto 10 with frame. Qed.

Lemma frame_user_input : frame user_input.
Proof.
  intros st. unfold user_input.
  destruct (r_user_input (l_result st)); apply same_terminal_refl.
Qed.

Lemma frame_set_user_input u : frame (set_user_input u).
Proof. intros st. repeat split. Qed.

Lemma frame_set_key_pressed k : frame (modify (set_key_pressed k)).
Proof. intros st. repeat split. Qed.

Hint Resolve frame_clear_line frame_user_input frame_set_user_input
  frame_set_key_pressed : frame.

Lemma frame_c_or_a fuel : frame (_c_or_a E fuel).
Proof.
  induction fuel as [|fuel IH]; simpl.
  - intros st. apply same_terminal_refl.
  - apply frame_bind; auto with frame.
Qed.

Hint Resolve frame_c_or_a : frame.

Lemma frame_on_interrupt fuel : frame (on_interrupt E fuel).
Proof. unfold on_interrupt, display. auto 10 with frame. Qed.

Lemma frame_read_key c : frame (read_key E c).
Proof.
  unfold read_key, warning.
  apply frame_bind; [auto with frame|]. intros [f|];
    (apply frame_bind; [auto 10 with frame|]); intros _;
    auto 20 with frame.
Qed.

Lemma frame_loop_body fuel c : frame (loop_body E fuel c).
Proof.
  unfold loop_body. apply frame_try_except.
  - apply frame_read_key.
  - intros [] k Hk; try discriminate. injection Hk as <-.
    apply frame_on_interrupt.
Qed.

Lemma frame_read_loop fuel c : frame (read_loop E fuel c).
Proof.
  induction fuel as [|fuel IH]; simpl.
  - intros st. apply same_terminal_refl.
  - apply frame_bind; [apply frame_loop_body|]. intros []; auto with frame.
Qed.

Lemma frame_on_timeout args c : frame (on_timeout E args c).
Proof. unfold on_timeout. auto 10 with frame. Qed.

Lemma frame_arm args c : frame (arm args c).
Proof.
  unfold arm, display, signal_handler.
  destruct (c_seconds c); auto 10 with frame.
Qed.

End Frames.

(** ** Entering raw mode on a terminal *)

Section EnterRaw.

Variable E : env.
Hypothesis Htty : stdin E = StdinTty.

Lemma isatty_stdin : isatty E FdStdin = true.
Proof. unfold isatty. now rewrite Htty. Qed.

Lemma enter_raw_tty c st :
  l_stdin_fd st = Some FdStdin ->
  enter_raw E c st = (Ret tt, raw_state E c st).
Proof.
  intros Hfd.
  unfold enter_raw, raw_state, intr_of, erase_of, tcgetattr_cc, tcgetattr,
    tty_setraw, tcsetattr, try_except, bind, gets, modify, ret, raise, log.
  rewrite Hfd. cbv beta iota. rewrite isatty_stdin.
  destruct (vintr_query_ok E), (verase_query_ok E); cbn -[nth_error isatty];
    repeat match goal with
           | |- context [nth_error ?l ?n] => destruct (nth_error l n); cbn -[nth_error isatty]
           end;
    rewrite ?isatty_stdin;
    destruct (isatty E FdStdout); cbn -[nth_error isatty];
    rewrite ?isatty_stdin;
    destruct (truthy (c_echo c)); cbn -[nth_error isatty];
    rewrite ?isatty_stdin; reflexivity.
Qed.

Lemma raw_state_old_settings c st :
  l_old_settings (raw_state E c st) = Some (w_tin st).
Proof.
  unfold raw_state, isatty, set_device_attrs, device_attrs.
  destruct (stdout E), (truthy (c_echo c)); reflexivity.
Qed.

Lemma raw_state_locals c st :
  l_stdin_fd (raw_state E c st) = l_stdin_fd st /\
  l_stdout (raw_state E c st) = l_stdout st /\
  l_intr (raw_state E c st) = Some (intr_of E (w_tin st)) /\
  l_backspace (raw_state E c st) = Some (erase_of E (w_tin st)) /\
  l_result (raw_state E c st) = l_result st /\
  l_start (raw_state E c st) = l_start st.
Proof.
  unfold raw_state, isatty, set_device_attrs, device_attrs.
  destruct (stdout E), (truthy (c_echo c)); repeat split; reflexivity.
Qed.

Lemma raw_state_process c st :
  w_pos (raw_state E c st) = w_pos st /\
  w_clock (raw_state E c st) = w_clock st /\
  w_alarm (raw_state E c st) = w_alarm st.
Proof.
  unfold raw_state, isatty, set_device_attrs, device_attrs.
  destruct (stdout E), (truthy (c_echo c)); repeat split; reflexivity.
Qed.

End EnterRaw.

(** ** The snapshot and its restoration *)

Lemma post_bind {A B} (P Q R : state -> Prop) (m : M A) (k : A -> M B) :
  (forall st, P st -> Q (snd (m st))) ->
  (forall a st, Q st -> R (snd (k a st))) ->
  (forall st, Q st -> R st) ->
  forall st, P st -> R (snd (bind m k st)).
Proof.
  intros Hm Hk HQR st HP. unfold bind. specialize (Hm st HP).
  destruct (m st) as [[a | e | | ] st']; simpl in *; auto.
Qed.

Section Restoration.

Variable E : env.
Variable tin : Termios.attrs.

Lemma untouched_snapshot_ok st : untouched tin st -> snapshot_ok E tin st.
Proof. intros [Hold Htin]. unfold snapshot_ok. now rewrite Hold. Qed.

Lemma snapshot_ok_frame st st' :
  same_terminal st st' -> snapshot_ok E tin st -> snapshot_ok E tin st'.
Proof.
  unfold same_terminal, snapshot_ok. intros (-> & -> & -> & _). exact (fun H => H).
Qed.

Lemma frame_keeps_snapshot {A} (m : M A) :
  frame m -> forall st, snapshot_ok E tin st -> snapshot_ok E tin (snd (m st)).
Proof. intros Hm st. apply snapshot_ok_frame, Hm. Qed.

Lemma frame_keeps_untouched {A} (m : M A) :
  frame m -> forall st, untouched tin st -> untouched tin (snd (m st)).
Proof.
  intros Hm st [Hold Htin]. destruct (Hm st) as (H1 & H2 & _).
  split; congruence.
Qed.

Lemma open_streams_opened st : untouched tin st -> opened tin (snd (open_streams E st)).
Proof.
  intros [Hold Htin]. unfold open_streams, opened, untouched, bind, modify, ret.
  destruct (stdin E); simpl; auto.
Qed.

Lemma enter_raw_snapshot c st : opened tin st -> snapshot_ok E tin (snd (enter_raw E c st)).
Proof.
  intros [[Hold Htin] Hfd].
  destruct (stdin E) eqn:Hin;
    try (unfold enter_raw, bind, gets, isatty, snapshot_ok; simpl;
         destruct Hfd as [-> | ->]; rewrite ?Hin; simpl; now rewrite Hold).
  destruct Hfd as [Hfd | Hfd].
  - unfold enter_raw, bind, gets, snapshot_ok. simpl. rewrite Hfd. simpl.
    now rewrite Hold.
  - rewrite (enter_raw_tty E Hin c st Hfd). simpl.
    unfold snapshot_ok. rewrite raw_state_old_settings.
    rewrite (proj1 (raw_state_locals E c st)). auto.
Qed.

Lemma pause_body_snapshot fuel args c st :
  untouched tin st -> snapshot_ok E tin (snd (pause_body E fuel args c st)).
Proof.
  unfold pause_body.
  apply (post_bind (untouched tin) (untouched tin) (snapshot_ok E tin)).
  - apply frame_keeps_untouched, frame_arm.
  - intros _. apply (post_bind (untouched tin) (opened tin) (snapshot_ok E tin)).
    + apply open_streams_opened.
    + intros _. apply (post_bind (opened tin) (snapshot_ok E tin) (snapshot_ok E tin)).
      * apply enter_raw_snapshot.
      * intros _. apply frame_keeps_snapshot, frame_read_loop.
      * auto.
    + intros st' [H _]. now apply untouched_snapshot_ok.
  - apply untouched_snapshot_ok.
Qed.

Lemma guarded_body_snapshot fuel args c st :
  untouched tin st ->
  snapshot_ok E tin
    (snd (try_except (pause_body E fuel args c)
            (fun e => match e with
                      | AnsibleTimeoutExceeded => Some (on_timeout E args c)
                      | _ => None
                      end) st)).
Proof.
  intros Hst. apply (pause_body_snapshot fuel args c) in Hst.
  unfold try_except.
  destruct (pause_body E fuel args c st) as [[a | e | | ] st']; simpl in *; auto.
  destruct e; simpl; auto.
  apply frame_keeps_snapshot; [apply frame_on_timeout | assumption].
Qed.

(** The cleanup phase completes, and when a snapshot was taken its last
    visible act is to give the snapshot back to the terminal. *)
Lemma cleanup_restores st :
  snapshot_ok E tin st ->
  exists st',
    cleanup E st = (Ret tt, st') /\
    w_tin st' = tin /\
    l_old_settings st' = l_old_settings st /\
    (l_old_settings st <> None ->
     exists l, w_log st' = EvTcsetattr FdStdin Termios.TCSADRAIN tin :: l) /\
    r_user_input (l_result st') = r_user_input (l_result st) /\
    (forall ev, In ev (w_log st) -> In ev (w_log st')).
Proof.
  unfold snapshot_ok, cleanup, bind, gets, modify, ret, tcsetattr. intros H.
  destruct (l_old_settings st) as [old|] eqn:Hold.
  - destruct H as (-> & -> & Hin). unfold isatty. rewrite Hin. simpl.
    eexists; repeat split; simpl; eauto.
  - destruct (l_stdin_fd st); simpl; eexists; repeat split; simpl; eauto;
      intros Hne; now elim Hne.
Qed.

End Restoration.

Lemma read_options_pure E args st : snd (read_options E args st) = st.
Proof.
  unfold read_options.
  destruct (arg_echo args) as [v|]; [destruct (boolean E v) as [m|e]|];
    try reflexivity;
    (destruct (read_timeout_answer args) as [m'|answer]; [reflexivity|]);
    (destruct (arg_seconds args) as [s|]; [destruct (py_int E s)|]; reflexivity).
Qed.

(** C1.  Whenever [run] returns or raises and a snapshot of the terminal
    attributes was taken, the cleanup phase has handed that snapshot back to
    the input terminal (a TCSADRAIN [tcsetattr] is the last thing done to the
    outside), and the attributes of the input terminal are exactly those it
    had when [run] was entered. *)
Theorem run_restores_terminal :
  forall E fuel args tin tout clock o st',
    run E fuel args (entry tin tout clock) = (o, st') ->
    returned_or_raised o ->
    l_old_settings st' <> None ->
    l_old_settings st' = Some tin /\
    w_tin st' = tin /\
    exists l, w_log st' = EvTcsetattr FdStdin Termios.TCSADRAIN tin :: l.
Proof.
  intros E fuel args tin tout clock o st' Hrun Hdone Hsnap.
  unfold run in Hrun. unfold bind at 1 in Hrun.
  pose proof (read_options_pure E args (entry tin tout clock)) as Hpure.
  destruct (read_options E args (entry tin tout clock)) as [[[r | c] | e | | ] st0];
    simpl in Hpure; subst st0;
    try (injection Hrun as <- <-; simpl in *; now elim Hsnap).
  cbv beta iota in Hrun.
  unfold bind at 1 2 3 4 5 6, gets at 1, modify at 1 2 3 4 in Hrun.
  cbv beta iota in Hrun.
  match type of Hrun with
  | context [try_finally ?m _ ?s] =>
      assert (Hst : untouched tin s) by (split; reflexivity);
      pose proof (guarded_body_snapshot E tin fuel args c s Hst) as Hok;
      unfold try_finally in Hrun;
      destruct (m s) as [[a | e | | ] st1]
  end; simpl in Hok;
    try (injection Hrun as <- <-; now elim Hdone);
    destruct (cleanup_restores E tin st1 Hok) as (st2 & Hc & Htin & Hold & Hlog & _);
    rewrite Hc in Hrun; simpl in Hrun; injection Hrun as <- <-;
    rewrite Hold in Hsnap |- *; specialize (Hlog Hsnap);
    (split; [|split; assumption]);
    unfold snapshot_ok in Hok;
    (destruct (l_old_settings st1);
       [destruct Hok as [-> _]; reflexivity | now elim Hsnap]).
Qed.

(** ** One turn of the read loop *)

Lemma bind_ret_eq {A B} (m : M A) (k : A -> M B) st a st' :
  m st = (Ret a, st') -> bind m k st = k a st'.
Proof. intros H. unfold bind. now rewrite H. Qed.

Lemma bind_raise_eq {A B} (m : M A) (k : A -> M B) st e st' :
  m st = (Raise e, st') -> bind m k st = (Raise e, st').
Proof. intros H. unfold bind. now rewrite H. Qed.

#[local] Arguments bytes_eqb : simpl never.
#[local] Arguments bytes_mem : simpl never.
#[local] Arguments lower : simpl never.
#[local] Arguments in_erase : simpl never.
#[local] Arguments Z.add : simpl never.
#[local] Arguments Z.leb : simpl never.
#[local] Arguments bytes_of : simpl never.
#[local] Arguments nth_error : simpl never.

(** Running the monad's plumbing and the record updates, and nothing else. *)
Ltac mred :=
  cbn [bind gets modify ret raise local log try_except fst snd
       w_pos w_clock w_alarm w_tin w_tout w_log l_stdin_fd l_stdout
       l_old_settings l_intr l_backspace l_key_pressed l_start l_result
       set_pos set_clock set_alarm set_tin set_tout set_log set_stdin_fd
       set_stdout set_old_settings set_intr set_backspace set_key_pressed
       set_start set_result
       r_changed r_rc r_stderr r_stdout r_start r_stop r_delta r_echo
       r_failed r_msg r_user_input
       with_user_input with_start with_failure with_summary
       capability negb andb orb firstn].

(** Laying the plumbing open, down to the calls that touch the stream. *)
Ltac munfold :=
  unfold clear_line, escape_sequence, user_input, set_user_input, stdout_write,
    stdout_flush, warning, display, signal_handler, log, local, try_except,
    try_finally, bind, gets, modify, ret, raise.

Lemma total_wait_nonneg keys : 0 <= total_wait keys.
Proof. induction keys as [|[w k] keys IH]; simpl; lia. Qed.

Lemma total_wait_app keys keys' :
  total_wait (keys ++ keys') = total_wait keys + total_wait keys'.
Proof. induction keys as [|[w k] keys IH]; simpl; lia. Qed.

Section Loop.

Variable E : env.

Lemma delivers_cons pos wk keys :
  delivers E pos (wk :: keys) ->
  stdin_events E pos = Arrives (fst wk) [snd wk] /\ delivers E (S pos) keys.
Proof.
  intros H. split.
  - specialize (H 0%nat wk eq_refl). now rewrite Nat.add_0_r in H.
  - intros j wk' Hj. specialize (H (S j) wk' Hj).
    now rewrite Nat.add_succ_r in H.
Qed.

Lemma delivers_app pos keys keys' :
  delivers E pos (keys ++ keys') ->
  delivers E pos keys /\ delivers E (pos + List.length keys) keys'.
Proof.
  revert pos; induction keys as [|wk keys IH]; intros pos H; simpl in *.
  - rewrite Nat.add_0_r. split; [intros [|j] wk' Hj; discriminate Hj | exact H].
  - apply delivers_cons in H as [H0 H]. apply IH in H as [H1 H2]. split.
    + intros [|j] wk' Hj; simpl in Hj.
      * injection Hj as <-. now rewrite Nat.add_0_r.
      * rewrite Nat.add_succ_r. now apply H1.
    + now rewrite Nat.add_succ_r.
Qed.

Lemma stdin_read1_arrives st wait data :
  stdin_events E (w_pos st) = Arrives wait data ->
  alarm_after st (Z.of_nat wait) ->
  stdin_read1 E st =
  (Ret (firstn 1 data), set_pos (S (w_pos st)) (set_clock (w_clock st + Z.of_nat wait) st)).
Proof.
  unfold stdin_read1, alarm_after. intros -> H.
  destruct (w_alarm st) as [due|]; [|reflexivity].
  destruct (Z.leb_spec due (w_clock st + Z.of_nat wait)); [lia | reflexivity].
Qed.

Lemma stdin_read1_timeout st due :
  alarm_fires E st due ->
  stdin_read1 E st = (Raise AnsibleTimeoutExceeded, set_alarm None (set_clock due st)).
Proof.
  unfold stdin_read1, alarm_fires. intros [-> H].
  destruct (stdin_events E (w_pos st)) as [wait data|]; [|reflexivity].
  destruct (Z.leb_spec due (w_clock st + Z.of_nat wait)); [reflexivity | lia].
Qed.

Lemma clear_line_bound st :
  capable E -> l_stdout st = true -> clear_line E st = (Ret tt, cleared E st).
Proof.
  intros (bol & eol & Hbol & Heol) H. unfold cleared. munfold.
  rewrite H, Hbol, Heol. reflexivity.
Qed.

Lemma bytes_mem_newline k :
  bytes_mem [k] [[CR]; [LF]] = true <-> k = CR \/ k = LF.
Proof.
  unfold bytes_mem. simpl. rewrite !orb_true_iff, !bytes_eqb_eq. split.
  - intros [H | [H | H]]; try discriminate H; injection H; auto.
  - intros [-> | ->]; auto.
Qed.

Lemma bytes_mem_plain i k : plain i k -> bytes_mem [k] [[CR]; [LF]] = false.
Proof.
  intros (_ & H1 & H2). destruct (bytes_mem [k] [[CR]; [LF]]) eqn:H; [|reflexivity].
  apply bytes_mem_newline in H as [H | H]; contradiction.
Qed.

Hypothesis Htty : stdin E = StdinTty.
Hypothesis Hcap : capable E.

Lemma loop_body_key fuel c i e u st wk :
  ready i e u st ->
  stdin_events E (w_pos st) = Arrives (fst wk) [snd wk] ->
  alarm_after st (Z.of_nat (fst wk)) ->
  plain i (snd wk) ->
  loop_body E fuel c st = (Ret Continue, key_step E c e u wk st).
Proof.
  intros (Hfd & Hout & Hi & He & Hu) Hev Hal Hplain.
  pose proof Hcap as (bol & eol & Hbol & Heol).
  unfold loop_body, read_key, key_step, tick, cleared, not_interactive. munfold.
  rewrite Hfd. rewrite (stdin_read1_arrives _ _ _ Hev Hal). mred.
  rewrite Hi. rewrite (bytes_eqb_neq _ _ (proj1 Hplain)).
  rewrite (isatty_stdin E Htty). mred.
  rewrite (bytes_mem_plain _ _ Hplain). mred. rewrite He.
  destruct (in_erase [snd wk] e); mred; rewrite Hu;
    [destruct (truthy (c_echo c))|];
    repeat (progress (mred; rewrite ?Hout, ?Hbol, ?Heol)); reflexivity.
Qed.

Lemma loop_body_newline fuel c i e u st wk :
  ready i e u st ->
  stdin_events E (w_pos st) = Arrives (fst wk) [snd wk] ->
  alarm_after st (Z.of_nat (fst wk)) ->
  [snd wk] <> i ->
  snd wk = CR \/ snd wk = LF ->
  loop_body E fuel c st = (Ret Break, cleared E (tick (fst wk) [snd wk] st)).
Proof.
  intros (Hfd & Hout & Hi & He & Hu) Hev Hal Hni Hnl.
  pose proof Hcap as (bol & eol & Hbol & Heol).
  apply bytes_mem_newline in Hnl.
  unfold loop_body, read_key, tick, cleared, not_interactive. munfold.
  rewrite Hfd. rewrite (stdin_read1_arrives _ _ _ Hev Hal). mred.
  rewrite Hi. rewrite (bytes_eqb_neq _ _ Hni).
  rewrite (isatty_stdin E Htty). mred. rewrite Hnl.
  repeat (progress (mred; rewrite ?Hout, ?Hbol, ?Heol)). reflexivity.
Qed.

Lemma loop_body_interrupt fuel c i e u st wk :
  ready i e u st ->
  stdin_events E (w_pos st) = Arrives (fst wk) [snd wk] ->
  alarm_after st (Z.of_nat (fst wk)) ->
  [snd wk] = i ->
  loop_body E fuel c st = on_interrupt E fuel (cleared E (tick (fst wk) [snd wk] st)).
Proof.
  intros (Hfd & Hout & Hi & He & Hu) Hev Hal Hint.
  pose proof Hcap as (bol & eol & Hbol & Heol).
  unfold loop_body, read_key, tick, cleared, not_interactive. munfold.
  rewrite Hfd. rewrite (stdin_read1_arrives _ _ _ Hev Hal). mred.
  rewrite Hi, Hint, bytes_eqb_refl.
  repeat (progress (mred; rewrite ?Hout, ?Hbol, ?Heol)). reflexivity.
Qed.

End Loop.

Section Timeout.

Variable E : env.

Lemma loop_body_timeout fuel c st due :
  l_stdin_fd st = Some FdStdin ->
  alarm_fires E st due ->
  loop_body E fuel c st =
  (Raise AnsibleTimeoutExceeded, set_alarm None (set_clock due st)).
Proof.
  intros Hfd Hal. unfold loop_body, read_key. munfold.
  rewrite Hfd. rewrite (stdin_read1_timeout _ _ _ Hal). reflexivity.
Qed.

Lemma read_loop_timeout fuel c st due :
  l_stdin_fd st = Some FdStdin ->
  alarm_fires E st due ->
  read_loop E (S fuel) c st =
  (Raise AnsibleTimeoutExceeded, set_alarm None (set_clock due st)).
Proof.
  intros Hfd Hal. simpl. unfold bind.
  now rewrite (loop_body_timeout fuel c st due Hfd Hal).
Qed.

End Timeout.

(** ** The interrupt sub-dialog *)

Section SubDialog.

Variable E : env.

Lemma c_or_a_turn fuel st wk :
  w_alarm st = None ->
  stdin_events E (w_pos st) = Arrives (fst wk) [snd wk] ->
  _c_or_a E (S fuel) st =
  let st' := set_pos (S (w_pos st)) (set_clock (w_clock st + Z.of_nat (fst wk)) st) in
  if bytes_eqb (lower [snd wk]) (bytes_of "a") then (Ret false, st')
  else if bytes_eqb (lower [snd wk]) (bytes_of "c") then (Ret true, st')
  else _c_or_a E fuel st'.
Proof.
  intros Hal Hev. cbn [_c_or_a]. unfold bind.
  rewrite (stdin_read1_arrives E st _ _ Hev) by (unfold alarm_after; now rewrite Hal).
  cbn [firstn]. cbv zeta.
  destruct (bytes_eqb (lower [snd wk]) (bytes_of "a")); [reflexivity|].
  destruct (bytes_eqb (lower [snd wk]) (bytes_of "c")); reflexivity.
Qed.

Lemma ignored_tests k :
  ignored k ->
  bytes_eqb (lower [k]) (bytes_of "a") = false /\
  bytes_eqb (lower [k]) (bytes_of "c") = false.
Proof.
  intros [Ha Hc]. split.
  - destruct (bytes_eqb (lower [k]) (bytes_of "a")) eqn:H; [|reflexivity].
    apply lower_is_a in H. contradiction.
  - destruct (bytes_eqb (lower [k]) (bytes_of "c")) eqn:H; [|reflexivity].
    apply lower_is_c in H. contradiction.
Qed.

Lemma skip_nil st :
  skip [] st = set_pos (w_pos st) (set_clock (w_clock st) st).
Proof. unfold skip. simpl. now rewrite Nat.add_0_r, Z.add_0_r. Qed.

Lemma skip_cons wk keys st :
  skip keys (set_pos (S (w_pos st)) (set_clock (w_clock st + Z.of_nat (fst wk)) st)) =
  skip (wk :: keys) st.
Proof.
  unfold skip. simpl.
  rewrite Nat.add_succ_r, Z.add_assoc. reflexivity.
Qed.

(** The sub-dialog passes over [keys] and stops at the answer. *)
Lemma c_or_a_answers keys fuel st wk :
  w_alarm st = None ->
  delivers E (w_pos st) (keys ++ [wk]) ->
  Forall (fun wk' => ignored (snd wk')) keys ->
  (is_abort (snd wk) ->
   _c_or_a E (S (List.length keys + fuel)) st = (Ret false, skip (keys ++ [wk]) st)) /\
  (is_continue (snd wk) ->
   _c_or_a E (S (List.length keys + fuel)) st = (Ret true, skip (keys ++ [wk]) st)).
Proof.
  revert st; induction keys as [|wk0 keys IH]; intros st Hal Hdel Hign.
  - apply delivers_cons in Hdel as [Hev _].
    rewrite (c_or_a_turn _ st wk Hal Hev). cbv zeta.
    assert (Hst : skip [wk] st =
                  set_pos (S (w_pos st)) (set_clock (w_clock st + Z.of_nat (fst wk)) st)).
    { unfold skip. simpl. now rewrite Nat.add_1_r, Z.add_0_r. }
    rewrite <- Hst. split; intros Hk.
    + apply lower_is_a in Hk. now rewrite Hk.
    + pose proof Hk as Hk'. apply lower_is_c in Hk. rewrite Hk.
      destruct (bytes_eqb (lower [snd wk]) (bytes_of "a")) eqn:Ha; [|reflexivity].
      apply lower_is_a in Ha. destruct Ha as [Ha|Ha], Hk' as [Hc|Hc]; congruence.
  - simpl List.length. simpl app in *.
    apply delivers_cons in Hdel as [Hev Hdel].
    inversion Hign as [|? ? Hwk0 Hign']; subst.
    rewrite (c_or_a_turn _ st wk0 Hal Hev). cbv zeta.
    destruct (ignored_tests _ Hwk0) as [-> ->].
    rewrite <- (skip_cons wk0 (keys ++ [wk]) st).
    apply IH; auto.
Qed.

Lemma on_interrupt_answers keys fuel st wk :
  capable E ->
  l_stdout st = true ->
  delivers E (w_pos st) (keys ++ [wk]) ->
  Forall (fun wk' => ignored (snd wk')) keys ->
  (is_abort (snd wk) ->
   on_interrupt E (S (List.length keys + fuel)) st =
   (Raise (AnsibleError (bytes_of "user requested abort!")),
    cleared E (skip (keys ++ [wk]) (asked st)))) /\
  (is_continue (snd wk) ->
   on_interrupt E (S (List.length keys + fuel)) st =
   (Ret Break, cleared E (skip (keys ++ [wk]) (asked st)))).
Proof.
  intros Hcap Hout Hdel Hign.
  destruct (c_or_a_answers keys fuel (asked st) wk eq_refl Hdel Hign) as [Ha Hc].
  split; intros Hk; [specialize (Ha Hk) | specialize (Hc Hk)];
    unfold on_interrupt;
    rewrite (bind_ret_eq _ _ st tt
               (set_log (EvAlarm 0 :: w_log st) (set_alarm None st))) by reflexivity;
    rewrite (bind_ret_eq _ _ _ tt (asked st)) by reflexivity;
    [rewrite (bind_ret_eq _ _ _ _ _ Ha) | rewrite (bind_ret_eq _ _ _ _ _ Hc)];
    rewrite (bind_ret_eq _ _ _ _ _
               (clear_line_bound E (skip (keys ++ [wk]) (asked st)) Hcap Hout));
    reflexivity.
Qed.

End SubDialog.

(** ** Typing a line *)

Lemma same_session_refl st : same_session st st.
Proof. repeat split. Qed.

Lemma same_session_trans st1 st2 st3 :
  same_session st1 st2 -> same_session st2 st3 -> same_session st1 st3.
Proof. unfold same_session. intuition congruence. Qed.

Section Typing.

Variable E : env.
Hypothesis Htty : stdin E = StdinTty.
Hypothesis Hcap : capable E.

Lemma key_step_session c e u wk st : same_session st (key_step E c e u wk st).
Proof.
  unfold key_step, cleared, tick.
  destruct (in_erase [snd wk] e), (truthy (c_echo c)); repeat split.
Qed.

Lemma key_step_input c e u wk st :
  r_user_input (l_result (key_step E c e u wk st)) = Some (edit_key e u (snd wk)).
Proof.
  unfold key_step, edit_key, cleared, tick.
  destruct (in_erase [snd wk] e), (truthy (c_echo c)); reflexivity.
Qed.

Lemma key_step_pos c e u wk st : w_pos (key_step E c e u wk st) = S (w_pos st).
Proof.
  unfold key_step, cleared, tick.
  destruct (in_erase [snd wk] e), (truthy (c_echo c)); reflexivity.
Qed.

Lemma key_step_clock c e u wk st :
  w_clock (key_step E c e u wk st) = w_clock st + Z.of_nat (fst wk).
Proof.
  unfold key_step, cleared, tick.
  destruct (in_erase [snd wk] e), (truthy (c_echo c)); reflexivity.
Qed.

Lemma key_step_ready c i e u wk st :
  ready i e u st -> ready i e (edit_key e u (snd wk)) (key_step E c e u wk st).
Proof.
  intros (Hfd & Hout & Hi & He & Hu).
  destruct (key_step_session c e u wk st) as (H1 & H2 & _ & H4 & H5 & _).
  unfold ready. rewrite H1, H2, H4, H5, key_step_input. auto.
Qed.

Lemma typed_state_facts c i e keys : forall u st,
  ready i e u st ->
  let st' := typed_state E c e u keys st in
  ready i e (edit e (map snd keys) u) st' /\
  same_session st st' /\
  w_pos st' = (w_pos st + List.length keys)%nat /\
  w_clock st' = w_clock st + total_wait keys.
Proof.
  induction keys as [|wk keys IH]; intros u st Hready; simpl.
  - rewrite Nat.add_0_r, Z.add_0_r.
    split; [exact Hready | split; [apply same_session_refl | split; reflexivity]].
  - destruct (IH _ _ (key_step_ready c i e u wk st Hready)) as (H1 & H2 & H3 & H4).
    split; [|split; [|split]].
    + exact H1.
    + eapply same_session_trans; [apply key_step_session | exact H2].
    + rewrite H3, key_step_pos. lia.
    + rewrite H4, key_step_clock. lia.
Qed.

Lemma read_loop_keys c i e keys : forall fuel u st,
  ready i e u st ->
  delivers E (w_pos st) keys ->
  alarm_after st (total_wait keys) ->
  Forall (fun wk => plain i (snd wk)) keys ->
  read_loop E (List.length keys + fuel) c st =
  read_loop E fuel c (typed_state E c e u keys st).
Proof.
  induction keys as [|wk keys IH]; intros fuel u st Hready Hdel Hal Hplain.
  - reflexivity.
  - apply delivers_cons in Hdel as [Hev Hdel].
    inversion Hplain as [|? ? Hwk Hplain']; subst.
    assert (Hal0 : alarm_after st (Z.of_nat (fst wk))).
    { unfold alarm_after in *. destruct (w_alarm st); [|exact I].
      simpl in Hal. pose proof (total_wait_nonneg keys). lia. }
    cbn [List.length Nat.add read_loop typed_state].
    rewrite (bind_ret_eq _ _ _ _ _
               (loop_body_key E Htty Hcap _ c i e u st wk Hready Hev Hal0 Hwk)).
    apply IH.
    + now apply key_step_ready.
    + now rewrite key_step_pos.
    + unfold alarm_after in *.
      rewrite (proj1 (proj2 (proj2 (proj2 (proj2 (proj2 (proj2
                 (key_step_session c e u wk st)))))))).
      destruct (w_alarm st); [|exact I].
      rewrite key_step_clock. simpl in Hal. lia.
    + exact Hplain'.
Qed.

End Typing.

(** ** From the entry of [run] to the loop, and from the loop to the result *)

Section Phases.

Variable E : env.

Lemma run_started fuel args c st :
  read_options E args st = (Ret (inr c), st) ->
  run E fuel args st =
  bind (try_finally (guarded_body E fuel args c) (cleanup E)) (fun _ => gets l_result)
       (started E st).
Proof. intros H. unfold run. rewrite (bind_ret_eq _ _ _ _ _ H). reflexivity. Qed.

Lemma clamp_seconds_pos n : 1 <= clamp_seconds n.
Proof. unfold clamp_seconds. destruct (Z.ltb_spec n 1); lia. Qed.

Lemma signal_alarm_sets n st :
  1 <= n <= INT_MAX ->
  signal_alarm n st =
  (Ret tt, set_log (EvAlarm n :: w_log st) (set_alarm (Some (w_clock st + n)) st)).
Proof.
  intros Hn. unfold signal_alarm.
  destruct (Z.ltb_spec INT_MAX n); [lia|].
  destruct (Z.ltb_spec n (- INT_MAX - 1)); [unfold INT_MAX in *; lia|].
  destruct (Z.eqb_spec n 0); [lia | reflexivity].
Qed.

Lemma signal_alarm_refused n st :
  INT_MAX < n ->
  signal_alarm n st =
  (Raise (PyOverflowError (bytes_of "signed integer is greater than maximum")), st).
Proof.
  intros Hn. unfold signal_alarm.
  destruct (Z.ltb_spec INT_MAX n); [reflexivity | lia].
Qed.

Lemma arm_returns args c st :
  alarm_fits c -> arm args c st = (Ret tt, armed args c st).
Proof.
  unfold alarm_fits, armed, arm.
  destruct (c_seconds c) as [n|]; [|reflexivity]. intros Hn.
  pose proof (clamp_seconds_pos n) as Hpos.
  destruct (has_prompt args); cbn [negb];
    unfold bind, signal_handler, display, log, modify;
    rewrite signal_alarm_sets by lia; reflexivity.
Qed.

Lemma armed_alarm args c st :
  alarm_fits c ->
  w_alarm (armed args c st) =
  match c_seconds c with
  | Some n => Some (w_clock st + clamp_seconds n)
  | None => w_alarm st
  end.
Proof.
  unfold alarm_fits, armed, arm.
  destruct (c_seconds c) as [n|]; [|reflexivity]. intros Hn.
  pose proof (clamp_seconds_pos n) as Hpos.
  destruct (has_prompt args); cbn [negb];
    unfold bind, signal_handler, display, log, modify;
    rewrite signal_alarm_sets by lia; reflexivity.
Qed.

Lemma armed_fields args c st :
  w_pos (armed args c st) = w_pos st /\
  w_clock (armed args c st) = w_clock st /\
  w_tin (armed args c st) = w_tin st /\
  w_tout (armed args c st) = w_tout st /\
  l_result (armed args c st) = l_result st /\
  l_start (armed args c st) = l_start st.
Proof.
  unfold armed, arm, signal_alarm.
  destruct (c_seconds c) as [n|]; [|repeat split].
  destruct (has_prompt args), (INT_MAX <? clamp_seconds n);
    try destruct (clamp_seconds n <? - INT_MAX - 1); repeat split.
Qed.

Hypothesis Htty : stdin E = StdinTty.

Lemma pause_body_tty fuel args c st :
  alarm_fits c ->
  pause_body E fuel args c (started E st) = read_loop E fuel c (at_loop E args c st).
Proof.
  intros Hfits. unfold pause_body.
  rewrite (bind_ret_eq _ _ _ _ _ (arm_returns args c (started E st) Hfits)).
  assert (Hopen : open_streams E (armed args c (started E st)) =
          (Ret tt, set_stdin_fd (Some FdStdin)
                     (set_stdout true (set_stdin_fd None (armed args c (started E st)))))).
  { unfold open_streams. rewrite Htty. reflexivity. }
  rewrite (bind_ret_eq _ _ _ _ _ Hopen).
  rewrite (bind_ret_eq _ _ _ _ _
             (enter_raw_tty E Htty c
                (set_stdin_fd (Some FdStdin)
                   (set_stdout true (set_stdin_fd None (armed args c (started E st)))))
                eq_refl)).
  reflexivity.
Qed.

Lemma at_loop_facts args c st :
  alarm_fits c ->
  let st' := at_loop E args c st in
  ready (intr_of E (w_tin st)) (erase_of E (w_tin st)) [] st' /\
  l_old_settings st' = Some (w_tin st) /\
  w_pos st' = w_pos st /\
  w_clock st' = w_clock st /\
  l_start st' = time_time E (w_clock st) /\
  w_alarm st' = match c_seconds c with
                | Some n => Some (w_clock st + clamp_seconds n)
                | None => w_alarm st
                end.
Proof.
  intros Hfits. unfold at_loop. cbv zeta.
  set (st0 := set_stdin_fd _ _).
  destruct (raw_state_locals E c st0) as (H1 & H2 & H3 & H4 & H5 & H6).
  destruct (raw_state_process E c st0) as (H7 & H8 & H9).
  destruct (armed_fields args c (started E st)) as (A1 & A2 & A3 & A4 & A5 & A6).
  assert (Htin : w_tin st0 = w_tin st) by (unfold st0; mred; rewrite A3; reflexivity).
  unfold ready.
  rewrite H1, H2, H3, H4, H5, H6, H7, H8, H9, raw_state_old_settings, Htin.
  unfold st0. mred. rewrite A1, A2, A5, A6, (armed_alarm _ _ _ Hfits).
  repeat split; reflexivity.
Qed.

Lemma cleanup_tty old st :
  l_stdin_fd st = Some FdStdin ->
  l_old_settings st = Some old ->
  cleanup E st = (Ret tt, finished E old st).
Proof.
  intros Hfd Hold. unfold cleanup, finished, tcsetattr. munfold.
  rewrite Hfd, Hold. rewrite (isatty_stdin E Htty). reflexivity.
Qed.

Lemma run_returns fuel args c st st' old :
  read_options E args st = (Ret (inr c), st) ->
  guarded_body E fuel args c (started E st) = (Ret tt, st') ->
  l_stdin_fd st' = Some FdStdin ->
  l_old_settings st' = Some old ->
  run E fuel args st = (Ret (l_result (finished E old st')), finished E old st').
Proof.
  intros Hopt Hbody Hfd Hold. rewrite (run_started fuel args c st Hopt).
  unfold bind, try_finally. rewrite Hbody, (cleanup_tty old st' Hfd Hold).
  reflexivity.
Qed.

Lemma run_raises fuel args c st st' old e :
  read_options E args st = (Ret (inr c), st) ->
  guarded_body E fuel args c (started E st) = (Raise e, st') ->
  l_stdin_fd st' = Some FdStdin ->
  l_old_settings st' = Some old ->
  run E fuel args st = (Raise e, finished E old st').
Proof.
  intros Hopt Hbody Hfd Hold. rewrite (run_started fuel args c st Hopt).
  unfold bind, try_finally. rewrite Hbody, (cleanup_tty old st' Hfd Hold).
  reflexivity.
Qed.

End Phases.

(** ** A session on a terminal *)

Lemma edit_snoc e keys k u :
  edit e (keys ++ [k]) u = edit_key e (edit e keys u) k.
Proof. unfold edit. now rewrite fold_left_app. Qed.

Lemma edit_key_erase e u k :
  in_erase [k] e = true -> edit_key e u k = removelast u.
Proof. unfold edit_key. now intros ->. Qed.

Lemma edit_key_ordinary e u k :
  in_erase [k] e = false -> edit_key e u k = u ++ [k].
Proof. unfold edit_key. now intros ->. Qed.

Section Session.

Variable E : env.
Hypothesis Htty : stdin E = StdinTty.
Hypothesis Hcap : capable E.

Variables (args : task_args) (c : config).
Hypothesis Hfits : alarm_fits c.
Variables (tin tout : Termios.attrs) (clock : Z).

(** The user types [keys], none of them the interrupt character or an end
    of line, before the alarm is due: the loop takes them. *)
Lemma session_keys keys fuel :
  delivers E 0 keys ->
  Forall (fun wk => plain (intr_of E tin) (snd wk)) keys ->
  in_time c (total_wait keys) ->
  let st := after_keys E args c tin tout clock keys in
  pause_body E (List.length keys + fuel) args c (started E (entry tin tout clock)) = read_loop E fuel c st /\
  ready (intr_of E tin) (erase_of E tin) (edit (erase_of E tin) (map snd keys) []) st /\
  l_old_settings st = Some tin /\
  w_pos st = List.length keys /\
  w_clock st = clock + total_wait keys /\
  w_alarm st = match c_seconds c with
               | Some n => Some (clock + clamp_seconds n)
               | None => None
               end.
Proof.
  intros Hdel Hplain Htime. cbv zeta. unfold after_keys.
  destruct (at_loop_facts E args c (entry tin tout clock) Hfits)
    as (Hready & Hold & Hpos & Hclock & _ & Halarm).
  change (w_tin (entry tin tout clock)) with tin in Hready, Hold.
  change (w_pos (entry tin tout clock)) with 0%nat in Hpos. change (w_clock (entry tin tout clock)) with clock in Hclock, Halarm.
  change (w_alarm (entry tin tout clock)) with (@None Z) in Halarm.
  destruct (typed_state_facts E c (intr_of E tin) (erase_of E tin) keys [] _ Hready) as (H1 & H2 & H3 & H4).
  destruct H2 as (_ & _ & S3 & _ & _ & _ & S7 & _).
  rewrite (pause_body_tty E Htty _ _ _ _ Hfits).
  rewrite (read_loop_keys E Htty Hcap c (intr_of E tin) (erase_of E tin) keys fuel [] _ Hready).
  - rewrite S3, S7, H3, H4, Hold, Hpos, Hclock, Halarm.
    split; [reflexivity | split; [exact H1 | repeat split; reflexivity]].
  - now rewrite Hpos.
  - unfold alarm_after. rewrite Halarm, Hclock. unfold in_time in Htime.
    destruct (c_seconds c); [lia | exact I].
  - exact Hplain.
Qed.

Lemma alarm_after_keys keys wk :
  in_time c (total_wait (keys ++ [wk])) ->
  forall st,
    w_clock st = clock + total_wait keys ->
    w_alarm st = match c_seconds c with
                 | Some n => Some (clock + clamp_seconds n)
                 | None => None
                 end ->
    alarm_after st (Z.of_nat (fst wk)).
Proof.
  unfold in_time, alarm_after. rewrite total_wait_app. simpl.
  intros Htime st -> ->. destruct (c_seconds c); [lia | exact I].
Qed.

Lemma in_time_prefix keys wk :
  in_time c (total_wait (keys ++ [wk])) -> in_time c (total_wait keys).
Proof.
  unfold in_time. rewrite total_wait_app. simpl.
  destruct (c_seconds c); [lia | auto].
Qed.

Hypothesis Hoptions : read_options E args (entry tin tout clock) = (Ret (inr c), (entry tin tout clock)).

(** The line ends with CR or LF. *)
Lemma session_newline keys nl fuel :
  delivers E 0 (keys ++ [nl]) ->
  Forall (fun wk => plain (intr_of E tin) (snd wk)) keys ->
  [snd nl] <> intr_of E tin ->
  snd nl = CR \/ snd nl = LF ->
  in_time c (total_wait (keys ++ [nl])) ->
  let st := cleared E (tick (fst nl) [snd nl] (after_keys E args c tin tout clock keys)) in
  run E (List.length keys + S fuel) args (entry tin tout clock) =
  (Ret (l_result (finished E tin st)), finished E tin st).
Proof.
  intros Hdel Hplain Hni Hnl Htime. cbv zeta.
  apply delivers_app in Hdel as [Hdel Hlast]. apply delivers_cons in Hlast as [Hev _].
  destruct (session_keys keys (S fuel) Hdel Hplain (in_time_prefix _ _ Htime))
    as (Hbody & Hready & Hold & Hpos & Hclock & Halarm).
  rewrite <- Hpos in Hev.
  pose proof (loop_body_newline E Htty Hcap fuel c (intr_of E tin) (erase_of E tin) _ _ nl Hready Hev
                (alarm_after_keys keys nl Htime _ Hclock Halarm) Hni Hnl) as Hturn.
  apply (run_returns E Htty _ args c (entry tin tout clock) _ tin Hoptions).
  - unfold guarded_body, try_except. rewrite Hbody.
    cbn [read_loop]. rewrite (bind_ret_eq _ _ _ _ _ Hturn). reflexivity.
  - exact (proj1 Hready).
  - exact Hold.
Qed.

(** The interrupt character comes, then bytes the sub-dialog passes over,
    then an answer. *)
Lemma session_interrupt keys ik passed answer fuel :
  delivers E 0 (keys ++ [ik] ++ passed ++ [answer]) ->
  Forall (fun wk => plain (intr_of E tin) (snd wk)) keys ->
  [snd ik] = intr_of E tin ->
  Forall (fun wk => ignored (snd wk)) passed ->
  in_time c (total_wait (keys ++ [ik])) ->
  let st := cleared E (skip (passed ++ [answer])
                         (asked (cleared E (tick (fst ik) [snd ik] (after_keys E args c tin tout clock keys))))) in
  let fuel' := (List.length keys + S (S (List.length passed + fuel)))%nat in
  (is_abort (snd answer) ->
   run E fuel' args (entry tin tout clock) =
   (Raise (AnsibleError (bytes_of "user requested abort!")), finished E tin st)) /\
  (is_continue (snd answer) ->
   run E fuel' args (entry tin tout clock) = (Ret (l_result (finished E tin st)), finished E tin st)).
Proof.
  intros Hdel Hplain Hint Hign Htime. cbv zeta.
  rewrite app_assoc in Hdel.
  apply delivers_app in Hdel as [Hdel Hsub].
  assert (Htime' := Htime).
  apply delivers_app in Hdel as [Hdel Hlast]. apply delivers_cons in Hlast as [Hev _].
  destruct (session_keys keys (S (S (List.length passed + fuel))) Hdel Hplain
              (in_time_prefix _ _ Htime))
    as (Hbody & Hready & Hold & Hpos & Hclock & Halarm).
  rewrite <- Hpos in Hev.
  pose proof (loop_body_interrupt E Hcap (S (List.length passed + fuel)) c (intr_of E tin) (erase_of E tin) _ _ ik
                Hready Hev (alarm_after_keys keys ik Htime _ Hclock Halarm) Hint)
    as Hturn.
  rewrite length_app in Hsub. simpl in Hsub.
  assert (Hsub' : delivers E
            (w_pos (cleared E (tick (fst ik) [snd ik] (after_keys E args c tin tout clock keys))))
            (passed ++ [answer])).
  { unfold cleared, tick. mred. rewrite Hpos.
    now replace (S (List.length keys)) with (0 + (List.length keys + 1))%nat by lia. }
  destruct (on_interrupt_answers E passed fuel
              (cleared E (tick (fst ik) [snd ik] (after_keys E args c tin tout clock keys))) answer
              Hcap (proj1 (proj2 Hready)) Hsub' Hign) as [Habort Hcont].
  split; intros Hans.
  - apply (run_raises E Htty _ args c (entry tin tout clock) _ tin _ Hoptions).
    + unfold guarded_body, try_except. rewrite Hbody.
      cbn [read_loop]. unfold bind at 1. rewrite Hturn, (Habort Hans). reflexivity.
    + exact (proj1 Hready).
    + exact Hold.
  - apply (run_returns E Htty _ args c (entry tin tout clock) _ tin Hoptions).
    + unfold guarded_body, try_except. rewrite Hbody.
      cbn [read_loop]. unfold bind at 1. rewrite Hturn, (Hcont Hans). reflexivity.
    + exact (proj1 Hready).
    + exact Hold.
Qed.

End Session.

Lemma after_keys_input E args c tin tout clock keys :
  stdin E = StdinTty ->
  capable E ->
  alarm_fits c ->
  delivers E 0 keys ->
  Forall (fun wk => plain (intr_of E tin) (snd wk)) keys ->
  in_time c (total_wait keys) ->
  r_user_input (l_result (after_keys E args c tin tout clock keys)) =
  Some (edit (erase_of E tin) (map snd keys) []).
Proof.
  intros Htty Hcap Hfits Hdel Hplain Htime.
  destruct (session_keys E Htty Hcap args c Hfits tin tout clock keys 0 Hdel Hplain Htime)
    as (_ & Hready & _).
  exact (proj2 (proj2 (proj2 (proj2 Hready)))).
Qed.

Lemma delivers_prefix E pos keys keys' :
  delivers E pos (keys ++ keys') -> delivers E pos keys.
Proof. intros H. now apply delivers_app in H. Qed.

(** X19.  On a terminal that has both capabilities, with a duration
    [signal.alarm] takes, whatever the user types before the end of the line
    (bytes other than the interrupt character, CR and LF, typed before the
    alarm is due) is folded into the captured input by [edit]: a byte that
    is in the erase sequence drops the last captured byte ([removelast],
    which leaves an empty input empty), any other byte is appended; CR or LF
    then ends the loop and [run] returns that input. *)
Theorem line_editing_captures_line :
  forall E args c tin tout clock keys nl fuel,
    stdin E = StdinTty ->
    capable E ->
    alarm_fits c ->
    read_options E args (entry tin tout clock) = (Ret (inr c), entry tin tout clock) ->
    delivers E 0 (keys ++ [nl]) ->
    Forall (fun wk => plain (intr_of E tin) (snd wk)) keys ->
    [snd nl] <> intr_of E tin ->
    snd nl = CR \/ snd nl = LF ->
    in_time c (total_wait (keys ++ [nl])) ->
    exists r st',
      run E (List.length keys + S fuel) args (entry tin tout clock) = (Ret r, st') /\
      r_user_input r = Some (edit (erase_of E tin) (map snd keys) []).
Proof.
  intros E args c tin tout clock keys nl fuel Htty Hcap Hfits Hopt Hdel Hplain Hni Hnl
         Htime.
  do 2 eexists. split.
  - exact (session_newline E Htty Hcap args c Hfits tin tout clock Hopt keys nl fuel
             Hdel Hplain Hni Hnl Htime).
  - cbn [finished l_result set_result set_log set_tin with_summary r_user_input
         cleared tick set_key_pressed set_pos set_clock].
    apply after_keys_input; auto.
    + exact (delivers_prefix _ _ _ _ Hdel).
    + exact (in_time_prefix c keys nl Htime).
Qed.

(** X20.  On a terminal that has both capabilities, with a duration
    [signal.alarm] takes, when the interrupt character is read (after input
    typed in time) and the first byte of the sub-dialog that is one of
    a, A, c, C is c or C (the bytes before it are passed over, one more read
    for each), [run] returns normally and the captured input is exactly what
    [edit] had accumulated before the interrupt. *)
Theorem continue_keeps_captured_input :
  forall E args c tin tout clock keys ik passed answer fuel,
    stdin E = StdinTty ->
    capable E ->
    alarm_fits c ->
    read_options E args (entry tin tout clock) = (Ret (inr c), entry tin tout clock) ->
    delivers E 0 (keys ++ [ik] ++ passed ++ [answer]) ->
    Forall (fun wk => plain (intr_of E tin) (snd wk)) keys ->
    [snd ik] = intr_of E tin ->
    Forall (fun wk => ignored (snd wk)) passed ->
    is_continue (snd answer) ->
    in_time c (total_wait (keys ++ [ik])) ->
    exists r st',
      run E (List.length keys + S (S (List.length passed + fuel))) args
          (entry tin tout clock) = (Ret r, st') /\
      r_user_input r = Some (edit (erase_of E tin) (map snd keys) []) /\
      w_pos st' = List.length (keys ++ [ik] ++ passed ++ [answer]).
Proof.
  intros E args c tin tout clock keys ik passed answer fuel
         Htty Hcap Hfits Hopt Hdel Hplain Hint Hign Hans Htime.
  destruct (session_interrupt E Htty Hcap args c Hfits tin tout clock Hopt keys ik passed
              answer fuel Hdel Hplain Hint Hign Htime) as [_ Hcont].
  do 2 eexists. split; [exact (Hcont Hans) | split].
  - cbn [finished l_result set_result set_log set_tin with_summary r_user_input
         cleared tick skip asked set_alarm set_key_pressed set_pos set_clock].
    apply after_keys_input; auto.
    + exact (delivers_prefix _ _ _ _ Hdel).
    + exact (in_time_prefix c keys ik Htime).
  - cbn [finished w_pos set_result set_log set_tin cleared tick skip asked set_alarm
         set_key_pressed set_pos set_clock].
    destruct (session_keys E Htty Hcap args c Hfits tin tout clock keys 0
                (delivers_prefix _ _ _ _ Hdel) Hplain (in_time_prefix c keys ik Htime))
      as (_ & _ & _ & Hpos & _).
    unfold after_keys in *. rewrite Hpos. rewrite !length_app. simpl. lia.
Qed.

(** X16.  On a terminal that has both capabilities, with a duration
    [signal.alarm] takes, when the interrupt character is read (after input
    typed in time) and the first byte of the sub-dialog that is one of
    a, A, c, C is a or A, [run] does not return a result: it raises
    AnsibleError "user requested abort!".  By then the cleanup phase has run:
    the last thing done to the outside is the TCSADRAIN [tcsetattr] that
    gives the snapshot back, and the input terminal has its attributes of
    entry. *)
Theorem abort_raises_after_cleanup :
  forall E args c tin tout clock keys ik passed answer fuel,
    stdin E = StdinTty ->
    capable E ->
    alarm_fits c ->
    read_options E args (entry tin tout clock) = (Ret (inr c), entry tin tout clock) ->
    delivers E 0 (keys ++ [ik] ++ passed ++ [answer]) ->
    Forall (fun wk => plain (intr_of E tin) (snd wk)) keys ->
    [snd ik] = intr_of E tin ->
    Forall (fun wk => ignored (snd wk)) passed ->
    is_abort (snd answer) ->
    in_time c (total_wait (keys ++ [ik])) ->
    exists st',
      run E (List.length keys + S (S (List.length passed + fuel))) args
          (entry tin tout clock) =
      (Raise (AnsibleError (bytes_of "user requested abort!")), st') /\
      w_tin st' = tin /\
      exists l, w_log st' = EvTcsetattr FdStdin Termios.TCSADRAIN tin :: l.
Proof.
  intros E args c tin tout clock keys ik passed answer fuel
         Htty Hcap Hfits Hopt Hdel Hplain Hint Hign Hans Htime.
  destruct (session_interrupt E Htty Hcap args c Hfits tin tout clock Hopt keys ik passed
              answer fuel Hdel Hplain Hint Hign Htime) as [Habort _].
  eexists. split; [exact (Habort Hans) | split].
  - reflexivity.
  - eexists. reflexivity.
Qed.

(** ** The timeout answer *)

Lemma read_options_timeout_answer E args st c st' :
  read_options E args st = (Ret (inr c), st') ->
  read_timeout_answer args = inr (c_timeout_answer c).
Proof.
  unfold read_options.
  destruct (arg_echo args) as [v|]; [destruct (boolean E v) as [m|b]|];
    try discriminate;
    (destruct (read_timeout_answer args) as [m'|answer]; [discriminate|]);
    (destruct (arg_seconds args) as [s|]; [destruct (py_int E s)|]);
    try discriminate; unfold ret; intros H; injection H as <- _; reflexivity.
Qed.

Lemma alarm_fits_dec c : alarm_fits c \/ ~ alarm_fits c.
Proof.
  unfold alarm_fits. destruct (c_seconds c) as [n|]; [|now left].
  destruct (Z.le_gt_cases (clamp_seconds n) INT_MAX); [now left | right; lia].
Qed.

(** A duration that [signal.alarm] refuses: [arm] raises OverflowError, with
    the handler installed and nothing else done. *)
Lemma arm_refused args c st :
  ~ alarm_fits c ->
  arm args c st =
  (Raise (PyOverflowError (bytes_of "signed integer is greater than maximum")),
   set_log (EvSignal :: w_log st) st).
Proof.
  unfold alarm_fits, arm. destruct (c_seconds c) as [n|]; [|tauto]. intros Hn.
  destruct (has_prompt args); cbn [negb];
    unfold bind, signal_handler, display, log, modify;
    rewrite signal_alarm_refused by lia; reflexivity.
Qed.

Section TimeoutAnswer.

Variable E : env.

Lemma loop_body_no_fd fuel c st :
  l_stdin_fd st = None ->
  loop_body E fuel c st =
  (Ret Break, set_log (EvWarning not_interactive_warning :: w_log st) st).
Proof.
  intros Hfd. unfold loop_body, read_key, not_interactive. munfold.
  rewrite Hfd. reflexivity.
Qed.

Lemma read_loop_raises_bound fuel c st e st' :
  l_stdin_fd st = None \/ l_stdout st = true ->
  read_loop E fuel c st = (Raise e, st') ->
  l_stdout st' = true.
Proof.
  intros [Hfd | Hout] Hloop.
  - destruct fuel as [|fuel]; [discriminate Hloop|].
    cbn [read_loop] in Hloop.
    rewrite (bind_ret_eq _ _ _ _ _ (loop_body_no_fd fuel c st Hfd)) in Hloop.
    discriminate Hloop.
  - pose proof (frame_read_loop E fuel c st) as (_ & _ & _ & H).
    rewrite Hloop in H. simpl in H. congruence.
Qed.

(** Once the alarm is set the [try] block gets to the loop, and then either
    there is no descriptor to read from or [stdout] is bound. *)
Lemma pause_body_loop args c st :
  alarm_fits c ->
  exists st2,
    (forall fuel, pause_body E fuel args c st = read_loop E fuel c st2) /\
    (l_stdin_fd st2 = None \/ l_stdout st2 = true).
Proof.
  intros Hfits. unfold pause_body.
  destruct (stdin E) eqn:Hin.
  - exists (set_stdin_fd None (armed args c st)). split; [|now left].
    intros fuel. rewrite (bind_ret_eq _ _ _ _ _ (arm_returns args c st Hfits)).
    unfold open_streams. rewrite Hin. reflexivity.
  - exists (set_stdout true (set_stdin_fd None (armed args c st))). split; [|now left].
    intros fuel. rewrite (bind_ret_eq _ _ _ _ _ (arm_returns args c st Hfits)).
    unfold open_streams. rewrite Hin. reflexivity.
  - exists (set_stdin_fd (Some FdStdin)
              (set_stdout true (set_stdin_fd None (armed args c st)))).
    split; [|now right].
    intros fuel. rewrite (bind_ret_eq _ _ _ _ _ (arm_returns args c st Hfits)).
    unfold open_streams, enter_raw, isatty. munfold. rewrite Hin. mred.
    rewrite ?Hin. reflexivity.
  - exists (raw_state E c
              (set_stdin_fd (Some FdStdin)
                 (set_stdout true (set_stdin_fd None (armed args c st))))).
    split.
    + intros fuel. rewrite (bind_ret_eq _ _ _ _ _ (arm_returns args c st Hfits)).
      assert (Hopen : open_streams E (armed args c st) =
              (Ret tt, set_stdin_fd (Some FdStdin)
                         (set_stdout true (set_stdin_fd None (armed args c st))))).
      { unfold open_streams. rewrite Hin. reflexivity. }
      rewrite (bind_ret_eq _ _ _ _ _ Hopen).
      rewrite (bind_ret_eq _ _ _ _ _
                 (enter_raw_tty E Hin c
                    (set_stdin_fd (Some FdStdin)
                       (set_stdout true (set_stdin_fd None (armed args c st))))
                    eq_refl)).
      reflexivity.
    + right. now rewrite (proj1 (proj2 (raw_state_locals E c _))).
Qed.

Lemma pause_body_timeout_bound fuel args c st st' :
  pause_body E fuel args c st = (Raise AnsibleTimeoutExceeded, st') ->
  l_stdout st' = true.
Proof.
  destruct (alarm_fits_dec c) as [Hfits | Hno].
  - destruct (pause_body_loop args c st Hfits) as (st2 & Hloop & Hst2).
    rewrite Hloop. now apply read_loop_raises_bound.
  - unfold pause_body. rewrite (bind_raise_eq _ _ _ _ _ (arm_refused args c st Hno)).
    discriminate.
Qed.

Lemma on_timeout_substitutes args c answer st :
  capable E ->
  has_prompt args = true ->
  has_timeout_answer args = true ->
  c_timeout_answer c = Some answer ->
  l_stdout st = true ->
  on_timeout E args c st = (Ret tt, answered E answer st).
Proof.
  intros (bol & eol & Hbol & Heol) Hp Ha Hc Hout. unfold on_timeout, answered, cleared.
  rewrite Hp, Ha. munfold. rewrite Hc. mred.
  repeat (progress (mred; rewrite ?Hout, ?Hbol, ?Heol)). reflexivity.
Qed.

(** Whenever the [try] block is left by AnsibleTimeoutExceeded and both
    [prompt] and a text for [timeout_answer] were given, [run] returns, with
    the timeout answer as the input and the notice written. *)
Lemma timeout_handled fuel args c answer tin tout clock st1 :
  capable E ->
  read_options E args (entry tin tout clock) = (Ret (inr c), entry tin tout clock) ->
  has_prompt args = true ->
  arg_timeout_answer args = Some (PyStr answer) ->
  pause_body E fuel args c (started E (entry tin tout clock)) =
    (Raise AnsibleTimeoutExceeded, st1) ->
  exists r st',
    run E fuel args (entry tin tout clock) = (Ret r, st') /\
    r_user_input r = Some answer /\
    In (EvWrite (timeout_notice ++ answer)) (w_log st').
Proof.
  intros Hcap Hopt Hp Ha Hbody.
  assert (Hc : c_timeout_answer c = Some answer).
  { pose proof (read_options_timeout_answer _ _ _ _ _ Hopt) as H.
    unfold read_timeout_answer, has_prompt in *. rewrite Ha in H.
    destruct (arg_prompt args); [|discriminate].
    simpl in H. now injection H as <-. }
  assert (Ha' : has_timeout_answer args = true)
    by (unfold has_timeout_answer; now rewrite Ha).
  pose proof (pause_body_timeout_bound _ _ _ _ _ Hbody) as Hout.
  assert (Hok : snapshot_ok E tin st1).
  { pose proof (pause_body_snapshot E tin fuel args c (started E (entry tin tout clock))) as H.
    rewrite Hbody in H. apply H. split; reflexivity. }
  assert (Hok' : snapshot_ok E tin (answered E answer st1)).
  { revert Hok. apply snapshot_ok_frame. repeat split. }
  destruct (cleanup_restores E tin _ Hok') as (st3 & Hclean & _ & _ & _ & Hin & Hlog).
  exists (l_result st3), st3. split; [|split].
  - rewrite (run_started E fuel args c _ Hopt).
    unfold bind, try_finally, guarded_body, try_except. rewrite Hbody.
    rewrite (on_timeout_substitutes args c answer st1 Hcap Hp Ha' Hc Hout).
    rewrite Hclean. reflexivity.
  - rewrite Hin. reflexivity.
  - apply Hlog. left. reflexivity.
Qed.

End TimeoutAnswer.

(** X17.  With [prompt], a text for [timeout_answer] and [seconds] given (a
    duration [signal.alarm] takes), stdin an open descriptor and a terminal
    that has both capabilities: when the alarm comes due during a read of
    the loop (after any keystrokes typed in time on a terminal; the next
    byte comes too late or never), [run] returns a result, so
    AnsibleTimeoutExceeded does not reach the caller; the captured input is
    the timeout answer, whatever had been typed, and the notice naming the
    answer was written to stdout. *)
Theorem timeout_substitutes_answer :
  forall E args c answer n tin tout clock keys fuel,
    stdin E = StdinTty \/ (stdin E = StdinPipe /\ keys = []) ->
    capable E ->
    read_options E args (entry tin tout clock) = (Ret (inr c), entry tin tout clock) ->
    has_prompt args = true ->
    arg_timeout_answer args = Some (PyStr answer) ->
    c_seconds c = Some n ->
    clamp_seconds n <= INT_MAX ->
    delivers E 0 keys ->
    Forall (fun wk => plain (intr_of E tin) (snd wk)) keys ->
    total_wait keys < clamp_seconds n ->
    match stdin_events E (List.length keys) with
    | Never => True
    | Arrives wait _ => clamp_seconds n <= total_wait keys + Z.of_nat wait
    end ->
    exists r st',
      run E (List.length keys + S fuel) args (entry tin tout clock) = (Ret r, st') /\
      r_user_input r = Some answer /\
      In (EvWrite (bytes_of "TimeoutExceeded. Timeout answer has been chosen: " ++ answer))
         (w_log st').
Proof.
  intros E args c answer n tin tout clock keys fuel Hin Hcap Hopt Hp Ha Hn Hmax Hdel
         Hplain Htime Hlate.
  assert (Hfits : alarm_fits c) by (unfold alarm_fits; now rewrite Hn).
  destruct Hin as [Htty | [Hpipe ->]].
  - assert (Htime' : in_time c (total_wait keys)) by (unfold in_time; now rewrite Hn).
    destruct (session_keys E Htty Hcap args c Hfits tin tout clock keys (S fuel) Hdel
                Hplain Htime')
      as (Hbody & Hready & _ & Hpos & Hclock & Halarm).
    rewrite Hn in Halarm.
    eapply (timeout_handled E _ args c answer tin tout clock _ Hcap Hopt Hp Ha).
    rewrite Hbody. apply (read_loop_timeout E fuel c _ (clock + clamp_seconds n)).
    + exact (proj1 Hready).
    + split; [exact Halarm|]. rewrite Hpos, Hclock.
      destruct (stdin_events E (List.length keys)); [lia | exact I].
  - simpl List.length in *. simpl total_wait in *.
    eapply (timeout_handled E _ args c answer tin tout clock _ Hcap Hopt Hp Ha).
    unfold pause_body.
    rewrite (bind_ret_eq _ _ _ _ _ (arm_returns args c _ Hfits)).
    assert (Hloop : forall st,
              bind (open_streams E) (fun _ => bind (enter_raw E c) (fun _ => read_loop E (S fuel) c)) st =
              read_loop E (S fuel) c
                (set_stdin_fd (Some FdStdin) (set_stdout true (set_stdin_fd None st)))).
    { intros st. unfold open_streams, enter_raw, isatty. munfold. rewrite Hpipe. mred.
      rewrite ?Hpipe. reflexivity. }
    rewrite Hloop.
    apply (read_loop_timeout E fuel c _ (clock + clamp_seconds n)); [reflexivity|].
    destruct (armed_fields args c (started E (entry tin tout clock)))
      as (A1 & A2 & _).
    split.
    + mred. rewrite (armed_alarm _ _ _ Hfits), Hn. reflexivity.
    + mred. rewrite A1, A2. simpl w_pos. simpl w_clock.
      destruct (stdin_events E 0); [lia | exact I].
Qed.

(** ** Malformed options *)

(** When [int] rejects the type of [seconds] (None, a list) rather than
    its text, the TypeError is not caught: it leaves [run], again before
    anything was touched. *)
Lemma seconds_type_error_propagates E fuel args st v m :
  (forall w, arg_echo args = Some w -> exists e, boolean E w = inr e) ->
  (exists answer, read_timeout_answer args = inr answer) ->
  arg_seconds args = Some v ->
  py_int E v = TypeError m ->
  run E fuel args st = (Raise (PyTypeError m), st).
Proof.
  intros Hecho [answer Ha] Hv Hm. unfold run, read_options, bind, raise.
  destruct (arg_echo args) as [w|].
  - destruct (Hecho w eq_refl) as [e ->]. now rewrite Ha, Hv, Hm.
  - now rewrite Ha, Hv, Hm.
Qed.

(** X18.  When [echo] does not parse as a boolean ([boolean] raises its
    TypeError), or the test of [seconds] is reached and [int] raises
    ValueError, [run] returns a failed result that carries the description
    of the parse failure, and the state it returns in is the very state it
    was entered in: no alarm was set, no terminal attribute was read or
    changed, nothing was displayed or written. *)
Theorem malformed_option_fails_early :
  forall E fuel args st,
    (exists m, echo_failure E args m) \/ (exists m, seconds_failure E args m) ->
    exists r,
      run E fuel args st = (Ret r, st) /\
      r_failed r = true /\
      ((exists m, echo_failure E args m /\ r_msg r = Some m) \/
       (exists m, seconds_failure E args m /\ r_msg r = Some (seconds_failure_msg m))).
Proof.
  intros E fuel args st H.
  unfold echo_failure, seconds_failure in H |- *.
  unfold run, read_options, bind, ret.
  destruct (arg_echo args) as [v|] eqn:Hecho.
  - destruct (boolean E v) as [m|e] eqn:Hbool.
    + eexists. split; [reflexivity|]. split; [reflexivity|].
      left. exists m. split; [exists v; auto | reflexivity].
    + destruct H as [(m & v' & Hv' & Hm) | (m & (answer & Ha) & v' & Hv' & Hm)].
      * injection Hv' as <-. rewrite Hbool in Hm. discriminate.
      * rewrite Ha, Hv', Hm. eexists. split; [reflexivity|]. split; [reflexivity|].
        right. exists m. split; [split; [exists answer | exists v']; auto | reflexivity].
  - destruct H as [(m & v' & Hv' & Hm) | (m & (answer & Ha) & v' & Hv' & Hm)].
    + discriminate.
    + rewrite Ha, Hv', Hm. eexists. split; [reflexivity|]. split; [reflexivity|].
      right. exists m. split; [split; [exists answer | exists v']; auto | reflexivity].
Qed.

(** ** Termination of the sub-dialog *)

Section SubDialogTermination.

Variable E : env.

Lemma c_or_a_read fuel st wait data :
  w_alarm st = None ->
  stdin_events E (w_pos st) = Arrives wait data ->
  _c_or_a E (S fuel) st =
  let st' := set_pos (S (w_pos st)) (set_clock (w_clock st + Z.of_nat wait) st) in
  if bytes_eqb (lower (firstn 1 data)) (bytes_of "a") then (Ret false, st')
  else if bytes_eqb (lower (firstn 1 data)) (bytes_of "c") then (Ret true, st')
  else _c_or_a E fuel st'.
Proof.
  intros Hal Hev. cbn [_c_or_a]. unfold bind.
  rewrite (stdin_read1_arrives E st _ _ Hev) by (unfold alarm_after; now rewrite Hal).
  cbv zeta.
  destruct (bytes_eqb (lower (firstn 1 data)) (bytes_of "a")); [reflexivity|].
  destruct (bytes_eqb (lower (firstn 1 data)) (bytes_of "c")); reflexivity.
Qed.

Lemma c_or_a_blocked fuel st :
  w_alarm st = None ->
  stdin_events E (w_pos st) = Never ->
  _c_or_a E (S fuel) st = (Blocked, st).
Proof.
  intros Hal Hev. cbn [_c_or_a]. unfold bind, stdin_read1.
  now rewrite Hev, Hal.
Qed.

Lemma c_or_a_returns_answer fuel : forall st b st',
  w_alarm st = None ->
  _c_or_a E fuel st = (Ret b, st') ->
  exists n, answer_at E (w_pos st) n.
Proof.
  induction fuel as [|fuel IH]; intros st b st' Hal Hrun; [discriminate Hrun|].
  destruct (stdin_events E (w_pos st)) as [wait data|] eqn:Hev.
  - rewrite (c_or_a_read fuel st wait data Hal Hev) in Hrun. cbv zeta in Hrun.
    destruct (answers data) eqn:Hans.
    + exists 0%nat. split; [intros j Hj; lia|].
      exists wait, data. now rewrite Nat.add_0_r.
    + unfold answers in Hans. apply orb_false_iff in Hans as [Ha Hc].
      rewrite Ha, Hc in Hrun.
      apply IH in Hrun as [n [Hreach (w & d & Hn & Hd)]]; [|exact Hal].
      cbn [w_pos set_pos] in Hreach, Hn.
      exists (S n). split.
      * intros [|j] Hj.
        -- rewrite Nat.add_0_r, Hev. discriminate.
        -- rewrite Nat.add_succ_r. apply Hreach. lia.
      * exists w, d. now rewrite Nat.add_succ_r.
  - rewrite (c_or_a_blocked fuel st Hal Hev) in Hrun. discriminate Hrun.
Qed.

Lemma c_or_a_answer_returns n : forall st,
  w_alarm st = None ->
  answer_at E (w_pos st) n ->
  exists b st', _c_or_a E (S n) st = (Ret b, st').
Proof.
  induction n as [|n IH]; intros st Hal [Hreach (w & d & Hn & Hd)].
  - rewrite Nat.add_0_r in Hn.
    rewrite (c_or_a_read 0 st w d Hal Hn). cbv zeta.
    unfold answers in Hd. apply orb_true_iff in Hd.
    destruct (bytes_eqb (lower (firstn 1 d)) (bytes_of "a")); [eauto|].
    destruct Hd as [Hd | ->]; [discriminate Hd | eauto].
  - destruct (stdin_events E (w_pos st)) as [wait data|] eqn:Hev.
    + rewrite (c_or_a_read (S n) st wait data Hal Hev). cbv zeta.
      destruct (bytes_eqb (lower (firstn 1 data)) (bytes_of "a")); [eauto|].
      destruct (bytes_eqb (lower (firstn 1 data)) (bytes_of "c")); [eauto|].
      apply IH; [exact Hal|]. cbn [w_pos set_pos]. split.
      * intros j Hj. specialize (Hreach (S j)).
        rewrite Nat.add_succ_r in Hreach. apply Hreach. lia.
      * exists w, d. rewrite Nat.add_succ_r in Hn. auto.
    + exfalso. apply (Hreach 0%nat); [lia|]. now rewrite Nat.add_0_r.
Qed.

Lemma c_or_a_exhausted fuel : forall st,
  w_alarm st = None ->
  exhausted E (w_pos st) ->
  exists st', _c_or_a E fuel st = (OutOfFuel, st') /\ w_alarm st' = None.
Proof.
  induction fuel as [|fuel IH]; intros st Hal Hex.
  - exists st. split; [reflexivity | exact Hal].
  - destruct (Hex 0%nat) as [wait Hev]. rewrite Nat.add_0_r in Hev.
    rewrite (c_or_a_read fuel st wait [] Hal Hev). cbv zeta.
    change (bytes_eqb (lower (firstn 1 [])) (bytes_of "a")) with false.
    change (bytes_eqb (lower (firstn 1 [])) (bytes_of "c")) with false.
    cbv iota. apply IH; [exact Hal|].
    intros j. cbn [w_pos set_pos]. destruct (Hex (S j)) as [w Hj].
    exists w. now rewrite Nat.add_succ_r in Hj.
Qed.

End SubDialogTermination.

(** On a terminal, when the first byte read is the interrupt character and
    the stream is exhausted after it, [run] is still in the sub-dialog
    whatever the fuel, with or without [seconds]. *)
Lemma interrupt_then_exhausted_never_returns E args c tin tout clock wait k :
  stdin E = StdinTty ->
  capable E ->
  alarm_fits c ->
  read_options E args (entry tin tout clock) = (Ret (inr c), entry tin tout clock) ->
  stdin_events E 0 = Arrives wait [k] ->
  [k] = intr_of E tin ->
  in_time c (Z.of_nat wait) ->
  exhausted E 1 ->
  forall fuel, exists st', run E fuel args (entry tin tout clock) = (OutOfFuel, st').
Proof.
  intros Htty Hcap Hfits Hopt Hev Hint Htime Hex fuel.
  rewrite (run_started E fuel args c _ Hopt).
  unfold bind at 1, try_finally, guarded_body, try_except.
  rewrite (pause_body_tty E Htty _ _ _ _ Hfits).
  destruct fuel as [|fuel]; [eexists; reflexivity|].
  destruct (at_loop_facts E args c (entry tin tout clock) Hfits)
    as (Hready & _ & Hpos & Hclock & _ & Halarm).
  cbn [w_pos w_clock w_alarm w_tin entry] in Hready, Hpos, Hclock, Halarm.
  assert (Hal : alarm_after (at_loop E args c (entry tin tout clock)) (Z.of_nat wait)).
  { unfold alarm_after. rewrite Halarm, Hclock. unfold in_time in Htime.
    destruct (c_seconds c); [lia | exact I]. }
  rewrite <- Hpos in Hev.
  pose proof (loop_body_interrupt E Hcap fuel c _ _ _ _ (wait, k) Hready Hev Hal Hint)
    as Hturn.
  cbn [fst snd] in Hturn.
  cbn [read_loop]. unfold bind at 1. rewrite Hturn.
  unfold on_interrupt.
  rewrite (bind_ret_eq _ _ _ tt
             (set_log (EvAlarm 0 :: w_log (cleared E (tick wait [k] (at_loop E args c (entry tin tout clock)))))
                (set_alarm None (cleared E (tick wait [k] (at_loop E args c (entry tin tout clock)))))))
    by reflexivity.
  rewrite (bind_ret_eq _ _ _ tt
             (asked (cleared E (tick wait [k] (at_loop E args c (entry tin tout clock))))))
    by reflexivity.
  destruct (c_or_a_exhausted E fuel
              (asked (cleared E (tick wait [k] (at_loop E args c (entry tin tout clock)))))
              eq_refl) as (st' & Hsub & _).
  { intros j. cbn [asked cleared tick w_pos set_log set_alarm set_key_pressed set_pos set_clock].
    rewrite Hpos. exact (Hex j). }
  unfold bind. rewrite Hsub. eexists; reflexivity.
Qed.

(** ** The sample streams *)

Lemma typed_delivers i o wait keys rest :
  delivers (Sample.on i o (Sample.typed wait keys rest)) 0 (map (pair wait) keys).
Proof.
  intros j wk Hj. simpl. unfold Sample.typed.
  rewrite nth_error_map in Hj.
  destruct (nth_error keys j); [injection Hj as <-; reflexivity | discriminate Hj].
Qed.

(** C10.  With the alarm disarmed, as it is when [run] enters the
    sub-dialog, [_c_or_a] returns if and only if some read it gets to (no
    earlier read blocks for ever) returns a byte that lower-cases to [a] or
    [c].  On an exhausted stream, where every read returns the empty byte
    string, it is still looping whatever the fuel.  And so is [run] as a
    whole, also with [seconds] given: on a terminal that hangs up after the
    interrupt character, [seconds: 60] does not bound the call. *)
Theorem sub_dialog_termination :
  (forall E st,
     w_alarm st = None ->
     (exists fuel b st', _c_or_a E fuel st = (Ret b, st')) <->
     (exists n, answer_at E (w_pos st) n)) /\
  (forall E st fuel,
     w_alarm st = None ->
     exhausted E (w_pos st) ->
     exists st', _c_or_a E fuel st = (OutOfFuel, st')) /\
  (arg_seconds Runs.ask_for_a_minute = Some (PyInt 60) /\
   py_int (Runs.hung_up [x03]) (PyInt 60) = Parsed 60 /\
   forall fuel, exists st',
     run (Runs.hung_up [x03]) fuel Runs.ask_for_a_minute Sample.start = (OutOfFuel, st')).
Proof.
  split; [|split].
  - intros E st Hal. split.
    + intros (fuel & b & st' & Hrun).
      exact (c_or_a_returns_answer E fuel st b st' Hal Hrun).
    + intros [n Hn].
      destruct (c_or_a_answer_returns E n st Hal Hn) as (b & st' & Hrun).
      exists (S n), b, st'. exact Hrun.
  - intros E st fuel Hal Hex.
    destruct (c_or_a_exhausted E fuel st Hal Hex) as (st' & Hrun & _).
    exists st'. exact Hrun.
  - split; [reflexivity | split; [reflexivity|]].
    apply (interrupt_then_exhausted_never_returns
             (Runs.hung_up [x03]) Runs.ask_for_a_minute
             (Runs.resolved (Runs.hung_up [x03]) Runs.ask_for_a_minute)
             Sample.cooked Sample.cooked 100 0 x03).
    + reflexivity.
    + do 2 eexists. split; reflexivity.
    + vm_compute. discriminate.
    + reflexivity.
    + reflexivity.
    + reflexivity.
    + vm_compute. reflexivity.
    + intros j. exists 0%nat. destruct j; reflexivity.
Qed.

(** C7.  With stdin an open descriptor that is not a terminal (/dev/null)
    and no options, the first turn of the loop reads [intr], which is bound
    only on a terminal: [run] raises UnboundLocalError, no warning is shown
    and no result is returned.  With stdin closed or absent, [run] warns,
    returns an empty input and makes no terminal call. *)
Theorem non_terminal_descriptor_raises :
  (forall fuel,
     let out := run Runs.dev_null (S fuel) Runs.no_options Sample.start in
     fst out = Raise (UnboundLocalError (bytes_of "intr")) /\
     (forall m, ~ In (EvWarning m) (w_log (snd out)))) /\
  (forall fuel,
     let out := run Runs.closed (S fuel) Runs.no_options Sample.start in
     (exists r, fst out = Ret r /\ r_user_input r = Some []) /\
     In (EvWarning not_interactive_warning) (w_log (snd out)) /\
     existsb terminal_mutation (w_log (snd out)) = false) /\
  (forall fuel,
     let out := run Runs.absent (S fuel) Runs.no_options Sample.start in
     (exists r, fst out = Ret r /\ r_user_input r = Some []) /\
     In (EvWarning not_interactive_warning) (w_log (snd out)) /\
     existsb terminal_mutation (w_log (snd out)) = false).
Proof.
  split; [|split]; intros fuel out; subst out; vm_compute.
  - split; [reflexivity|]. intros m [H | []]; discriminate H.
  - split; [eexists; split; reflexivity|].
    split; [left; reflexivity | reflexivity].
  - split; [eexists; split; reflexivity|].
    split; [left; reflexivity | reflexivity].
Qed.

(** C8.  The alarm is armed before the loop, and the handler of the
    interrupt disarms it; the other ways out of the loop do not.  With
    [prompt: X, seconds: 60] on a terminal, the user presses Enter at once:
    [run] returns, [signal.alarm(0)] was never called, and the alarm is
    still due 60 ticks after entry.  The same holds when stdin is closed
    and the loop is left with the warning. *)
Theorem newline_leaves_alarm_armed :
  (forall fuel,
     let out := run (Runs.terminal [LF]) (S fuel) Runs.ask_for_a_minute Sample.start in
     (exists r, fst out = Ret r) /\
     In (EvAlarm 60) (w_log (snd out)) /\
     ~ In (EvAlarm 0) (w_log (snd out)) /\
     w_alarm (snd out) = Some (w_clock Sample.start + 60)) /\
  (forall fuel,
     let out := run Runs.closed (S fuel) Runs.ask_for_a_minute Sample.start in
     (exists r, fst out = Ret r) /\
     ~ In (EvAlarm 0) (w_log (snd out)) /\
     w_alarm (snd out) = Some (w_clock Sample.start + 60)) /\
  (forall fuel,
     let out := run (Runs.terminal [x03; "c"%byte]) (S (S fuel))
                    Runs.ask_for_a_minute Sample.start in
     (exists r, fst out = Ret r) /\
     In (EvAlarm 0) (w_log (snd out)) /\
     w_alarm (snd out) = None).
Proof.
  split; [|split]; intros fuel out; subst out; vm_compute.
  - split; [eexists; reflexivity|].
    split; [tauto|].
    split; [|reflexivity].
    intuition discriminate.
  - split; [eexists; reflexivity|].
    split; [|reflexivity].
    intuition discriminate.
  - split; [eexists; reflexivity|].
    split; [|reflexivity].
    tauto.
Qed.

(** C9.  Without an [echo] option the local [echo] stays None, which is
    false where the code tests it: the terminal is left without ECHO for the
    whole loop (no TCSANOW [tcsetattr] is made), and the result's [echo] is
    None.  With [echo: yes] the loop runs with ECHO set, and the result's
    [echo] is None all the same. *)
Theorem echo_default_and_result_echo :
  (let E := Runs.terminal ("a"%byte :: [LF]) in
   let c := Runs.resolved E Runs.ask in
   read_options E Runs.ask Sample.start = (Ret (inr c), Sample.start) /\
   c_echo c = None /\
   truthy (c_echo c) = false /\
   Z.land (Termios.lflag (w_tin (at_loop E Runs.ask c Sample.start))) Termios.ECHO = 0 /\
   forall fuel,
     let out := run E (S (S fuel)) Runs.ask Sample.start in
     (exists r, fst out = Ret r /\ r_echo r = None /\ r_user_input r = Some (bytes_of "a")) /\
     (forall a, ~ In (EvTcsetattr FdStdin Termios.TCSANOW a) (w_log (snd out)))) /\
  (let E := Runs.terminal ("a"%byte :: [LF]) in
   let c := Runs.resolved E Runs.ask_echoing in
   read_options E Runs.ask_echoing Sample.start = (Ret (inr c), Sample.start) /\
   c_echo c = Some true /\
   Z.land (Termios.lflag (w_tin (at_loop E Runs.ask_echoing c Sample.start))) Termios.ECHO
     = Termios.ECHO /\
   forall fuel,
     let out := run E (S (S fuel)) Runs.ask_echoing Sample.start in
     exists r, fst out = Ret r /\ r_echo r = None).
Proof.
  split; vm_compute.
  - repeat (split; [reflexivity|]).
    intros fuel. split.
    + eexists. repeat split; reflexivity.
    + intros a. intuition discriminate.
  - repeat (split; [reflexivity|]).
    intros fuel. eexists. split; reflexivity.
Qed.

(** ** Where TypeError leaves [run]

    Under TERM=dumb [curses.tigetstr('el')] is None, and [clear_line]
    raises TypeError at its second write, wherever it is called: at the
    interrupt character, at Enter, at an erase character and in the handler
    of the timeout.  [int] raises it for a [seconds] that has no value. *)

(** C2.  Under TERM=dumb, with [prompt: X], the user types the interrupt
    character and then A: the interrupt character is read, [clear_line]
    raises TypeError before KeyboardInterrupt is raised, and that is what
    leaves [run], after the cleanup.  AnsibleError is not raised, the
    question of the sub-dialog is never displayed, and the A is never
    read. *)
Theorem abort_lost_without_el :
  forall fuel,
    let out := run (dumb (Runs.terminal [x03; "A"%byte])) (S fuel) Runs.ask Sample.start in
    (exists m, fst out = Raise (PyTypeError m)) /\
    fst out <> Raise (AnsibleError (bytes_of "user requested abort!")) /\
    w_pos (snd out) = 1%nat /\
    ~ In (EvDisplay (bytes_of "Press 'C' to continue the play or 'A' to abort " ++ [CR]))
         (w_log (snd out)) /\
    w_tin (snd out) = Sample.cooked.
Proof.
  intros fuel out; subst out; vm_compute.
  split; [eexists; reflexivity|].
  split; [discriminate|].
  split; [reflexivity|].
  split; [intuition discriminate | reflexivity].
Qed.

(** C3.  Under TERM=dumb, with [prompt: X, timeout_answer: Y, seconds: 1]
    and no keystroke: the alarm fires, the handler puts Y in the result and
    calls [clear_line], which raises TypeError.  [run] returns no result,
    and the notice of the substitution is never written. *)
Theorem timeout_answer_lost_without_el :
  forall fuel,
    let out := run (dumb (Runs.terminal [])) (S fuel) Runs.ask_with_default Sample.start in
    (exists m, fst out = Raise (PyTypeError m)) /\
    (forall r, fst out <> Ret r) /\
    ~ In (EvWrite (bytes_of "TimeoutExceeded. Timeout answer has been chosen: Y"))
         (w_log (snd out)).
Proof.
  intros fuel out; subst out; vm_compute.
  split; [eexists; reflexivity|].
  split; [discriminate | intuition discriminate].
Qed.

(** C4.  [seconds:] with no value (YAML null), whatever stdin and stdout are:
    [int(None)] raises TypeError, which the [except ValueError] of the
    test does not catch.  [run] raises it instead of returning the failed
    result, in the state it was entered in. *)
Theorem null_seconds_raise :
  forall i o events fuel st,
    run (Sample.on i o events) fuel MoreRuns.null_seconds st =
    (Raise (PyTypeError (bytes_of "int() argument must be a string, a bytes-like object or a number, not 'NoneType'")),
     st).
Proof.
  intros i o events fuel st.
  apply (seconds_type_error_propagates (Sample.on i o events) fuel MoreRuns.null_seconds
           st PyNone).
  - intros w Hw. discriminate Hw.
  - eexists. reflexivity.
  - reflexivity.
  - reflexivity.
Qed.

(** C5.  Under TERM=dumb, with [prompt: X, echo: yes]: the user types a, b
    and the erase character, and [clear_line], called to redraw the line,
    raises TypeError at this third key; the c and the Enter are never
    read and no input is returned.  Enter alone at the prompt ends the same
    way. *)
Theorem line_editing_lost_without_el :
  (forall fuel,
     let out := run (dumb (Runs.terminal ["a"%byte; "b"%byte; x7f; x7f; "c"%byte; LF]))
                    (S (S (S fuel))) Runs.ask_echoing Sample.start in
     (exists m, fst out = Raise (PyTypeError m)) /\
     (forall r, fst out <> Ret r) /\
     w_pos (snd out) = 3%nat) /\
  (forall fuel,
     let out := run (dumb (Runs.terminal [LF])) (S fuel) Runs.ask_echoing Sample.start in
     (exists m, fst out = Raise (PyTypeError m)) /\
     (forall r, fst out <> Ret r) /\
     w_pos (snd out) = 1%nat).
Proof.
  split; intros fuel out; subst out; vm_compute;
    (split; [eexists; reflexivity|]); (split; [discriminate | reflexivity]).
Qed.

(** C6.  Under TERM=dumb, with [prompt: X, seconds: 60], the user types q,
    the interrupt character and then C: at the interrupt character
    [clear_line] raises TypeError, the sub-dialog is not entered and the C
    is never read.  [run] raises instead of returning the q. *)
Theorem continue_lost_without_el :
  forall fuel,
    let out := run (dumb (Runs.terminal ["q"%byte; x03; "C"%byte])) (S (S fuel))
                   Runs.ask_for_a_minute Sample.start in
    (exists m, fst out = Raise (PyTypeError m)) /\
    (forall r, fst out <> Ret r) /\
    w_pos (snd out) = 2%nat.
Proof.
  intros fuel out; subst out; vm_compute.
  split; [eexists; reflexivity|]. split; [discriminate | reflexivity].
Qed.

(** ** The theorems at sample runs *)

(** The user answers the prompt with Enter: the snapshot is given back. *)
Lemma run_restores_terminal_witness :
  let out := run (Runs.terminal [LF]) 3 Runs.ask Sample.start in
  l_old_settings (snd out) = Some Sample.cooked /\
  w_tin (snd out) = Sample.cooked /\
  exists l, w_log (snd out) = EvTcsetattr FdStdin Termios.TCSADRAIN Sample.cooked :: l.
Proof.
  intros out.
  apply (run_restores_terminal (Runs.terminal [LF]) 3 Runs.ask
           Sample.cooked Sample.cooked 100 (fst out) (snd out)).
  - apply surjective_pairing.
  - vm_compute. exact I.
  - vm_compute. discriminate.
Defined.

(** The user types q, then Ctrl+C, then x, then A. *)
Lemma abort_raises_after_cleanup_witness :
  exists st',
    run (Runs.terminal ["q"%byte; x03; "x"%byte; "A"%byte]) 4 Runs.ask_for_a_minute
        Sample.start =
    (Raise (AnsibleError (bytes_of "user requested abort!")), st') /\
    w_tin st' = Sample.cooked /\
    exists l, w_log st' = EvTcsetattr FdStdin Termios.TCSADRAIN Sample.cooked :: l.
Proof.
  apply (abort_raises_after_cleanup
           (Runs.terminal ["q"%byte; x03; "x"%byte; "A"%byte]) Runs.ask_for_a_minute
           (Runs.resolved (Runs.terminal ["q"%byte; x03; "x"%byte; "A"%byte])
                          Runs.ask_for_a_minute)
           Sample.cooked Sample.cooked 100
           [(0%nat, "q"%byte)] (0%nat, x03) [(0%nat, "x"%byte)] (0%nat, "A"%byte) 0).
  - reflexivity.
  - do 2 eexists. split; reflexivity.
  - vm_compute. discriminate.
  - reflexivity.
  - exact (typed_delivers StdinTty StdoutSameTty 0
             ["q"%byte; x03; "x"%byte; "A"%byte] Never).
  - repeat constructor; vm_compute; discriminate.
  - reflexivity.
  - repeat constructor; vm_compute; intros [H | H]; discriminate H.
  - right. reflexivity.
  - vm_compute. reflexivity.
Defined.

(** [prompt: X, timeout_answer: Y, seconds: 1] and no keystroke at all. *)
Lemma timeout_substitutes_answer_witness :
  exists r st',
    run (Runs.terminal []) 1 Runs.ask_with_default Sample.start = (Ret r, st') /\
    r_user_input r = Some (bytes_of "Y") /\
    In (EvWrite (bytes_of "TimeoutExceeded. Timeout answer has been chosen: Y")) (w_log st').
Proof.
  apply (timeout_substitutes_answer
           (Runs.terminal []) Runs.ask_with_default
           (Runs.resolved (Runs.terminal []) Runs.ask_with_default)
           (bytes_of "Y") 1 Sample.cooked Sample.cooked 100 [] 0).
  - left. reflexivity.
  - do 2 eexists. split; reflexivity.
  - reflexivity.
  - reflexivity.
  - reflexivity.
  - reflexivity.
  - vm_compute. discriminate.
  - intros [|j] wk Hj; discriminate Hj.
  - constructor.
  - vm_compute. reflexivity.
  - vm_compute. exact I.
Defined.

(** [seconds: not-a-number] *)
Lemma malformed_option_fails_early_witness :
  exists r,
    run (Runs.terminal [LF]) 3 Runs.bad_seconds Sample.start = (Ret r, Sample.start) /\
    r_failed r = true /\
    ((exists m, echo_failure (Runs.terminal [LF]) Runs.bad_seconds m /\ r_msg r = Some m) \/
     (exists m, seconds_failure (Runs.terminal [LF]) Runs.bad_seconds m /\
                r_msg r = Some (seconds_failure_msg m))).
Proof.
  apply (malformed_option_fails_early (Runs.terminal [LF]) 3 Runs.bad_seconds Sample.start).
  right. eexists. split; [eexists; reflexivity|]. eexists. split; reflexivity.
Defined.

(** The user types a, b, erase, erase, c and Enter, with echo on. *)
Lemma line_editing_captures_line_witness :
  exists r st',
    run (Runs.terminal ["a"%byte; "b"%byte; x7f; x7f; "c"%byte; LF]) 6 Runs.ask_echoing
        Sample.start = (Ret r, st') /\
    r_user_input r = Some (bytes_of "c").
Proof.
  apply (line_editing_captures_line
           (Runs.terminal ["a"%byte; "b"%byte; x7f; x7f; "c"%byte; LF]) Runs.ask_echoing
           (Runs.resolved (Runs.terminal ["a"%byte; "b"%byte; x7f; x7f; "c"%byte; LF])
                          Runs.ask_echoing)
           Sample.cooked Sample.cooked 100
           [(0%nat, "a"%byte); (0%nat, "b"%byte); (0%nat, x7f); (0%nat, x7f); (0%nat, "c"%byte)]
           (0%nat, LF) 0).
  - reflexivity.
  - do 2 eexists. split; reflexivity.
  - exact I.
  - reflexivity.
  - exact (typed_delivers StdinTty StdoutSameTty 0
             ["a"%byte; "b"%byte; x7f; x7f; "c"%byte; LF] Never).
  - repeat constructor; vm_compute; discriminate.
  - vm_compute. discriminate.
  - right. reflexivity.
  - vm_compute. exact I.
Defined.

(** The user types q, then Ctrl+C, then x, then C. *)
Lemma continue_keeps_captured_input_witness :
  exists r st',
    run (Runs.terminal ["q"%byte; x03; "x"%byte; "C"%byte]) 4 Runs.ask_for_a_minute
        Sample.start = (Ret r, st') /\
    r_user_input r = Some (bytes_of "q") /\
    w_pos st' = 4%nat.
Proof.
  apply (continue_keeps_captured_input
           (Runs.terminal ["q"%byte; x03; "x"%byte; "C"%byte]) Runs.ask_for_a_minute
           (Runs.resolved (Runs.terminal ["q"%byte; x03; "x"%byte; "C"%byte])
                          Runs.ask_for_a_minute)
           Sample.cooked Sample.cooked 100
           [(0%nat, "q"%byte)] (0%nat, x03) [(0%nat, "x"%byte)] (0%nat, "C"%byte) 0).
  - reflexivity.
  - do 2 eexists. split; reflexivity.
  - vm_compute. discriminate.
  - reflexivity.
  - exact (typed_delivers StdinTty StdoutSameTty 0
             ["q"%byte; x03; "x"%byte; "C"%byte] Never).
  - repeat constructor; vm_compute; discriminate.
  - reflexivity.
  - repeat constructor; vm_compute; intros [H | H]; discriminate H.
  - right. reflexivity.
  - vm_compute. reflexivity.
Defined.

(** * Further properties *)

(** ** Footprints of the phases *)

Section Footprints.

Variable E : env.
Variable c : config.
Variable R : state -> state -> Prop.
Hypothesis F : loop_footprint E c R.

Lemma respects_ret {A} (a : A) : respects R (ret a).
Proof. intros st. apply (lf_refl E c R F). Qed.

Lemma respects_raise {A} (e : exn) : respects R (@raise A e).
Proof. intros st. apply (lf_refl E c R F). Qed.

Lemma respects_gets {A} (f : state -> A) : respects R (gets f).
Proof. intros st. apply (lf_refl E c R F). Qed.

Lemma respects_local {A} (name : string) (f : state -> option A) :
  respects R (local name f).
Proof. intros st. unfold local. destruct (f st); apply (lf_refl E c R F). Qed.

Lemma respects_bind {A B} (m : M A) (k : A -> M B) :
  respects R m -> (forall a, respects R (k a)) -> respects R (bind m k).
Proof.
  intros Hm Hk st. unfold bind. specialize (Hm st).
  destruct (m st) as [[a | e | | ] st']; simpl in *; try assumption.
  eapply (lf_trans E c R F); [eassumption | apply Hk].
Qed.

Lemma respects_try_except {A} (m : M A) (h : exn -> option (M A)) :
  respects R m -> (forall e k, h e = Some k -> respects R k) ->
  respects R (try_except m h).
Proof.
  intros Hm Hh st. unfold try_except. specialize (Hm st).
  destruct (m st) as [[a | e | | ] st']; simpl in *; try assumption.
  destruct (h e) as [k|] eqn:He; simpl; try assumption.
  eapply (lf_trans E c R F); [eassumption | eapply Hh; eassumption].
Qed.

Lemma respects_try_finally {A} (m : M A) (f : M unit) :
  respects R m -> respects R f -> respects R (try_finally m f).
Proof.
  intros Hm Hf st. unfold try_finally. specialize (Hm st).
  destruct (m st) as [[a | e | | ] st']; simpl in *; try assumption;
    specialize (Hf st');
    destruct (f st') as [[u | e' | | ] st'']; simpl in *;
    eapply (lf_trans E c R F); eassumption.
Qed.

Lemma respects_if {A} (b : bool) (m1 m2 : M A) :
  respects R m1 -> respects R m2 -> respects R (if b then m1 else m2).
Proof. destruct b; auto. Qed.

Lemma respects_display m : respects R (display m).
Proof. intros st. apply (lf_display E c R F). Qed.

Lemma respects_warning m : respects R (warning m).
Proof. intros st. apply (lf_warning E c R F). Qed.

Lemma respects_signal_alarm n : 0 <= n -> respects R (signal_alarm n).
Proof. intros Hn st. now apply (lf_alarm E c R F). Qed.

Lemma respects_stdin_read1 : respects R (stdin_read1 E).
Proof. intros st. apply (lf_read E c R F). Qed.

Lemma respects_bind_ret {A B} (a : A) (k : A -> M B) :
  respects R (k a) -> respects R (bind (ret a) k).
Proof. intros Hk st. exact (Hk st). Qed.

Lemma respects_bind_raise {A B} (e : exn) (k : A -> M B) :
  respects R (bind (raise e) k).
Proof. intros st. apply (lf_refl E c R F). Qed.

Lemma respects_clear_line : respects R (clear_line E).
Proof.
  unfold clear_line, escape_sequence.
  apply respects_bind; [apply respects_local | intros _].
  destruct (MOVE_TO_BOL E) as [bol|] eqn:Hbol; [|apply respects_bind_raise].
  apply respects_bind_ret.
  apply respects_bind; [intros st; now apply (lf_clear_bol E c R F) | intros _].
  destruct (CLEAR_TO_EOL E) as [eol|] eqn:Heol; [|apply respects_bind_raise].
  apply respects_bind_ret.
  intros st. now apply (lf_clear_eol E c R F).
Qed.

Lemma respects_stdout_flush : respects R stdout_flush.
Proof.
  unfold stdout_flush. apply respects_bind; [apply respects_local | intros _].
  intros st. apply (lf_flush E c R F).
Qed.

Lemma respects_user_input : respects R user_input.
Proof.
  intros st. unfold user_input.
  destruct (r_user_input (l_result st)); apply (lf_refl E c R F).
Qed.

Lemma respects_set_user_input u : respects R (set_user_input u).
Proof. intros st. apply (lf_user_input E c R F). Qed.

Lemma respects_c_or_a fuel : respects R (_c_or_a E fuel).
Proof.
  induction fuel as [|fuel IH]; cbn [_c_or_a].
  - intros st. apply (lf_refl E c R F).
  - apply respects_bind; [apply respects_stdin_read1 | intros k].
    repeat apply respects_if; auto using respects_ret.
Qed.

Lemma respects_on_interrupt fuel : respects R (on_interrupt E fuel).
Proof.
  unfold on_interrupt.
  apply respects_bind; [apply respects_signal_alarm; lia | intros _].
  apply respects_bind; [apply respects_display | intros _].
  apply respects_bind; [apply respects_c_or_a | intros go_on].
  apply respects_if;
    (apply respects_bind; [apply respects_clear_line | intros _]);
    [apply respects_ret | apply respects_raise].
Qed.

Lemma respects_read_key : respects R (read_key E c).
Proof.
  unfold read_key.
  apply respects_bind; [apply respects_gets | intros stdin_fd].
  apply respects_bind.
  - destruct stdin_fd as [f|]; [|apply respects_ret].
    apply respects_bind; [apply respects_stdin_read1 | intros k].
    apply respects_bind; [intros st; apply (lf_key_pressed E c R F) | intros _].
    apply respects_bind; [apply respects_local | intros i].
    apply respects_if; [|apply respects_ret].
    apply respects_bind; [apply respects_clear_line | intros _]. apply respects_raise.
  - intros _. apply respects_if.
    + apply respects_bind; [apply respects_warning | intros _]. apply respects_ret.
    + apply respects_bind; [apply respects_local | intros k].
      apply respects_if.
      * apply respects_bind; [apply respects_clear_line | intros _]. apply respects_ret.
      * apply respects_bind; [apply respects_local | intros bs].
        apply respects_if.
        -- apply respects_bind; [apply respects_user_input | intros u].
           apply respects_bind; [apply respects_set_user_input | intros _].
           apply respects_bind; [apply respects_clear_line | intros _].
           apply respects_bind.
           ++ destruct (truthy (c_echo c)) eqn:Hecho; [|apply respects_ret].
              unfold stdout_write.
              apply respects_bind; [apply respects_local | intros _].
              intros st. now apply (lf_redraw E c R F).
           ++ intros _. apply respects_bind; [apply respects_stdout_flush | intros _].
              apply respects_ret.
        -- apply respects_bind; [apply respects_user_input | intros u].
           apply respects_bind; [apply respects_set_user_input | intros _].
           apply respects_ret.
Qed.

Lemma respects_loop_body fuel : respects R (loop_body E fuel c).
Proof.
  unfold loop_body. apply respects_try_except; [apply respects_read_key|].
  intros [] k Hk; try discriminate Hk. injection Hk as <-.
  apply respects_on_interrupt.
Qed.

Lemma respects_read_loop fuel : respects R (read_loop E fuel c).
Proof.
  induction fuel as [|fuel IH]; cbn [read_loop].
  - intros st. apply (lf_refl E c R F).
  - apply respects_bind; [apply respects_loop_body | intros []];
      [apply respects_ret | exact IH].
Qed.

Lemma respects_arm args : respects R (arm args c).
Proof.
  unfold arm, signal_handler.
  destruct (c_seconds c) as [n|]; [|apply respects_display].
  pose proof (clamp_seconds_pos n) as Hn.
  destruct (negb (has_prompt args)).
  - apply respects_bind; [intros st; apply (lf_signal E c R F) | intros _].
    apply respects_bind; [apply respects_signal_alarm; lia | intros _].
    apply respects_bind; [apply respects_display | intros _].
    apply respects_bind; [apply respects_display | intros _].
    apply respects_if; [apply respects_display | apply respects_ret].
  - apply respects_bind; [intros st; apply (lf_signal E c R F) | intros _].
    apply respects_bind; [apply respects_signal_alarm; lia | intros _].
    apply respects_bind; [apply respects_display | intros _].
    apply respects_display.
Qed.

Lemma respects_open_streams : respects R (open_streams E).
Proof.
  unfold open_streams.
  apply respects_bind; [intros st; apply (lf_stdin_fd E c R F) | intros _].
  destruct (stdin E); try apply respects_ret;
    try (intros st; apply (lf_stdout E c R F));
    (apply respects_bind; [intros st; apply (lf_stdout E c R F) | intros _];
     intros st; apply (lf_stdin_fd E c R F)).
Qed.

(** The handler of the timeout, when the relation allows the notice. *)
Lemma respects_on_timeout args :
  (forall u st, R st (set_log (EvWrite (timeout_notice ++ u) :: w_log st) st)) ->
  respects R (on_timeout E args c).
Proof.
  intros Hnotice. unfold on_timeout.
  apply respects_if; [|apply respects_ret].
  apply respects_bind; [apply respects_local | intros a].
  apply respects_bind; [apply respects_set_user_input | intros _].
  apply respects_bind; [apply respects_clear_line | intros _].
  apply respects_bind; [apply respects_user_input | intros u].
  unfold stdout_write.
  apply respects_bind; [apply respects_local | intros _].
  intros st. apply Hnotice.
Qed.

Hypothesis T : terminal_footprint E R.

Lemma respects_tcgetattr f : respects R (tcgetattr E f).
Proof. intros st. unfold tcgetattr. destruct (isatty E f); apply (lf_refl E c R F). Qed.

Lemma respects_tcgetattr_cc ok f idx : respects R (tcgetattr_cc E ok f idx).
Proof.
  unfold tcgetattr_cc. destruct ok; [|apply respects_raise].
  apply respects_bind; [apply respects_tcgetattr | intros a].
  destruct (nth_error (Termios.cc a) idx); [apply respects_ret | apply respects_raise].
Qed.

Lemma respects_enter_raw : respects R (enter_raw E c).
Proof.
  unfold enter_raw.
  apply respects_bind; [apply respects_gets | intros [f|]]; [|apply respects_ret].
  apply respects_if; [|apply respects_ret].
  apply respects_bind.
  { apply respects_try_except; [apply respects_tcgetattr_cc|].
    intros [] k Hk; try discriminate Hk; injection Hk as <-; apply respects_ret. }
  intros i.
  apply respects_bind; [intros st; apply (tf_intr E R T) | intros _].
  apply respects_bind.
  { apply respects_try_except.
    - apply respects_bind; [apply respects_tcgetattr_cc | intros s; apply respects_ret].
    - intros [] k Hk; try discriminate Hk; injection Hk as <-; apply respects_ret. }
  intros bs.
  apply respects_bind; [intros st; apply (tf_backspace E R T) | intros _].
  apply respects_bind; [apply respects_tcgetattr | intros old].
  apply respects_bind; [intros st; apply (tf_old_settings E R T) | intros _].
  apply respects_bind; [intros st; apply (tf_setraw E R T) | intros _].
  apply respects_bind.
  { apply respects_if; [intros st; apply (tf_setraw E R T) | apply respects_ret]. }
  intros _.
  apply respects_bind.
  { apply respects_if; [|apply respects_ret].
    apply respects_bind; [apply respects_tcgetattr | intros a].
    intros st. apply (tf_tcsetattr E R T). }
  intros _. intros st. apply (tf_tcflush E R T).
Qed.

Lemma respects_cleanup : respects R (cleanup E).
Proof.
  unfold cleanup.
  apply respects_bind; [apply respects_gets | intros fdo].
  apply respects_bind; [apply respects_gets | intros old].
  apply respects_bind.
  { destruct fdo as [f|], old as [o|]; try apply respects_ret.
    apply respects_if; [intros st; apply (tf_tcsetattr E R T) | apply respects_ret]. }
  intros _.
  apply respects_bind; [apply respects_gets | intros now].
  apply respects_bind; [apply respects_gets | intros start].
  intros st. apply (tf_summary E R T).
Qed.

Lemma respects_pause_body fuel args : respects R (pause_body E fuel args c).
Proof.
  unfold pause_body.
  apply respects_bind; [apply respects_arm | intros _].
  apply respects_bind; [apply respects_open_streams | intros _].
  apply respects_bind; [apply respects_enter_raw | intros _].
  apply respects_read_loop.
Qed.

End Footprints.

(** ** The relations the code respects *)

Lemma header_loop_footprint E c : loop_footprint E c same_header.
Proof.
  constructor; unfold same_header; try (intros; repeat split; reflexivity).
  - intros st1 st2 st3 H12 H23. intuition congruence.
  - intros n st _. unfold signal_alarm.
    destruct (INT_MAX <? n); [|destruct (n <? - INT_MAX - 1)]; repeat split; reflexivity.
  - intros st. unfold stdin_read1.
    destruct (stdin_events E (w_pos st)) as [wait data|];
      destruct (w_alarm st) as [due|]; try destruct (due <=? _);
      repeat split; reflexivity.
Qed.

Lemma header_terminal_footprint E : terminal_footprint E same_header.
Proof.
  constructor; unfold same_header; try (intros; repeat split; reflexivity).
  - intros f st. unfold tty_setraw, set_device_attrs.
    destruct (isatty E f); [destruct f; [|destruct (stdout E)]|]; repeat split; reflexivity.
  - intros f w a st. unfold tcsetattr, set_device_attrs.
    destruct (isatty E f); [destruct f; [|destruct (stdout E)]|]; repeat split; reflexivity.
Qed.

Lemma tout_loop_footprint E c : loop_footprint E c same_tout.
Proof.
  constructor; unfold same_tout; try (intros; reflexivity).
  - intros st1 st2 st3 H12 H23. congruence.
  - intros n st _. unfold signal_alarm.
    destruct (INT_MAX <? n); [|destruct (n <? - INT_MAX - 1)]; reflexivity.
  - intros st. unfold stdin_read1.
    destruct (stdin_events E (w_pos st)) as [wait data|];
      destruct (w_alarm st) as [due|]; try destruct (due <=? _); reflexivity.
Qed.

Lemma calm_loop_footprint E c : loop_footprint E c calm.
Proof.
  constructor; unfold calm; try (intros; repeat split; auto; fail).
  - intros st1 st2 st3 (A1 & A2 & A3) (B1 & B2 & B3). repeat split; try congruence. auto.
  - intros n st _. unfold signal_alarm.
    destruct (INT_MAX <? n); [|destruct (n <? - INT_MAX - 1)]; repeat split; auto.
  - intros st. unfold stdin_read1.
    destruct (stdin_events E (w_pos st)) as [wait data|];
      destruct (w_alarm st) as [due|]; try destruct (due <=? _);
      repeat split; auto.
Qed.

Lemma writes_loop_footprint E c (allowed : bytes -> Prop) :
  (forall bol, MOVE_TO_BOL E = Some bol -> allowed (ESC :: bytes_of "[" ++ bol)) ->
  (forall eol, CLEAR_TO_EOL E = Some eol -> allowed (ESC :: bytes_of "[" ++ eol)) ->
  truthy (c_echo c) = false ->
  loop_footprint E c (writes_within allowed).
Proof.
  intros Hbol Heol Hecho.
  constructor; unfold writes_within;
    try (intros; simpl in *; intuition (discriminate || auto); fail).
  - intros st1 st2 st3 H12 H23 d Hd.
    destruct (H23 d Hd) as [H | H]; auto.
  - intros bol st Hcap d [H | H]; [injection H as <-; right; now apply Hbol | auto].
  - intros eol st Hcap d [H | H]; [injection H as <-; right; now apply Heol | auto].
  - rewrite Hecho. discriminate.
  - intros n st _ d. unfold signal_alarm.
    destruct (INT_MAX <? n); [|destruct (n <? - INT_MAX - 1)]; simpl; auto.
    intros [H | H]; [discriminate H | auto].
  - intros st d. unfold stdin_read1.
    destruct (stdin_events E (w_pos st)) as [wait data|];
      destruct (w_alarm st) as [due|]; try destruct (due <=? _); simpl; auto.
Qed.

Lemma writes_terminal_footprint E (allowed : bytes -> Prop) :
  terminal_footprint E (writes_within allowed).
Proof.
  constructor; unfold writes_within;
    try (intros; simpl in *; intuition (discriminate || auto); fail).
  - intros f st d. unfold tty_setraw, set_device_attrs.
    destruct (isatty E f); [destruct f; [|destruct (stdout E)]|];
      simpl; intuition (discriminate || auto).
  - intros f w a st d. unfold tcsetattr, set_device_attrs.
    destruct (isatty E f); [destruct f; [|destruct (stdout E)]|];
      simpl; intuition (discriminate || auto).
Qed.

(** ** The shape of a run *)

Lemma cleanup_returns E st : cleanup E st = (Ret tt, snd (cleanup E st)).
Proof.
  unfold cleanup, tcsetattr. munfold.
  destruct (l_stdin_fd st) as [f|], (l_old_settings st) as [old|];
    try reflexivity.
  destruct (isatty E f); reflexivity.
Qed.

Lemma cleanup_summary E st :
  l_result (snd (cleanup E st)) =
    with_summary (time_time E (w_clock st)) (time_time E (w_clock st) - l_start st)
      (bytes_of "seconds") (l_result st) /\
  w_clock (snd (cleanup E st)) = w_clock st /\
  w_alarm (snd (cleanup E st)) = w_alarm st /\
  w_pos (snd (cleanup E st)) = w_pos st.
Proof.
  unfold cleanup, tcsetattr, set_device_attrs. munfold.
  destruct (l_stdin_fd st) as [f|], (l_old_settings st) as [old|];
    try (repeat split; reflexivity).
  destruct (isatty E f); [destruct f; [|destruct (stdout E)]|];
    repeat split; reflexivity.
Qed.

(** Once the options are read, [run] is the guarded [try] block, then the
    cleanup, then the result as the cleanup left it. *)
Lemma run_accepted E fuel args c st :
  read_options E args st = (Ret (inr c), st) ->
  run E fuel args st =
  match guarded_body E fuel args c (started E st) with
  | (Ret _, st1) => (Ret (l_result (snd (cleanup E st1))), snd (cleanup E st1))
  | (Raise e, st1) => (Raise e, snd (cleanup E st1))
  | (Blocked, st1) => (Blocked, st1)
  | (OutOfFuel, st1) => (OutOfFuel, st1)
  end.
Proof.
  intros Hopt. rewrite (run_started E fuel args c st Hopt).
  unfold bind, try_finally.
  destruct (guarded_body E fuel args c (started E st)) as [[u | e | | ] st1];
    try reflexivity; rewrite (cleanup_returns E st1); reflexivity.
Qed.

(** Otherwise [run] ends where it began: with the failed result, or with
    the exception of the conversion. *)
Lemma run_cases E fuel args st :
  (exists c, read_options E args st = (Ret (inr c), st)) \/
  (exists r, run E fuel args st = (Ret r, st) /\
             r_changed r = false /\ r_rc r = 0 /\ r_stderr r = [] /\ r_echo r = None /\
             r_failed r = true) \/
  (exists m, run E fuel args st = (Raise (PyTypeError m), st)).
Proof.
  unfold run, read_options, bind, ret, raise.
  destruct (arg_echo args) as [v|]; [destruct (boolean E v) as [m|b]|];
    try (right; left; eexists; repeat split; reflexivity);
    (destruct (read_timeout_answer args) as [m'|answer];
     [right; right; eexists; reflexivity|]);
    (destruct (arg_seconds args) as [s|]; [destruct (py_int E s)|]);
    try (left; eexists; reflexivity);
    try (right; left; eexists; repeat split; reflexivity);
    right; right; eexists; reflexivity.
Qed.

Section RunFootprint.

Variable E : env.
Variable c : config.
Variable R : state -> state -> Prop.
Hypothesis F : loop_footprint E c R.
Hypothesis T : terminal_footprint E R.

Lemma respects_guarded_body fuel args :
  respects R (on_timeout E args c) ->
  respects R (guarded_body E fuel args c).
Proof.
  intros Hto. unfold guarded_body.
  apply (respects_try_except E c R F); [apply (respects_pause_body E c R F T)|].
  intros [] k Hk; try discriminate Hk. injection Hk as <-. exact Hto.
Qed.

(** From the [try] on, a run stays within the relation, however it ends. *)
Lemma run_respects fuel args st :
  respects R (on_timeout E args c) ->
  read_options E args st = (Ret (inr c), st) ->
  R (started E st) (snd (run E fuel args st)).
Proof.
  intros Hto Hopt. rewrite (run_started E fuel args c st Hopt).
  apply (respects_bind E c R F).
  - apply (respects_try_finally E c R F).
    + now apply respects_guarded_body.
    + apply (respects_cleanup E c R F T).
  - intros _. apply (respects_gets E c R F).
Qed.

End RunFootprint.

(** X1.  Whatever the options, the stream and the way the loop ends, a
    result that [run] returns has [changed] false, [rc] 0, an empty
    [stderr], and None for [echo]: these are set once, before the options
    are read, and nothing writes them again. *)
Theorem result_header_is_fixed :
  forall E fuel args st r st',
    run E fuel args st = (Ret r, st') ->
    r_changed r = false /\ r_rc r = 0 /\ r_stderr r = [] /\ r_echo r = None.
Proof.
  intros E fuel args st r st' Hrun.
  destruct (run_cases E fuel args st) as [[c Hopt] | [(r0 & H0 & Hh) | (m & Hm)]].
  - pose proof (run_respects E c same_header (header_loop_footprint E c)
                  (header_terminal_footprint E) fuel args st) as Hsame.
    assert (Hto : respects same_header (on_timeout E args c)).
    { apply (respects_on_timeout E c same_header (header_loop_footprint E c)).
      intros u s. repeat split. }
    specialize (Hsame Hto Hopt).
    rewrite (run_accepted E fuel args c st Hopt) in Hrun, Hsame.
    destruct (guarded_body E fuel args c (started E st)) as [[u | e | | ] st1];
      try discriminate Hrun.
    injection Hrun as <- <-. simpl in Hsame.
    destruct Hsame as (H1 & H2 & H3 & H4 & _). rewrite H1, H2, H3, H4.
    repeat split; reflexivity.
  - rewrite H0 in Hrun. injection Hrun as <- _. tauto.
  - rewrite Hm in Hrun. discriminate Hrun.
Qed.

(** ** What is written when the input is hidden *)

Lemma writes_on_timeout E args c :
  respects (writes_within (hidden_writes E c)) (on_timeout E args c).
Proof.
  intros st d. unfold on_timeout, hidden_writes.
  destruct (has_prompt args && has_timeout_answer args); [|simpl; auto].
  munfold. destruct (c_timeout_answer c) as [a|] eqn:Ha; [|simpl; auto].
  destruct (l_stdout st) eqn:Hout; repeat (progress (mred; rewrite ?Hout));
    [|auto].
  destruct (MOVE_TO_BOL E) as [bol|] eqn:Hbol; mred; [|auto].
  destruct (CLEAR_TO_EOL E) as [eol|] eqn:Heol;
    repeat (progress (mred; rewrite ?Hout)).
  - intros [H | [H | [H | H]]]; try (injection H as <-); eauto 8.
  - intros [H | H]; try (injection H as <-); eauto 8.
Qed.

(** X3.  With [echo] false or not given, nothing the user types reaches
    stdout: whatever the stream and however the run ends, every write the
    run adds to stdout is one of the two control sequences of [clear_line]
    or the timeout notice followed by the configured answer. *)
Theorem hidden_input_is_never_written :
  forall E fuel args c st d,
    read_options E args st = (Ret (inr c), st) ->
    truthy (c_echo c) = false ->
    In (EvWrite d) (w_log (snd (run E fuel args st))) ->
    In (EvWrite d) (w_log st) \/ hidden_writes E c d.
Proof.
  intros E fuel args c st d Hopt Hecho Hd.
  assert (F : loop_footprint E c (writes_within (hidden_writes E c))).
  { apply writes_loop_footprint; unfold hidden_writes; eauto. }
  exact (run_respects E c _ F (writes_terminal_footprint E _) fuel args st
           (writes_on_timeout E args c) Hopt d Hd).
Qed.

(** ** A run without a terminal on stdin *)

Lemma pause_body_entry E fuel args c st :
  alarm_fits c ->
  pause_body E fuel args c (started E st) = read_loop E fuel c (loop_entry E args c st).
Proof.
  intros Hfits. unfold loop_entry. destruct (stdin E) eqn:Hin.
  - unfold pause_body.
    rewrite (bind_ret_eq _ _ _ _ _ (arm_returns args c (started E st) Hfits)).
    unfold open_streams, enter_raw. rewrite Hin. reflexivity.
  - unfold pause_body.
    rewrite (bind_ret_eq _ _ _ _ _ (arm_returns args c (started E st) Hfits)).
    unfold open_streams, enter_raw. rewrite Hin. reflexivity.
  - unfold pause_body.
    rewrite (bind_ret_eq _ _ _ _ _ (arm_returns args c (started E st) Hfits)).
    unfold open_streams, enter_raw, isatty. munfold. rewrite Hin. mred.
    rewrite ?Hin. reflexivity.
  - apply (pause_body_tty E Hin _ _ _ _ Hfits).
Qed.

(** With a duration that [signal.alarm] refuses, the [try] block goes no
    further than the alarm. *)
Lemma guarded_body_refused E fuel args c st :
  ~ alarm_fits c ->
  guarded_body E fuel args c st =
  (Raise (PyOverflowError (bytes_of "signed integer is greater than maximum")),
   set_log (EvSignal :: w_log st) st).
Proof.
  intros Hno. unfold guarded_body, try_except, pause_body.
  rewrite (bind_raise_eq _ _ _ _ _ (arm_refused args c st Hno)). reflexivity.
Qed.

Lemma loop_entry_fd E args c st :
  stdin E <> StdinTty ->
  l_stdin_fd (loop_entry E args c st) = None \/
  l_stdin_fd (loop_entry E args c st) = Some FdStdin.
Proof.
  intros Hin. unfold loop_entry. destruct (stdin E); auto. now elim Hin.
Qed.

Lemma calm_refl st : calm st st.
Proof. repeat split; auto. Qed.

Lemma calm_trans st1 st2 st3 : calm st1 st2 -> calm st2 st3 -> calm st1 st3.
Proof.
  intros (A1 & A2 & A3) (B1 & B2 & B3). repeat split; try congruence. auto.
Qed.

Lemma calm_loop_entry E args c st :
  stdin E <> StdinTty -> calm (started E st) (loop_entry E args c st).
Proof.
  intros Hin.
  pose proof (respects_arm E c calm (calm_loop_footprint E c) args (started E st)) as Harm.
  fold (armed args c (started E st)) in Harm.
  unfold loop_entry. destruct (stdin E); try exact Harm. now elim Hin.
Qed.

Lemma cleanup_not_tty E st :
  stdin E <> StdinTty ->
  l_stdin_fd st = None \/ l_stdin_fd st = Some FdStdin ->
  calm st (snd (cleanup E st)).
Proof.
  intros Hin Hfd. unfold cleanup, tcsetattr, isatty. munfold.
  destruct Hfd as [Hfd | Hfd]; rewrite Hfd; [repeat split; auto|].
  destruct (l_old_settings st); [|repeat split; auto].
  destruct (stdin E); try (repeat split; auto; fail). now elim Hin.
Qed.

Lemma calm_on_timeout E args c : respects calm (on_timeout E args c).
Proof.
  apply (respects_on_timeout E c calm (calm_loop_footprint E c)).
  intros u st. repeat split; auto.
Qed.

Lemma guarded_body_not_tty E fuel args c st :
  stdin E <> StdinTty ->
  calm (started E st) (snd (guarded_body E fuel args c (started E st))) /\
  (l_stdin_fd (snd (guarded_body E fuel args c (started E st))) = None \/
   l_stdin_fd (snd (guarded_body E fuel args c (started E st))) = Some FdStdin).
Proof.
  intros Hin. destruct (alarm_fits_dec c) as [Hfits | Hno];
    [|rewrite (guarded_body_refused E fuel args c _ Hno);
      split; [repeat split; auto | now left]].
  unfold guarded_body, try_except. rewrite (pause_body_entry E fuel args c st Hfits).
  pose proof (calm_loop_entry E args c st Hin) as H0.
  pose proof (loop_entry_fd E args c st Hin) as Hfd0.
  pose proof (respects_read_loop E c calm (calm_loop_footprint E c) fuel
                (loop_entry E args c st)) as H1.
  pose proof (frame_read_loop E fuel c (loop_entry E args c st)) as (_ & _ & Hfd1 & _).
  destruct (read_loop E fuel c (loop_entry E args c st)) as [[u | e | | ] st1];
    simpl in *; rewrite <- Hfd1 in Hfd0;
    try (split; [exact (calm_trans _ _ _ H0 H1) | exact Hfd0]).
  destruct e; simpl;
    try (split; [exact (calm_trans _ _ _ H0 H1) | exact Hfd0]).
  pose proof (calm_on_timeout E args c st1) as H2.
  pose proof (frame_on_timeout E args c st1) as (_ & _ & Hfd2 & _).
  rewrite <- Hfd2 in Hfd0.
  split; [exact (calm_trans _ _ _ (calm_trans _ _ _ H0 H1) H2) | exact Hfd0].
Qed.

(** X4.  Unless stdin is a terminal, [run] changes no terminal attributes,
    whatever the options, the stream and the way it ends: both terminals
    keep their attributes, and no [tty.setraw] or [tcsetattr] is added to
    what was done before.  That stdout is a terminal does not matter. *)
Theorem no_terminal_call_without_tty :
  forall E fuel args st,
    stdin E <> StdinTty ->
    calm st (snd (run E fuel args st)).
Proof.
  intros E fuel args st Hin.
  destruct (run_cases E fuel args st) as [[c Hopt] | [(r0 & H0 & _) | (m & Hm)]].
  - rewrite (run_accepted E fuel args c st Hopt).
    destruct (guarded_body_not_tty E fuel args c st Hin) as [Hcalm Hfd].
    assert (Hstart : calm st (started E st)) by (repeat split; auto).
    destruct (guarded_body E fuel args c (started E st)) as [[u | e | | ] st1];
      simpl in *;
      try exact (calm_trans _ _ _ Hstart Hcalm);
      exact (calm_trans _ _ _ (calm_trans _ _ _ Hstart Hcalm)
               (cleanup_not_tty E st1 Hin Hfd)).
  - rewrite H0. apply calm_refl.
  - rewrite Hm. apply calm_refl.
Qed.

(** ** A terminal for stdout that is not the one of stdin *)

Lemma at_loop_tout E args c st :
  stdout E = StdoutOtherTty ->
  w_tout (at_loop E args c st) = setraw E (w_tout st).
Proof.
  intros Hout. unfold at_loop, raw_state, isatty, set_device_attrs, device_attrs.
  rewrite Hout. destruct (truthy (c_echo c)); mred;
    now rewrite (proj1 (proj2 (proj2 (proj2 (armed_fields args c (started E st)))))).
Qed.

Lemma cleanup_tout E st :
  l_stdin_fd st = Some FdStdin ->
  w_tout (snd (cleanup E st)) = w_tout st.
Proof.
  intros Hfd. unfold cleanup, tcsetattr, set_device_attrs. munfold.
  rewrite Hfd. destruct (l_old_settings st); [|reflexivity].
  destruct (isatty E FdStdin); reflexivity.
Qed.

Lemma tout_on_timeout E args c : respects same_tout (on_timeout E args c).
Proof.
  apply (respects_on_timeout E c same_tout (tout_loop_footprint E c)).
  intros u st. reflexivity.
Qed.

(** X5.  When stdin is a terminal and stdout is another terminal, and the
    duration is one [signal.alarm] takes, [run] sets that other terminal to
    raw mode too and never sets it back: where the run ends, however it
    ends, the terminal of stdout has the attributes [tty.setraw] gave it.
    With a duration that is refused, raw mode is never entered and the
    terminal of stdout is as it was. *)
Theorem other_stdout_terminal_stays_raw :
  forall E fuel args c st,
    stdin E = StdinTty ->
    stdout E = StdoutOtherTty ->
    read_options E args st = (Ret (inr c), st) ->
    (alarm_fits c -> w_tout (snd (run E fuel args st)) = setraw E (w_tout st)) /\
    (~ alarm_fits c -> w_tout (snd (run E fuel args st)) = w_tout st).
Proof.
  intros E fuel args c st Hin Hout Hopt.
  rewrite (run_accepted E fuel args c st Hopt).
  split; [intros Hfits | intros Hno;
    rewrite (guarded_body_refused E fuel args c _ Hno);
    unfold cleanup; munfold; reflexivity].
  assert (Hbody : w_tout (snd (guarded_body E fuel args c (started E st))) =
                    setraw E (w_tout st) /\
                  l_stdin_fd (snd (guarded_body E fuel args c (started E st))) =
                    Some FdStdin).
  { unfold guarded_body, try_except. rewrite (pause_body_tty E Hin _ _ _ _ Hfits).
    pose proof (at_loop_tout E args c st Hout) as H0.
    assert (Hfd0 : l_stdin_fd (at_loop E args c st) = Some FdStdin).
    { unfold at_loop. now rewrite (proj1 (raw_state_locals E c _)). }
    pose proof (respects_read_loop E c same_tout (tout_loop_footprint E c) fuel
                  (at_loop E args c st)) as H1.
    pose proof (frame_read_loop E fuel c (at_loop E args c st)) as (_ & _ & Hfd1 & _).
    unfold same_tout in H1.
    destruct (read_loop E fuel c (at_loop E args c st)) as [[u | e | | ] st1];
      cbn [fst snd] in *; rewrite H0 in H1; rewrite Hfd0 in Hfd1;
      try (split; assumption).
    pose proof (tout_on_timeout E args c st1) as H2.
    pose proof (frame_on_timeout E args c st1) as (_ & _ & Hfd2 & _).
    unfold same_tout in H2. rewrite H1 in H2. rewrite Hfd1 in Hfd2.
    destruct e; cbn [fst snd]; try (split; assumption). }
  destruct Hbody as [Htout Hfd].
  destruct (guarded_body E fuel args c (started E st)) as [[u | e | | ] st1];
    cbn [fst snd] in *; try rewrite (cleanup_tout E st1 Hfd); assumption.
Qed.

(** ** The exceptions that stay inside *)

Section NeverRaises.

Variable X : exn -> Prop.

(** [X] holds of nothing but the two exceptions of the control flow. *)
Hypothesis X_internal : forall e, X e -> internal e.

Lemma never_ret {A} (a : A) : never_raises X (ret a).
Proof. intros st. exact I. Qed.

Lemma never_gets {A} (f : state -> A) : never_raises X (gets f).
Proof. intros st. exact I. Qed.

Lemma never_modify f : never_raises X (modify f).
Proof. intros st. exact I. Qed.

Lemma never_raise {A} (e : exn) : ~ X e -> never_raises X (@raise A e).
Proof. intros He st. exact He. Qed.

Lemma never_local {A} (name : string) (f : state -> option A) :
  never_raises X (local name f).
Proof.
  intros st. unfold local. destruct (f st); simpl; [exact I|].
  intros H. apply X_internal in H as [H | H]; discriminate H.
Qed.

Lemma never_bind {A B} (m : M A) (k : A -> M B) :
  never_raises X m -> (forall a, never_raises X (k a)) -> never_raises X (bind m k).
Proof.
  intros Hm Hk st. unfold bind. specialize (Hm st).
  destruct (m st) as [[a | e | | ] st']; simpl in *; try assumption.
  apply Hk.
Qed.

Lemma never_if {A} (b : bool) (m1 m2 : M A) :
  never_raises X m1 -> never_raises X m2 -> never_raises X (if b then m1 else m2).
Proof. destruct b; auto. Qed.

(** A handler for everything of [X] makes the [try] safe, whatever its
    body raises. *)
Lemma never_try_except_handled {A} (m : M A) (h : exn -> option (M A)) :
  (forall e, X e -> (exists k, h e = Some k) \/
                    forall st, fst (m st) <> Raise e) ->
  (forall e k, h e = Some k -> never_raises X k) ->
  never_raises X (try_except m h).
Proof.
  intros Hcatch Hh st. unfold try_except.
  destruct (m st) as [[a | e | | ] st'] eqn:Hm; simpl; try exact I.
  destruct (h e) as [k|] eqn:He.
  - exact (Hh e k He st').
  - simpl. intros HX. destruct (Hcatch e HX) as [[k Hk] | Hno].
    + congruence.
    + apply (Hno st). now rewrite Hm.
Qed.

Lemma never_try_finally {A} (m : M A) (f : M unit) :
  never_raises X m -> never_raises X f -> never_raises X (try_finally m f).
Proof.
  intros Hm Hf st. unfold try_finally. specialize (Hm st).
  destruct (m st) as [[a | e | | ] st']; simpl in *; try exact I;
    specialize (Hf st'); destruct (f st') as [[u | e' | | ] st'']; simpl in *;
    try exact I; assumption.
Qed.

Lemma never_log e : never_raises X (log e).
Proof. intros st. exact I. Qed.

Lemma never_stdout_write d : never_raises X (stdout_write d).
Proof.
  unfold stdout_write. apply never_bind; [apply never_local | intros _; apply never_log].
Qed.

Lemma never_escape_sequence cap : never_raises X (escape_sequence cap).
Proof.
  destruct cap; [apply never_ret | apply never_raise].
  intros H. apply X_internal in H as [H | H]; discriminate H.
Qed.

Lemma never_clear_line E : never_raises X (clear_line E).
Proof.
  unfold clear_line.
  apply never_bind; [apply never_local | intros _].
  apply never_bind; [apply never_escape_sequence | intros bol].
  apply never_bind; [apply never_log | intros _].
  apply never_bind; [apply never_escape_sequence | intros eol].
  apply never_log.
Qed.

Lemma never_user_input : never_raises X user_input.
Proof.
  intros st. unfold user_input. destruct (r_user_input (l_result st)); simpl; [exact I|].
  intros H. apply X_internal in H as [H | H]; discriminate H.
Qed.

Lemma never_on_timeout E args c : never_raises X (on_timeout E args c).
Proof.
  unfold on_timeout, set_user_input. apply never_if; [|apply never_ret].
  apply never_bind; [apply never_local | intros a].
  apply never_bind; [apply never_modify | intros _].
  apply never_bind; [apply never_clear_line | intros _].
  apply never_bind; [apply never_user_input | intros u].
  apply never_stdout_write.
Qed.

Lemma never_tcgetattr E f : never_raises X (tcgetattr E f).
Proof.
  intros st. unfold tcgetattr. destruct (isatty E f); simpl; [exact I|].
  intros H. apply X_internal in H as [H | H]; discriminate H.
Qed.

Lemma never_tcsetattr E f w a : never_raises X (tcsetattr E f w a).
Proof.
  intros st. unfold tcsetattr. destruct (isatty E f); simpl; [exact I|].
  intros H. apply X_internal in H as [H | H]; discriminate H.
Qed.

Lemma never_tty_setraw E f : never_raises X (tty_setraw E f).
Proof.
  intros st. unfold tty_setraw. destruct (isatty E f); simpl; [exact I|].
  intros H. apply X_internal in H as [H | H]; discriminate H.
Qed.

Lemma never_cleanup E : never_raises X (cleanup E).
Proof.
  unfold cleanup.
  apply never_bind; [apply never_gets | intros fdo].
  apply never_bind; [apply never_gets | intros old].
  apply never_bind.
  { destruct fdo as [f|], old as [o|]; try apply never_ret.
    apply never_if; [apply never_tcsetattr | apply never_ret]. }
  intros _. apply never_bind; [apply never_gets | intros now].
  apply never_bind; [apply never_gets | intros start]. apply never_modify.
Qed.

Lemma never_signal_alarm n : never_raises X (signal_alarm n).
Proof.
  unfold signal_alarm.
  repeat apply never_if; try apply never_modify;
    apply never_raise; intros H; apply X_internal in H as [H | H]; discriminate H.
Qed.

Lemma never_arm args c : never_raises X (arm args c).
Proof.
  unfold arm, signal_handler, display.
  destruct (c_seconds c); [|apply never_log].
  apply never_if;
    repeat (apply never_bind;
            [apply never_log || apply never_signal_alarm | intros _]);
    try apply never_log.
  apply never_if; [apply never_log | apply never_ret].
Qed.

Lemma never_open_streams E : never_raises X (open_streams E).
Proof.
  unfold open_streams. apply never_bind; [apply never_modify | intros _].
  destruct (stdin E); try apply never_ret; try apply never_modify;
    (apply never_bind; [apply never_modify | intros _; apply never_modify]).
Qed.

Lemma never_tcgetattr_cc E ok f idx : never_raises X (tcgetattr_cc E ok f idx).
Proof.
  unfold tcgetattr_cc. destruct ok.
  - apply never_bind; [apply never_tcgetattr | intros a].
    destruct (nth_error (Termios.cc a) idx); [apply never_ret|].
    apply never_raise. intros H. apply X_internal in H as [H | H]; discriminate H.
  - apply never_raise. intros H. apply X_internal in H as [H | H]; discriminate H.
Qed.

Lemma never_enter_raw E c : never_raises X (enter_raw E c).
Proof.
  unfold enter_raw.
  apply never_bind; [apply never_gets | intros [f|]]; [|apply never_ret].
  apply never_if; [|apply never_ret].
  apply never_bind.
  { apply never_try_except_handled.
    - intros e He. right. intros st. pose proof (never_tcgetattr_cc E
        (vintr_query_ok E) f Termios.VINTR st) as H.
      destruct (fst (tcgetattr_cc E (vintr_query_ok E) f Termios.VINTR st));
        try discriminate. intros Heq. injection Heq as ->. contradiction.
    - intros [] k Hk; try discriminate Hk; injection Hk as <-; apply never_ret. }
  intros i. apply never_bind; [apply never_modify | intros _].
  apply never_bind.
  { apply never_try_except_handled.
    - intros e He. right. intros st.
      pose proof (never_bind _ (fun s => ret (EraseBytes s))
                    (never_tcgetattr_cc E (verase_query_ok E) f Termios.VERASE)
                    (fun s => never_ret (EraseBytes s)) st) as H.
      destruct (fst (bind (tcgetattr_cc E (verase_query_ok E) f Termios.VERASE)
                          (fun s => ret (EraseBytes s)) st));
        try discriminate. intros Heq. injection Heq as ->. contradiction.
    - intros [] k Hk; try discriminate Hk; injection Hk as <-; apply never_ret. }
  intros bs. apply never_bind; [apply never_modify | intros _].
  apply never_bind; [apply never_tcgetattr | intros old].
  apply never_bind; [apply never_modify | intros _].
  apply never_bind; [apply never_tty_setraw | intros _].
  apply never_bind; [apply never_if; [apply never_tty_setraw | apply never_ret] | intros _].
  apply never_bind.
  { apply never_if; [|apply never_ret].
    apply never_bind; [apply never_tcgetattr | intros a]. apply never_tcsetattr. }
  intros _. apply never_log.
Qed.

(** From here on [X] is KeyboardInterrupt alone: the timeout may be
    raised. *)
Hypothesis X_not_timeout : ~ X AnsibleTimeoutExceeded.

Lemma never_stdin_read1 E : never_raises X (stdin_read1 E).
Proof.
  intros st. unfold stdin_read1.
  destruct (stdin_events E (w_pos st)) as [wait data|];
    destruct (w_alarm st) as [due|]; try destruct (due <=? _); simpl;
    exact I || exact X_not_timeout.
Qed.

Lemma never_c_or_a E fuel : never_raises X (_c_or_a E fuel).
Proof.
  induction fuel as [|fuel IH]; cbn [_c_or_a].
  - intros st. exact I.
  - apply never_bind; [apply never_stdin_read1 | intros k].
    repeat apply never_if; auto using never_ret.
Qed.

Lemma never_on_interrupt E fuel : never_raises X (on_interrupt E fuel).
Proof.
  unfold on_interrupt, signal_alarm, display.
  apply never_bind; [apply never_modify | intros _].
  apply never_bind; [apply never_log | intros _].
  apply never_bind; [apply never_c_or_a | intros go_on].
  apply never_if; (apply never_bind; [apply never_clear_line | intros _]);
    [apply never_ret|].
  apply never_raise. intros H. apply X_internal in H as [H | H]; discriminate H.
Qed.

Lemma never_loop_body E fuel c : never_raises X (loop_body E fuel c).
Proof.
  unfold loop_body. apply never_try_except_handled.
  - intros e He. destruct (X_internal e He) as [-> | ->].
    + now elim X_not_timeout.
    + left. eexists. reflexivity.
  - intros [] k Hk; try discriminate Hk. injection Hk as <-. apply never_on_interrupt.
Qed.

Lemma never_read_loop E fuel c : never_raises X (read_loop E fuel c).
Proof.
  induction fuel as [|fuel IH]; cbn [read_loop].
  - intros st. exact I.
  - apply never_bind; [apply never_loop_body | intros []];
      [apply never_ret | exact IH].
Qed.

Lemma never_pause_body E fuel args c : never_raises X (pause_body E fuel args c).
Proof.
  unfold pause_body.
  apply never_bind; [apply never_arm | intros _].
  apply never_bind; [apply never_open_streams | intros _].
  apply never_bind; [apply never_enter_raw | intros _].
  apply never_read_loop.
Qed.

End NeverRaises.

(** X6.  Neither AnsibleTimeoutExceeded nor KeyboardInterrupt ever leaves
    [run]: the second is caught inside the loop and nothing in its handler
    raises it again, the first is caught at the [try] of [run], and neither
    its handler nor the cleanup raises one of the two. *)
Theorem internal_exceptions_stay_inside :
  forall E fuel args, never_raises internal (run E fuel args).
Proof.
  intros E fuel args st.
  destruct (run_cases E fuel args st) as [[c Hopt] | [(r0 & H0 & _) | (m & Hm)]].
  - rewrite (run_accepted E fuel args c st Hopt).
    assert (Hkbd : never_raises (fun e => e = KeyboardInterrupt)
                     (pause_body E fuel args c)).
    { apply never_pause_body; [intros e ->; now right | discriminate]. }
    assert (Hto : never_raises internal (on_timeout E args c)).
    { apply never_on_timeout. auto. }
    assert (Hbody : never_raises internal (guarded_body E fuel args c)).
    { intros s. unfold guarded_body, try_except. specialize (Hkbd s).
      destruct (pause_body E fuel args c s) as [[u | e | | ] s1]; simpl in *;
        try exact I.
      destruct e; simpl; try (intros [H | H]; discriminate H).
      - apply Hto.
      - now elim Hkbd. }
    specialize (Hbody (started E st)).
    destruct (guarded_body E fuel args c (started E st)) as [[u | e | | ] st1];
      simpl in *; try exact I. exact Hbody.
  - rewrite H0. exact I.
  - rewrite Hm. simpl. intros [H | H]; discriminate H.
Qed.

(** ** Sessions on a terminal *)

Lemma after_keys_start E args c tin tout clock keys :
  alarm_fits c ->
  let st := after_keys E args c tin tout clock keys in
  l_start st = time_time E clock /\ w_clock st = clock + total_wait keys /\
  w_pos st = List.length keys /\
  w_alarm st = match c_seconds c with
               | Some n => Some (clock + clamp_seconds n)
               | None => None
               end /\
  l_old_settings st = Some tin /\
  ready (intr_of E tin) (erase_of E tin) (edit (erase_of E tin) (map snd keys) []) st.
Proof.
  intros Hfits. unfold after_keys.
  destruct (at_loop_facts E args c (entry tin tout clock) Hfits)
    as (Hr & Hold & Hpos & Hclk & Hst & Hal).
  change (w_tin (entry tin tout clock)) with tin in *.
  change (w_clock (entry tin tout clock)) with clock in *.
  change (w_pos (entry tin tout clock)) with 0%nat in *.
  change (w_alarm (entry tin tout clock)) with (@None Z) in *.
  destruct (typed_state_facts E c _ _ keys [] _ Hr)
    as (Hr' & (_ & _ & Hold' & _ & _ & Hst' & Hal' & _) & Hpos' & Hclk').
  cbn zeta. rewrite Hst', Hst, Hclk', Hclk, Hpos', Hpos, Hal', Hal, Hold', Hold.
  repeat split; try apply Hr'.
Qed.

Lemma loop_body_blocked E fuel c st :
  l_stdin_fd st = Some FdStdin ->
  stdin_events E (w_pos st) = Never ->
  w_alarm st = None ->
  loop_body E fuel c st = (Blocked, st).
Proof.
  intros Hfd Hev Hal.
  unfold loop_body, read_key, try_except, bind, gets. rewrite Hfd.
  unfold stdin_read1. rewrite Hev, Hal. reflexivity.
Qed.

(** X7.  On a terminal that has both capabilities, with a duration
    [signal.alarm] takes, when Enter ends the pause before the alarm is due,
    [run] returns at the tick of that key with the alarm still pending, due
    at the instant it was armed for. *)
Theorem newline_leaves_alarm_pending :
  forall E args c tin tout clock keys nl fuel,
    stdin E = StdinTty ->
    capable E ->
    alarm_fits c ->
    read_options E args (entry tin tout clock) = (Ret (inr c), entry tin tout clock) ->
    delivers E 0 (keys ++ [nl]) ->
    Forall (fun wk => plain (intr_of E tin) (snd wk)) keys ->
    [snd nl] <> intr_of E tin ->
    snd nl = CR \/ snd nl = LF ->
    in_time c (total_wait (keys ++ [nl])) ->
    exists r st',
      run E (List.length keys + S fuel) args (entry tin tout clock) = (Ret r, st') /\
      w_clock st' = clock + total_wait (keys ++ [nl]) /\
      w_alarm st' = match c_seconds c with
                    | Some n => Some (clock + clamp_seconds n)
                    | None => None
                    end.
Proof.
  intros E args c tin tout clock keys nl fuel Htty Hcap Hfits Hopt Hdel Hplain Hni Hnl
         Hin.
  pose proof (session_newline E Htty Hcap args c Hfits tin tout clock Hopt keys nl fuel
                Hdel Hplain Hni Hnl Hin) as Hrun.
  cbn zeta in Hrun.
  destruct (after_keys_start E args c tin tout clock keys Hfits)
    as (Hst & Hclk & Hpos & Hal & Hold & Hr).
  eexists _, _. split; [exact Hrun|].
  rewrite total_wait_app. unfold finished, cleared, tick. simpl.
  rewrite Hclk, Hal. split; [lia | reflexivity].
Qed.

(** X8.  Once the interrupt character is read in time (on a terminal that
    has both capabilities, with a duration [signal.alarm] takes), the alarm
    is off for good: however long the user takes over the keys of the
    sub-dialog, [run] ends by the answer (returning on C, raising on A) at
    the tick of that answer, with no alarm pending. *)
Theorem interrupt_dialog_is_untimed :
  forall E args c tin tout clock keys ik passed answer fuel,
    stdin E = StdinTty ->
    capable E ->
    alarm_fits c ->
    read_options E args (entry tin tout clock) = (Ret (inr c), entry tin tout clock) ->
    delivers E 0 (keys ++ [ik] ++ passed ++ [answer]) ->
    Forall (fun wk => plain (intr_of E tin) (snd wk)) keys ->
    [snd ik] = intr_of E tin ->
    Forall (fun wk => ignored (snd wk)) passed ->
    is_abort (snd answer) \/ is_continue (snd answer) ->
    in_time c (total_wait (keys ++ [ik])) ->
    exists o st',
      run E (List.length keys + S (S (List.length passed + fuel))) args
          (entry tin tout clock) = (o, st') /\
      returned_or_raised o /\
      w_alarm st' = None /\
      w_clock st' = clock + total_wait (keys ++ [ik] ++ passed ++ [answer]) /\
      w_pos st' = List.length (keys ++ [ik] ++ passed ++ [answer]).
Proof.
  intros E args c tin tout clock keys ik passed answer fuel Htty Hcap Hfits Hopt Hdel
         Hplain Hik Hpassed Hans Hin.
  destruct (session_interrupt E Htty Hcap args c Hfits tin tout clock Hopt keys ik passed
              answer fuel Hdel Hplain Hik Hpassed Hin) as [Habort Hcont].
  cbn zeta in Habort, Hcont.
  destruct (after_keys_start E args c tin tout clock keys Hfits)
    as (Hst & Hclk & Hpos & Hal & Hold & Hr).
  assert (Hfinal : forall o,
    run E (List.length keys + S (S (List.length passed + fuel))) args
        (entry tin tout clock) =
    (o, finished E tin (cleared E (skip (passed ++ [answer])
          (asked (cleared E (tick (fst ik) [snd ik]
             (after_keys E args c tin tout clock keys))))))) ->
    returned_or_raised o ->
    exists o st',
      run E (List.length keys + S (S (List.length passed + fuel))) args
          (entry tin tout clock) = (o, st') /\
      returned_or_raised o /\
      w_alarm st' = None /\
      w_clock st' = clock + total_wait (keys ++ [ik] ++ passed ++ [answer]) /\
      w_pos st' = List.length (keys ++ [ik] ++ passed ++ [answer])).
  { intros o Hrun Ho. eexists _, _. split; [exact Hrun|]. split; [exact Ho|].
    rewrite !total_wait_app. unfold finished, cleared, skip, asked, tick. simpl.
    rewrite Hclk, Hpos, !total_wait_app, !length_app. simpl.
    repeat split; try lia. rewrite length_app. simpl. lia. }
  destruct Hans as [Ha | Hc].
  - exact (Hfinal _ (Habort Ha) I).
  - exact (Hfinal _ (Hcont Hc) I).
Qed.

(** X9.  When the alarm fires on a terminal that has both capabilities and
    the task has no prompt or no timeout answer, [run] returns what was
    typed so far, at the tick the alarm was due, which is the duration
    (raised to 1 when it is less) after entry; no alarm is pending and the
    terminal has its attributes back. *)
Theorem timeout_without_answer_keeps_input :
  forall E args c n tin tout clock keys fuel,
    stdin E = StdinTty ->
    capable E ->
    read_options E args (entry tin tout clock) = (Ret (inr c), entry tin tout clock) ->
    has_prompt args = false \/ arg_timeout_answer args = None ->
    c_seconds c = Some n ->
    clamp_seconds n <= INT_MAX ->
    delivers E 0 keys ->
    Forall (fun wk => plain (intr_of E tin) (snd wk)) keys ->
    total_wait keys < clamp_seconds n ->
    match stdin_events E (List.length keys) with
    | Never => True
    | Arrives wait _ => clamp_seconds n <= total_wait keys + Z.of_nat wait
    end ->
    exists r st',
      run E (List.length keys + S fuel) args (entry tin tout clock) = (Ret r, st') /\
      r_user_input r = Some (edit (erase_of E tin) (map snd keys) []) /\
      w_clock st' = clock + clamp_seconds n /\
      w_alarm st' = None /\
      w_tin st' = tin /\
      w_pos st' = List.length keys.
Proof.
  intros E args c n tin tout clock keys fuel Htty Hcap Hopt Hno Hn Hmax Hdel Hplain Htime
         Hlate.
  assert (Hfits : alarm_fits c) by (unfold alarm_fits; now rewrite Hn).
  assert (Htime' : in_time c (total_wait keys)) by (unfold in_time; now rewrite Hn).
  destruct (session_keys E Htty Hcap args c Hfits tin tout clock keys (S fuel) Hdel
              Hplain Htime')
    as (Hbody & Hready & Hold & Hpos & Hclock & Halarm).
  cbn zeta in *. rewrite Hn in Halarm.
  set (st := after_keys E args c tin tout clock keys) in *.
  assert (Hloop : read_loop E (S fuel) c st =
                  (Raise AnsibleTimeoutExceeded,
                   set_alarm None (set_clock (clock + clamp_seconds n) st))).
  { apply read_loop_timeout; [exact (proj1 Hready)|].
    split; [exact Halarm|]. rewrite Hpos, Hclock.
    destruct (stdin_events E (List.length keys)); [lia | exact I]. }
  assert (Hoff : on_timeout E args c = ret tt).
  { unfold on_timeout, has_timeout_answer. destruct Hno as [-> | ->]; [reflexivity|].
    now rewrite andb_false_r. }
  assert (Hguard : guarded_body E (List.length keys + S fuel) args c
                     (started E (entry tin tout clock)) =
                   (Ret tt, set_alarm None (set_clock (clock + clamp_seconds n) st))).
  { unfold guarded_body, try_except. rewrite Hbody, Hloop, Hoff. reflexivity. }
  eexists _, _. split.
  - apply (run_returns E Htty _ args c _ _ tin Hopt Hguard).
    + exact (proj1 Hready).
    + exact Hold.
  - destruct Hready as (_ & _ & _ & _ & Hu).
    unfold finished. simpl. rewrite Hu, Hpos. repeat split.
Qed.

(** X10.  Without [seconds] no alarm is armed: once a terminal that has
    both capabilities falls silent the read never comes back, and [run]
    stays in it with the input typed so far. *)
Theorem silent_terminal_blocks_without_seconds :
  forall E args c tin tout clock keys fuel,
    stdin E = StdinTty ->
    capable E ->
    read_options E args (entry tin tout clock) = (Ret (inr c), entry tin tout clock) ->
    c_seconds c = None ->
    delivers E 0 keys ->
    Forall (fun wk => plain (intr_of E tin) (snd wk)) keys ->
    stdin_events E (List.length keys) = Never ->
    exists st',
      run E (List.length keys + S fuel) args (entry tin tout clock) = (Blocked, st') /\
      r_user_input (l_result st') = Some (edit (erase_of E tin) (map snd keys) []) /\
      w_clock st' = clock + total_wait keys /\
      w_pos st' = List.length keys.
Proof.
  intros E args c tin tout clock keys fuel Htty Hcap Hopt Hn Hdel Hplain Hnever.
  assert (Hfits : alarm_fits c) by (unfold alarm_fits; now rewrite Hn).
  assert (Htime : in_time c (total_wait keys)) by (unfold in_time; now rewrite Hn).
  destruct (session_keys E Htty Hcap args c Hfits tin tout clock keys (S fuel) Hdel
              Hplain Htime)
    as (Hbody & Hready & Hold & Hpos & Hclock & Halarm).
  cbn zeta in *. rewrite Hn in Halarm.
  set (st := after_keys E args c tin tout clock keys) in *.
  assert (Hguard : guarded_body E (List.length keys + S fuel) args c
                     (started E (entry tin tout clock)) = (Blocked, st)).
  { unfold guarded_body, try_except. rewrite Hbody. cbn [read_loop]. unfold bind.
    rewrite (loop_body_blocked E fuel c st (proj1 Hready)); [reflexivity| |exact Halarm].
    now rewrite Hpos. }
  exists st. split.
  - rewrite (run_accepted E _ args c _ Hopt), Hguard. reflexivity.
  - destruct Hready as (_ & _ & _ & _ & Hu). repeat split; assumption.
Qed.

(** ** Descriptors that are no terminal *)

(** X11.  With no usable stdin (closed, or none) and a duration
    [signal.alarm] takes, [run] warns and returns at once: nothing is read,
    the process clock has not moved, the input is empty, and an alarm that
    was armed stays pending. *)
Theorem no_stdin_returns_at_once :
  forall E fuel args c st,
    stdin E = StdinNull \/ stdin E = StdinClosed ->
    alarm_fits c ->
    read_options E args st = (Ret (inr c), st) ->
    exists r st',
      run E (S fuel) args st = (Ret r, st') /\
      r_user_input r = Some [] /\
      w_pos st' = w_pos st /\
      w_clock st' = w_clock st /\
      In (EvWarning not_interactive_warning) (w_log st') /\
      w_alarm st' = match c_seconds c with
                    | Some n => Some (w_clock st + clamp_seconds n)
                    | None => w_alarm st
                    end.
Proof.
  intros E fuel args c st Hno Hfits Hopt.
  assert (Hfd : l_stdin_fd (loop_entry E args c st) = None).
  { unfold loop_entry. destruct Hno as [-> | ->]; reflexivity. }
  pose (st1 := set_log (EvWarning not_interactive_warning
                          :: w_log (loop_entry E args c st))
                       (loop_entry E args c st)).
  assert (Hguard : guarded_body E (S fuel) args c (started E st) = (Ret tt, st1)).
  { unfold guarded_body, try_except. rewrite (pause_body_entry E _ _ _ _ Hfits).
    cbn [read_loop]. unfold bind. rewrite (loop_body_no_fd E fuel c _ Hfd). reflexivity. }
  destruct (armed_fields args c (started E st)) as (A1 & A2 & _ & _ & A5 & A6).
  pose proof (armed_alarm args c (started E st) Hfits) as A7.
  assert (Hst1 : w_pos st1 = w_pos st /\ w_clock st1 = w_clock st /\
                 r_user_input (l_result st1) = Some [] /\
                 w_alarm st1 = match c_seconds c with
                               | Some n => Some (w_clock st + clamp_seconds n)
                               | None => w_alarm st
                               end /\
                 l_stdin_fd st1 = None /\
                 In (EvWarning not_interactive_warning) (w_log st1)).
  { subst st1. unfold loop_entry.
    destruct Hno as [-> | ->]; simpl; rewrite A1, A2, A5, A7; simpl;
      repeat split; now left. }
  clearbody st1. destruct Hst1 as (H1 & H2 & H4 & H5 & H6 & H7).
  destruct (cleanup_summary E st1) as (Hres & Hclk & Hal & Hpos).
  assert (Hlog : w_log (snd (cleanup E st1)) = w_log st1).
  { unfold cleanup. munfold. rewrite H6. reflexivity. }
  exists (l_result (snd (cleanup E st1))), (snd (cleanup E st1)). split.
  - rewrite (run_accepted E _ args c _ Hopt), Hguard. reflexivity.
  - rewrite Hres, Hclk, Hal, Hpos, Hlog, H1, H2, H5. simpl. rewrite H4.
    repeat split. exact H7.
Qed.

(** X12.  With stdin an open descriptor that is no terminal and a duration
    [signal.alarm] takes, the first byte that arrives before the alarm is
    consumed and then compared with [intr], which was never bound: [run]
    raises UnboundLocalError, after a cleanup that leaves the terminal
    alone, without the warning. *)
Theorem pipe_read_raises_unbound_intr :
  forall E fuel args c tin tout clock wait data,
    stdin E = StdinPipe ->
    alarm_fits c ->
    read_options E args (entry tin tout clock) = (Ret (inr c), entry tin tout clock) ->
    stdin_events E 0 = Arrives wait data ->
    in_time c (Z.of_nat wait) ->
    exists st',
      run E (S fuel) args (entry tin tout clock) =
        (Raise (UnboundLocalError (bytes_of "intr")), st') /\
      w_pos st' = 1%nat /\
      w_tin st' = tin /\
      forall m, ~ In (EvWarning m) (w_log st').
Proof.
  intros E fuel args c tin tout clock wait data Hpipe Hfits Hopt Hev Hin.
  set (st := entry tin tout clock) in *.
  destruct (armed_fields args c (started E st)) as (A1 & A2 & A3 & _ & A5 & A6).
  pose proof (armed_alarm args c (started E st) Hfits) as A7.
  assert (A8 : l_intr (armed args c (started E st)) = None /\
               l_old_settings (armed args c (started E st)) = None /\
               forall m, ~ In (EvWarning m) (w_log (armed args c (started E st)))).
  { pose proof (arm_returns args c (started E st) Hfits) as Harm.
    unfold armed. revert Harm. unfold arm.
    destruct (c_seconds c) as [n|] eqn:Hn.
    - pose proof (clamp_seconds_pos n) as Hpos.
      assert (Hmax : clamp_seconds n <= INT_MAX)
        by (unfold alarm_fits in Hfits; now rewrite Hn in Hfits).
      intros _.
      destruct (has_prompt args); cbn [negb];
        unfold bind, signal_handler, display, log, modify;
        rewrite signal_alarm_sets by lia; simpl;
        repeat split; intros m Hm;
        repeat (destruct Hm as [Hm | Hm]; [discriminate Hm|]); exact Hm.
    - intros _. simpl. repeat split. intros m [Hm | Hm]; [discriminate Hm | exact Hm]. }
  destruct A8 as (A8 & A9 & A10).
  pose (st0 := loop_entry E args c st).
  assert (Hst0 : l_stdin_fd st0 = Some FdStdin /\ l_intr st0 = None /\
                 w_pos st0 = 0%nat /\ w_clock st0 = clock /\ w_tin st0 = tin /\
                 l_old_settings st0 = None /\
                 w_alarm st0 = match c_seconds c with
                               | Some n => Some (clock + clamp_seconds n)
                               | None => None
                               end /\
                 (forall m, ~ In (EvWarning m) (w_log st0))).
  { subst st0. unfold loop_entry. rewrite Hpipe. simpl. rewrite A1, A2, A3, A7, A8, A9.
    repeat split. exact A10. }
  assert (Hbody : pause_body E (S fuel) args c (started E st) = read_loop E (S fuel) c st0)
    by (apply pause_body_entry; exact Hfits).
  clearbody st0. destruct Hst0 as (H1 & H2 & H3 & H4 & H5 & H6 & H7 & H8).
  assert (Hal : alarm_after st0 (Z.of_nat wait)).
  { unfold alarm_after. rewrite H7, H4. unfold in_time in Hin.
    destruct (c_seconds c); [lia | exact I]. }
  rewrite <- H3 in Hev.
  pose (st1 := set_key_pressed (Some (firstn 1 data))
                 (set_pos (S (w_pos st0)) (set_clock (w_clock st0 + Z.of_nat wait) st0))).
  assert (Hguard : guarded_body E (S fuel) args c (started E st) =
                   (Raise (UnboundLocalError (bytes_of "intr")), st1)).
  { unfold guarded_body, try_except. rewrite Hbody. cbn [read_loop].
    unfold bind at 1. unfold loop_body, read_key, try_except. munfold.
    rewrite H1. rewrite (stdin_read1_arrives E st0 wait data Hev Hal). mred.
    rewrite H2. reflexivity. }
  assert (Hclean : w_pos (snd (cleanup E st1)) = w_pos st1 /\
                   w_tin (snd (cleanup E st1)) = w_tin st1 /\
                   w_log (snd (cleanup E st1)) = w_log st1).
  { unfold cleanup. munfold. subst st1. mred. rewrite H1, H6. repeat split. }
  exists (snd (cleanup E st1)). split.
  - rewrite (run_accepted E _ args c _ Hopt), Hguard. reflexivity.
  - destruct Hclean as (-> & -> & ->). subst st1. simpl. rewrite H3, H5.
    repeat split. exact H8.
Qed.

(** ** Raw mode and the prompt *)

(** X13.  Entering raw mode on a terminal saves the attributes of stdin and
    leaves it with the raw ones, where the ECHO bit is set exactly when
    [echo] is true (given that [tty.setraw] clears it). *)
Theorem echo_bit_follows_option :
  forall E c st,
    stdin E = StdinTty ->
    l_stdin_fd st = Some FdStdin ->
    (forall a, Z.land (Termios.lflag (setraw E a)) Termios.ECHO = 0) ->
    exists st',
      enter_raw E c st = (Ret tt, st') /\
      l_old_settings st' = Some (w_tin st) /\
      w_tin st' = (if truthy (c_echo c)
                   then Termios.with_echo (raw_attrs E (w_tin st))
                   else raw_attrs E (w_tin st)) /\
      Z.land (Termios.lflag (w_tin st')) Termios.ECHO =
        (if truthy (c_echo c) then Termios.ECHO else 0).
Proof.
  intros E c st Htty Hfd Hraw.
  exists (raw_state E c st). split; [exact (enter_raw_tty E Htty c st Hfd)|].
  split; [apply raw_state_old_settings|].
  assert (Hin : w_tin (raw_state E c st) =
                (if truthy (c_echo c)
                 then Termios.with_echo (raw_attrs E (w_tin st))
                 else raw_attrs E (w_tin st))).
  { unfold raw_state, raw_attrs, isatty, device_attrs, set_device_attrs.
    destruct (stdout E), (truthy (c_echo c)); reflexivity. }
  split; [exact Hin|]. rewrite Hin.
  assert (Hclear : Z.land (Termios.lflag (raw_attrs E (w_tin st))) Termios.ECHO = 0).
  { unfold raw_attrs. destruct (stdout E); apply Hraw. }
  destruct (truthy (c_echo c)); [|exact Hclear].
  unfold Termios.with_echo. cbn [Termios.lflag].
  rewrite Z.land_lor_distr_l, Hclear. reflexivity.
Qed.

Lemma read_options_prompt E args st c st' :
  read_options E args st = (Ret (inr c), st') ->
  exists text, c_prompt c = format_prompt E text (c_echo_prompt c).
Proof.
  unfold read_options.
  destruct (arg_echo args) as [v|]; [destruct (boolean E v) as [m|b]|];
    try discriminate;
    (destruct (read_timeout_answer args) as [m'|answer]; [discriminate|]);
    (destruct (arg_seconds args) as [s|]; [destruct (py_int E s)|]);
    try discriminate; unfold ret; intros H; injection H as <- _;
    destruct (arg_prompt args); eexists; reflexivity.
Qed.

(** X15.  [arm] displays the prompt in two cases and no other: no duration
    is given, or a prompt is given with a duration [signal.alarm] takes.
    With [seconds] and no [prompt] only the two lines of the timer are
    shown (the [display] of the prompt there is behind a test that is
    false), and a duration that is refused stops [arm] before the prompt. *)
Theorem prompt_is_displayed_iff :
  forall E args c st,
    read_options E args st = (Ret (inr c), st) ->
    ~ In (EvDisplay (c_prompt c)) (w_log st) ->
    (In (EvDisplay (c_prompt c)) (w_log (armed args c st)) <->
     c_seconds c = None \/ (has_prompt args = true /\ alarm_fits c)).
Proof.
  intros E args c st Hopt Hfresh.
  destruct (read_options_prompt E args st c st Hopt) as (text & Hp).
  assert (Hhead : forall rest, c_prompt c <> bytes_of "Pausing for " ++ rest).
  { intros rest H. rewrite Hp in H. discriminate H. }
  assert (Hhint : c_prompt c <>
                  bytes_of "(ctrl+C then 'C' = continue early, ctrl+C then 'A' = abort)" ++ [CR]).
  { intros H. rewrite Hp in H. discriminate H. }
  destruct (alarm_fits_dec c) as [Hfits | Hno].
  - pose proof (arm_returns args c st Hfits) as Harm.
    unfold armed. unfold alarm_fits in Hfits. revert Harm. unfold arm.
    destruct (c_seconds c) as [n|] eqn:Hn.
    + pose proof (clamp_seconds_pos n) as Hpos. intros _.
      destruct (has_prompt args); cbn [negb];
        unfold bind, signal_handler, display, log, modify;
        rewrite signal_alarm_sets by lia; simpl; split.
      * intros _. right. split; [reflexivity|]. unfold alarm_fits. now rewrite Hn.
      * intros _. now left.
      * intros [H | [H | [H | [H | H]]]]; try discriminate H.
        -- injection H as H. now elim Hhint.
        -- injection H as H. symmetry in H. now elim (Hhead _ H).
        -- contradiction.
      * intros [H | [H _]]; discriminate H.
    + intros _. simpl. split; [intros _; now left | intros _; now left].
  - rewrite (f_equal snd (arm_refused args c st Hno) : armed args c st = _).
    simpl. split.
    + intros [H | H]; [discriminate H | contradiction].
    + intros [H | [_ H]]; [|contradiction].
      unfold alarm_fits in Hno. rewrite H in Hno. now elim Hno.
Qed.

(** ** What the module does not guard against *)

(** X21.  A duration that [signal.alarm] refuses (more than a C [int]
    holds) ends [run] by OverflowError before anything is displayed, opened
    or read: the handler of the alarm is all that was installed. *)
Theorem oversized_seconds_raise_before_the_loop :
  forall E fuel args c st n,
    read_options E args st = (Ret (inr c), st) ->
    c_seconds c = Some n ->
    INT_MAX < n ->
    exists st',
      run E fuel args st =
        (Raise (PyOverflowError (bytes_of "signed integer is greater than maximum")), st') /\
      w_log st' = EvSignal :: w_log st /\
      w_alarm st' = w_alarm st /\
      w_pos st' = w_pos st /\
      w_tin st' = w_tin st /\
      w_tout st' = w_tout st.
Proof.
  intros E fuel args c st n Hopt Hn Hbig.
  assert (Hno : ~ alarm_fits c).
  { unfold alarm_fits, clamp_seconds. rewrite Hn. unfold INT_MAX in *.
    destruct (Z.ltb_spec n 1); lia. }
  eexists. split.
  - rewrite (run_accepted E fuel args c st Hopt).
    rewrite (guarded_body_refused E fuel args c _ Hno). reflexivity.
  - unfold cleanup. munfold. simpl. repeat split.
Qed.

Lemma loop_body_newline_incapable E fuel c i e u st wk :
  stdin E = StdinTty ->
  ~ capable E ->
  ready i e u st ->
  stdin_events E (w_pos st) = Arrives (fst wk) [snd wk] ->
  alarm_after st (Z.of_nat (fst wk)) ->
  [snd wk] <> i ->
  snd wk = CR \/ snd wk = LF ->
  exists m st',
    loop_body E fuel c st = (Raise (PyTypeError m), st') /\
    w_pos st' = S (w_pos st) /\
    l_stdin_fd st' = l_stdin_fd st /\
    l_old_settings st' = l_old_settings st /\
    w_tin st' = w_tin st.
Proof.
  intros Htty Hno (Hfd & Hout & Hi & He & Hu) Hev Hal Hni Hnl.
  apply bytes_mem_newline in Hnl.
  unfold loop_body, read_key, not_interactive. munfold.
  rewrite Hfd. rewrite (stdin_read1_arrives _ _ _ _ Hev Hal). mred.
  rewrite Hi. rewrite (bytes_eqb_neq _ _ Hni).
  rewrite (isatty_stdin E Htty). mred. rewrite Hnl.
  repeat (progress (mred; rewrite ?Hout)).
  destruct (MOVE_TO_BOL E) as [bol|] eqn:Hbol;
    [destruct (CLEAR_TO_EOL E) as [eol|] eqn:Heol|];
    repeat (progress (mred; rewrite ?Hout));
    try (eexists _, _; split; [reflexivity | repeat split; auto]; fail).
  elim Hno. exists bol, eol. now split.
Qed.

(** X22.  On a terminal that lacks one of the two capabilities, Enter as
    the first key does not end the pause with a result: [clear_line] raises
    TypeError, which leaves [run] after the cleanup has given the terminal
    its attributes back. *)
Theorem enter_without_capability_raises :
  forall E args c tin tout clock nl fuel,
    stdin E = StdinTty ->
    ~ capable E ->
    alarm_fits c ->
    read_options E args (entry tin tout clock) = (Ret (inr c), entry tin tout clock) ->
    stdin_events E 0 = Arrives (fst nl) [snd nl] ->
    [snd nl] <> intr_of E tin ->
    snd nl = CR \/ snd nl = LF ->
    in_time c (Z.of_nat (fst nl)) ->
    exists m st',
      run E (S fuel) args (entry tin tout clock) = (Raise (PyTypeError m), st') /\
      w_pos st' = 1%nat /\
      w_tin st' = tin /\
      exists l, w_log st' = EvTcsetattr FdStdin Termios.TCSADRAIN tin :: l.
Proof.
  intros E args c tin tout clock nl fuel Htty Hno Hfits Hopt Hev Hni Hnl Htime.
  destruct (at_loop_facts E args c (entry tin tout clock) Hfits)
    as (Hready & Hold & Hpos & Hclock & _ & Halarm).
  cbn [w_pos w_clock w_alarm w_tin entry] in Hready, Hold, Hpos, Hclock, Halarm.
  set (st0 := at_loop E args c (entry tin tout clock)) in *.
  assert (Hal : alarm_after st0 (Z.of_nat (fst nl))).
  { unfold alarm_after. rewrite Halarm, Hclock. unfold in_time in Htime.
    destruct (c_seconds c); [lia | exact I]. }
  rewrite <- Hpos in Hev.
  destruct (loop_body_newline_incapable E fuel c _ _ _ st0 nl Htty Hno Hready Hev Hal
              Hni Hnl) as (m & st2 & Hturn & P1 & P2 & P3 & P4).
  assert (Hguard : guarded_body E (S fuel) args c (started E (entry tin tout clock)) =
                   (Raise (PyTypeError m), st2)).
  { unfold guarded_body, try_except. rewrite (pause_body_tty E Htty _ _ _ _ Hfits).
    cbn [read_loop]. fold st0. rewrite (bind_raise_eq _ _ _ _ _ Hturn). reflexivity. }
  exists m, (finished E tin st2). split.
  - apply (run_raises E Htty _ args c _ _ tin _ Hopt Hguard).
    + rewrite P2. exact (proj1 Hready).
    + rewrite P3. exact Hold.
  - unfold finished. simpl. rewrite P1, Hpos. repeat split. eexists. reflexivity.
Qed.

(** X23.  With [prompt] given, a [timeout_answer] that is no text (a YAML
    number, boolean or null) makes [str.encode] raise TypeError: it leaves
    [run] before [seconds] is looked at, in the state [run] was entered
    in. *)
Theorem timeout_answer_must_be_text :
  forall E fuel args st v m,
    (forall w, arg_echo args = Some w -> exists e, boolean E w = inr e) ->
    has_prompt args = true ->
    arg_timeout_answer args = Some v ->
    str_encode v = inl m ->
    run E fuel args st = (Raise (PyTypeError m), st).
Proof.
  intros E fuel args st v m Hecho Hp Hv Hm.
  assert (Ha : read_timeout_answer args = inl m).
  { unfold read_timeout_answer, has_prompt in *.
    destruct (arg_prompt args); [|discriminate]. now rewrite Hv, Hm. }
  unfold run, read_options, bind, raise.
  destruct (arg_echo args) as [w|].
  - destruct (Hecho w eq_refl) as [e ->]. now rewrite Ha.
  - now rewrite Ha.
Qed.

(** ** Sample sessions of the further properties *)

Lemma linux_setraw_clears_echo a :
  Z.land (Termios.lflag (Sample.linux_setraw a)) Termios.ECHO = 0.
Proof.
  unfold Sample.linux_setraw. cbn [Termios.lflag].
  rewrite Z.ldiff_land, <- Z.land_assoc. apply Z.land_0_r.
Qed.

Lemma sample_capable i o events : capable (Sample.on i o events).
Proof. do 2 eexists. split; reflexivity. Qed.

Lemma dumb_incapable E : ~ capable (dumb E).
Proof. intros (bol & eol & _ & H). discriminate H. Qed.

(** Enter at the prompt. *)
Lemma result_header_is_fixed_witness :
  let out := run (Runs.terminal [LF]) 3 Runs.ask Sample.start in
  let r := l_result (snd out) in
  r_changed r = false /\ r_rc r = 0 /\ r_stderr r = [] /\ r_echo r = None.
Proof.
  intros out r.
  apply (result_header_is_fixed (Runs.terminal [LF]) 3 Runs.ask Sample.start r (snd out)).
  vm_compute. reflexivity.
Defined.

(** A secret, a correction, Enter: the line is cleared, nothing else. *)
Lemma hidden_input_is_never_written_witness :
  let E := Runs.terminal ["s"%byte; x7f; LF] in
  let d := ESC :: bytes_of "[" ++ capability (CLEAR_TO_EOL E) in
  In (EvWrite d) (w_log Sample.start) \/
  hidden_writes E (Runs.resolved E MoreRuns.ask_secret) d.
Proof.
  intros E d.
  apply (hidden_input_is_never_written E 4 MoreRuns.ask_secret
           (Runs.resolved E MoreRuns.ask_secret) Sample.start d).
  - reflexivity.
  - reflexivity.
  - vm_compute. auto 10.
Defined.

Lemma no_terminal_call_without_tty_witness :
  calm Sample.start
       (snd (run (MoreRuns.pipe 0 ["x"%byte]) 2 Runs.no_options Sample.start)).
Proof.
  apply (no_terminal_call_without_tty (MoreRuns.pipe 0 ["x"%byte]) 2 Runs.no_options
           Sample.start).
  discriminate.
Defined.

Lemma other_stdout_terminal_stays_raw_witness :
  w_tout (snd (run (MoreRuns.two_terminals [LF]) 3 Runs.ask Sample.start)) =
  Sample.linux_setraw Sample.cooked.
Proof.
  apply (other_stdout_terminal_stays_raw (MoreRuns.two_terminals [LF]) 3 Runs.ask
           (Runs.resolved (MoreRuns.two_terminals [LF]) Runs.ask) Sample.start).
  - reflexivity.
  - reflexivity.
  - reflexivity.
  - exact I.
Defined.

(** a and Enter, two ticks each, of a minute. *)
Lemma newline_leaves_alarm_pending_witness :
  exists r st',
    run (MoreRuns.slow_terminal 2 ["a"%byte; LF]) 2 Runs.ask_for_a_minute Sample.start =
      (Ret r, st') /\
    w_clock st' = 104 /\
    w_alarm st' = Some 160.
Proof.
  apply (newline_leaves_alarm_pending
           (MoreRuns.slow_terminal 2 ["a"%byte; LF]) Runs.ask_for_a_minute
           (Runs.resolved (MoreRuns.slow_terminal 2 ["a"%byte; LF]) Runs.ask_for_a_minute)
           Sample.cooked Sample.cooked 100 [(2%nat, "a"%byte)] (2%nat, LF) 0).
  - reflexivity.
  - apply sample_capable.
  - vm_compute. discriminate.
  - reflexivity.
  - exact (typed_delivers StdinTty StdoutSameTty 2 ["a"%byte; LF] Never).
  - repeat constructor; vm_compute; discriminate.
  - vm_compute. discriminate.
  - right. reflexivity.
  - vm_compute. reflexivity.
Defined.

(** q, Ctrl+C within the minute, then x and C long after it. *)
Lemma interrupt_dialog_is_untimed_witness :
  exists o st',
    run (MoreRuns.slow_terminal 25 ["q"%byte; x03; "x"%byte; "C"%byte]) 4
        Runs.ask_for_a_minute Sample.start = (o, st') /\
    returned_or_raised o /\
    w_alarm st' = None /\
    w_clock st' = 200 /\
    w_pos st' = 4%nat.
Proof.
  apply (interrupt_dialog_is_untimed
           (MoreRuns.slow_terminal 25 ["q"%byte; x03; "x"%byte; "C"%byte])
           Runs.ask_for_a_minute
           (Runs.resolved (MoreRuns.slow_terminal 25 ["q"%byte; x03; "x"%byte; "C"%byte])
                          Runs.ask_for_a_minute)
           Sample.cooked Sample.cooked 100
           [(25%nat, "q"%byte)] (25%nat, x03) [(25%nat, "x"%byte)] (25%nat, "C"%byte) 0).
  - reflexivity.
  - apply sample_capable.
  - vm_compute. discriminate.
  - reflexivity.
  - exact (typed_delivers StdinTty StdoutSameTty 25
             ["q"%byte; x03; "x"%byte; "C"%byte] Never).
  - repeat constructor; vm_compute; discriminate.
  - reflexivity.
  - repeat constructor; vm_compute; intros [H | H]; discriminate H.
  - right. right. reflexivity.
  - vm_compute. reflexivity.
Defined.

(** [seconds: 3, timeout_answer: Y] and no prompt: h and i, then silence. *)
Lemma timeout_without_answer_keeps_input_witness :
  exists r st',
    run (MoreRuns.slow_terminal 1 ["h"%byte; "i"%byte]) 3
        MoreRuns.answer_without_prompt Sample.start = (Ret r, st') /\
    r_user_input r = Some (bytes_of "hi") /\
    w_clock st' = 103 /\
    w_alarm st' = None /\
    w_tin st' = Sample.cooked /\
    w_pos st' = 2%nat.
Proof.
  apply (timeout_without_answer_keeps_input
           (MoreRuns.slow_terminal 1 ["h"%byte; "i"%byte]) MoreRuns.answer_without_prompt
           (Runs.resolved (MoreRuns.slow_terminal 1 ["h"%byte; "i"%byte])
                          MoreRuns.answer_without_prompt)
           3 Sample.cooked Sample.cooked 100 [(1%nat, "h"%byte); (1%nat, "i"%byte)] 0).
  - reflexivity.
  - apply sample_capable.
  - reflexivity.
  - left. reflexivity.
  - reflexivity.
  - vm_compute. discriminate.
  - exact (typed_delivers StdinTty StdoutSameTty 1 ["h"%byte; "i"%byte] Never).
  - repeat constructor; vm_compute; discriminate.
  - vm_compute. reflexivity.
  - vm_compute. exact I.
Defined.

(** h at the prompt, then silence. *)
Lemma silent_terminal_blocks_without_seconds_witness :
  exists st',
    run (Runs.terminal ["h"%byte]) 2 Runs.ask Sample.start = (Blocked, st') /\
    r_user_input (l_result st') = Some (bytes_of "h") /\
    w_clock st' = 100 /\
    w_pos st' = 1%nat.
Proof.
  apply (silent_terminal_blocks_without_seconds
           (Runs.terminal ["h"%byte]) Runs.ask
           (Runs.resolved (Runs.terminal ["h"%byte]) Runs.ask)
           Sample.cooked Sample.cooked 100 [(0%nat, "h"%byte)] 0).
  - reflexivity.
  - apply sample_capable.
  - reflexivity.
  - reflexivity.
  - exact (typed_delivers StdinTty StdoutSameTty 0 ["h"%byte] Never).
  - repeat constructor; vm_compute; discriminate.
  - reflexivity.
Defined.

Lemma no_stdin_returns_at_once_witness :
  exists r st',
    run Runs.closed 1 Runs.ask_for_a_minute Sample.start = (Ret r, st') /\
    r_user_input r = Some [] /\
    w_pos st' = 0%nat /\
    w_clock st' = 100 /\
    In (EvWarning not_interactive_warning) (w_log st') /\
    w_alarm st' = Some 160.
Proof.
  apply (no_stdin_returns_at_once Runs.closed 0 Runs.ask_for_a_minute
           (Runs.resolved Runs.closed Runs.ask_for_a_minute) Sample.start).
  - right. reflexivity.
  - vm_compute. discriminate.
  - reflexivity.
Defined.

Lemma pipe_read_raises_unbound_intr_witness :
  exists st',
    run (MoreRuns.pipe 0 ["x"%byte]) 1 Runs.no_options Sample.start =
      (Raise (UnboundLocalError (bytes_of "intr")), st') /\
    w_pos st' = 1%nat /\
    w_tin st' = Sample.cooked /\
    forall m, ~ In (EvWarning m) (w_log st').
Proof.
  apply (pipe_read_raises_unbound_intr (MoreRuns.pipe 0 ["x"%byte]) 0 Runs.no_options
           (Runs.resolved (MoreRuns.pipe 0 ["x"%byte]) Runs.no_options)
           Sample.cooked Sample.cooked 100 0 ["x"%byte]).
  - reflexivity.
  - exact I.
  - reflexivity.
  - reflexivity.
  - exact I.
Defined.

Lemma echo_bit_follows_option_witness :
  exists st',
    enter_raw (Runs.terminal []) (Runs.resolved (Runs.terminal []) Runs.ask_echoing)
              (set_stdin_fd (Some FdStdin) Sample.start) = (Ret tt, st') /\
    l_old_settings st' = Some Sample.cooked /\
    w_tin st' = Termios.with_echo (raw_attrs (Runs.terminal []) Sample.cooked) /\
    Z.land (Termios.lflag (w_tin st')) Termios.ECHO = Termios.ECHO.
Proof.
  apply (echo_bit_follows_option (Runs.terminal [])
           (Runs.resolved (Runs.terminal []) Runs.ask_echoing)
           (set_stdin_fd (Some FdStdin) Sample.start)).
  - reflexivity.
  - reflexivity.
  - exact linux_setraw_clears_echo.
Defined.

(** [seconds: 0] *)
Lemma prompt_is_displayed_iff_witness :
  let E := Runs.terminal [] in
  let c := Runs.resolved E MoreRuns.wait_zero in
  In (EvDisplay (c_prompt c)) (w_log (armed MoreRuns.wait_zero c Sample.start)) <->
  c_seconds c = None \/ (has_prompt MoreRuns.wait_zero = true /\ alarm_fits c).
Proof.
  intros E c.
  apply (prompt_is_displayed_iff E MoreRuns.wait_zero c Sample.start).
  - reflexivity.
  - intros [].
Defined.

(** [seconds: 2147483648] *)
Lemma oversized_seconds_raise_before_the_loop_witness :
  exists st',
    run (Runs.terminal [LF]) 3 MoreRuns.too_long Sample.start =
      (Raise (PyOverflowError (bytes_of "signed integer is greater than maximum")), st') /\
    w_log st' = EvSignal :: w_log Sample.start /\
    w_alarm st' = w_alarm Sample.start /\
    w_pos st' = w_pos Sample.start /\
    w_tin st' = w_tin Sample.start /\
    w_tout st' = w_tout Sample.start.
Proof.
  apply (oversized_seconds_raise_before_the_loop (Runs.terminal [LF]) 3 MoreRuns.too_long
           (Runs.resolved (Runs.terminal [LF]) MoreRuns.too_long) Sample.start 2147483648).
  - reflexivity.
  - reflexivity.
  - reflexivity.
Defined.

(** Enter at the prompt, under TERM=dumb. *)
Lemma enter_without_capability_raises_witness :
  exists m st',
    run (dumb (Runs.terminal [LF])) 1 Runs.ask Sample.start = (Raise (PyTypeError m), st') /\
    w_pos st' = 1%nat /\
    w_tin st' = Sample.cooked /\
    exists l, w_log st' = EvTcsetattr FdStdin Termios.TCSADRAIN Sample.cooked :: l.
Proof.
  apply (enter_without_capability_raises (dumb (Runs.terminal [LF])) Runs.ask
           (Runs.resolved (dumb (Runs.terminal [LF])) Runs.ask)
           Sample.cooked Sample.cooked 100 (0%nat, LF) 0).
  - reflexivity.
  - apply dumb_incapable.
  - exact I.
  - reflexivity.
  - reflexivity.
  - vm_compute. discriminate.
  - right. reflexivity.
  - exact I.
Defined.

(** [prompt: X, timeout_answer: 5, seconds: 1] *)
Lemma timeout_answer_must_be_text_witness :
  run (Runs.terminal [LF]) 3 MoreRuns.ask_with_number Sample.start =
  (Raise (PyTypeError (bytes_of "descriptor 'encode' for 'str' objects doesn't apply to a 'int' object")),
   Sample.start).
Proof.
  apply (timeout_answer_must_be_text (Runs.terminal [LF]) 3 MoreRuns.ask_with_number
           Sample.start (PyInt 5)).
  - intros w Hw. discriminate Hw.
  - reflexivity.
  - reflexivity.
  - reflexivity.
Defined.
